(** * Company-research agent: job orchestration, notification hub and editor

    A shallow embedding of the orchestration code of the research agent:

    - [backend/services/websocket_manager.py]: the notification hub
      ([WebSocketManager]);
    - [application.py]: the job registry [job_status], the job runner
      [process_research], the status endpoint [websocket_endpoint] and
      the report endpoint [get_research_report];
    - [backend/nodes/grounding.py], [backend/nodes/briefing.py],
      [backend/nodes/editor.py]: the pipeline stages;
    - [backend/nodes/researchers/news.py],
      [backend/nodes/researchers/industry.py]: two of the analyzers.

    Python values are embedded as [pyval]; a [dict] used as a map is a
    [gmap string _], a [set] of connections is a [gset WebSocket], a [dict]
    whose iteration order is observable is an association list.  A Python
    [str] is a [string] whose characters stand for code points below 256;
    the fixed message texts of the program are carried as literals.
    Effects (the hub's mutable state, the frames put on the wire, raised
    exceptions) are threaded through a state-and-exception monad. *)

From stdpp Require Import ssreflect gmap strings list fin_maps fin_sets pretty.
From Stdlib Require Import ZArith Ascii.

#[local] Set Warnings "-register-all,-rewrite-rw,-deprecated-since-9.3,-clear-no-such-hyp".
#[local] Set Warnings "-abstract-large-number".

(** ** Python values *)

Inductive pyval : Type :=
| PyNone
| PyBool (b : bool)
| PyInt (z : Z)
| PyStr (s : string)
| PyList (xs : list pyval)
| PyDict (d : gmap string pyval)
| PyManager.

(** Truth value of a Python object, as tested by [if x], [x or y] and
    [if v := d.get(k)]. *)
Definition truthy (v : pyval) : bool :=
  match v with
  | PyNone => false
  | PyBool b => b
  | PyInt z => negb (Z.eqb z 0)
  | PyStr s => negb (String.eqb s "")
  | PyList xs => match xs with [] => false | _ => true end
  | PyDict d => match map_to_list d with [] => false | _ => true end
  | PyManager => true
  end.

(** [d.get(k)]: the value, or [None] when the key is absent. *)
Definition py_get (d : gmap string pyval) (k : string) : pyval :=
  default PyNone (d !! k).

(** [d.get(k, dflt)]. *)
Definition py_get_or (d : gmap string pyval) (k : string) (dflt : pyval) : pyval :=
  default dflt (d !! k).

(** [x or y]. *)
Definition py_or (x y : pyval) : pyval := if truthy x then x else y.

(** [str(x)] on the values that the program formats into texts. *)
Definition py_str (v : pyval) : string :=
  match v with
  | PyStr s => s
  | PyNone => "None"
  | PyBool true => "True"
  | PyBool false => "False"
  | _ => "<object>"
  end.

(** ** Python strings *)

(** ["\n"]. *)
Definition nl : string := String "010" "".

(** [c.isspace()] on code points below 256. *)
Definition is_space (c : ascii) : bool :=
  let n := nat_of_ascii c in
  ((9 <=? n) && (n <=? 13)) || ((28 <=? n) && (n <=? 32)) || (n =? 133) || (n =? 160).

(** A text made of white space only (the empty text included). *)
Fixpoint blank (s : string) : bool :=
  match s with
  | EmptyString => true
  | String c rest => is_space c && blank rest
  end.

Fixpoint lstrip (s : string) : string :=
  match s with
  | EmptyString => EmptyString
  | String c rest => if is_space c then lstrip rest else s
  end.

Fixpoint rstrip (s : string) : string :=
  match s with
  | EmptyString => EmptyString
  | String c rest => if blank s then EmptyString else String c (rstrip rest)
  end.

(** [s.strip()]. *)
Definition strip (s : string) : string := rstrip (lstrip s).

(** [needle in hay]. *)
Fixpoint contains (needle hay : string) : bool :=
  String.prefix needle hay ||
  match hay with
  | EmptyString => false
  | String _ rest => contains needle rest
  end.

(** [c in s] for a character [c]. *)
Fixpoint has_char (c : ascii) (s : string) : bool :=
  match s with
  | EmptyString => false
  | String c' rest => Ascii.eqb c c' || has_char c rest
  end.

(** [sep.join(xs)] is [String.concat sep xs]. *)

(** ** Exceptions and the state-and-exception monad *)

(** An exception is identified with its text [str(e)]. *)
Definition exn : Type := string.

Inductive result (A : Type) : Type :=
| Return (a : A)
| Raise (e : exn).
Arguments Return {A} a.
Arguments Raise {A} e.

Definition M (W A : Type) : Type := W → result A * W.

Definition ret {W A} (a : A) : M W A := λ w, (Return a, w).

Definition bind {W A B} (c : M W A) (k : A → M W B) : M W B :=
  λ w, match c w with
       | (Return a, w') => k a w'
       | (Raise e, w') => (Raise e, w')
       end.

Definition raise {W A} (e : exn) : M W A := λ w, (Raise e, w).

(** [try: body  except Exception as e: handler e]. *)
Definition try_except {W A} (body : M W A) (handler : exn → M W A) : M W A :=
  λ w, match body w with
       | (Return a, w') => (Return a, w')
       | (Raise e, w') => handler e w'
       end.

(** The outcome of a computation: whether it returned, and what. *)
Definition returns {A} (r : result A) : bool :=
  match r with Return _ => true | Raise _ => false end.

Definition value_of {A} (dflt : A) (r : result A) : A :=
  match r with Return a => a | Raise _ => dflt end.

Definition gets {W A} (f : W → A) : M W A := λ w, (Return (f w), w).
Definition modify {W} (f : W → W) : M W unit := λ w, (Return tt, f w).

(** Running a computation of a component inside a larger state. *)
Definition lift {W V A} (get : V → W) (put : W → V → V) (c : M W A) : M V A :=
  λ v, let '(r, w') := c (get v) in (r, put w' v).

#[global] Instance M_ret {W} : MRet (M W) := λ A, @ret W A.
#[global] Instance M_bind {W} : MBind (M W) := λ A B k c, @bind W A B c k.

(** [for x in xs: body x]. *)
Fixpoint for_each {W A} (xs : list A) (body : A → M W unit) : M W unit :=
  match xs with
  | [] => ret tt
  | x :: rest => body x ;; for_each rest body
  end.

(** ** The notification hub ([websocket_manager.py]) *)

(** A connection is an opaque handle. *)
Abbreviation WebSocket := nat (only parsing).

(** The [data] object built by [send_status_update]. *)
Record StatusUpdate : Type := mkUpdate {
  su_status : string;
  su_message : option string;
  su_error : option string;
  su_result : option pyval
}.

(** The message object [{"type": _, "data": _}], to which
    [broadcast_to_job] adds ["timestamp"]. *)
Record Message : Type := mkMessage {
  msg_type : string;
  msg_data : StatusUpdate;
  msg_timestamp : option nat
}.

(** One call of [connection.send_text]: the addressee, the text and
    whether the transport accepted it. *)
Record Frame : Type := mkFrame {
  fr_to : WebSocket;
  fr_text : Message;
  fr_delivered : bool
}.

(** The state the hub works on: its own attribute [active_connections],
    and the transport around it: the connections whose [send_text] raises,
    the frames attempted so far (oldest first), and the clock that
    [datetime.now()] reads. *)
Record World : Type := mkWorld {
  active_connections : gmap string (gset WebSocket);
  broken : gset WebSocket;
  wire : list Frame;
  now : nat
}.

Definition set_connections (f : gmap string (gset WebSocket) → gmap string (gset WebSocket))
    (w : World) : World :=
  mkWorld (f (active_connections w)) (broken w) (wire w) (now w).

Definition push_frame (f : Frame) (w : World) : World :=
  mkWorld (active_connections w) (broken w) (wire w ++ [f]) (now w).

Definition datetime_now : M World nat :=
  λ w, (Return (now w), mkWorld (active_connections w) (broken w) (wire w) (S (now w))).

Module WebSocketManager.

(** [__init__]: no active connection. *)
Definition init : gmap string (gset WebSocket) := ∅.

(** The effect of [connect] on [active_connections]. *)
Definition connect_map (websocket : WebSocket) (job_id : string)
    (conns : gmap string (gset WebSocket)) : gmap string (gset WebSocket) :=
  let conns1 :=
    match conns !! job_id with
    | None => <[job_id := ∅]> conns
    | Some _ => conns
    end in
  alter (λ s, s ∪ {[websocket]}) job_id conns1.

(** The effect of [disconnect] on [active_connections]. *)
Definition disconnect_map (websocket : WebSocket) (job_id : string)
    (conns : gmap string (gset WebSocket)) : gmap string (gset WebSocket) :=
  match conns !! job_id with
  | None => conns
  | Some _ =>
      let conns1 := alter (λ s, s ∖ {[websocket]}) job_id conns in
      match conns1 !! job_id with
      | Some s => if decide (s = ∅) then delete job_id conns1 else conns1
      | None => conns1
      end
  end.

Definition connect (websocket : WebSocket) (job_id : string) : M World unit :=
  modify (set_connections (connect_map websocket job_id)).

Definition disconnect (websocket : WebSocket) (job_id : string) : M World unit :=
  modify (set_connections (disconnect_map websocket job_id)).

(** [await connection.send_text(message_str)]: raises when the
    connection is gone. *)
Definition send_text (connection : WebSocket) (message_str : Message) : M World unit :=
  λ w, if decide (connection ∈ broken w)
       then (Raise "WebSocketDisconnect", push_frame (mkFrame connection message_str false) w)
       else (Return tt, push_frame (mkFrame connection message_str true) w).

(** The sending loop of [broadcast_to_job]; it returns the set
    [disconnected]. *)
Fixpoint send_loop (connections : list WebSocket) (message_str : Message)
    (disconnected : gset WebSocket) : M World (gset WebSocket) :=
  match connections with
  | [] => ret disconnected
  | connection :: rest =>
      d ← try_except
             (send_text connection message_str ;; ret disconnected)
             (λ _, ret (disconnected ∪ {[connection]}));
      send_loop rest message_str d
  end.

Definition broadcast_to_job (job_id : string) (message : Message) : M World unit :=
  conns ← gets active_connections;
  match conns !! job_id with
  | None => ret tt
  | Some subscribers =>
      t ← datetime_now;
      let message_str := mkMessage (msg_type message) (msg_data message) (Some t) in
      disconnected ← send_loop (elements subscribers) message_str ∅;
      for_each (elements disconnected) (λ connection, disconnect connection job_id)
  end.

Definition send_status_update (job_id : string) (status : string)
    (message : option string) (error : option string) (result : option pyval)
    : M World unit :=
  let update := mkMessage "status_update" (mkUpdate status message error result) None in
  broadcast_to_job job_id update.

End WebSocketManager.

(** The connections registered for a job ([active_connections.get(job_id, set())]). *)
Definition subscribers (conns : gmap string (gset WebSocket)) (job_id : string) : gset WebSocket :=
  default ∅ (conns !! job_id).

(** *** Vocabulary for the hub's properties *)

(** Every job id in the map has at least one connection. *)
Definition hub_inv (conns : gmap string (gset WebSocket)) : Prop :=
  ∀ job_id s, conns !! job_id = Some s → s ≠ ∅.

(** The frame that the sending loop produces for one connection. *)
Definition frame_for (w : World) (msg : Message) (ws : WebSocket) : Frame :=
  mkFrame ws msg (bool_decide (ws ∉ broken w)).

(** A call of one of the hub's public methods, and a sequence of them. *)
Inductive hub_call : Type :=
| CallConnect (websocket : WebSocket) (job_id : string)
| CallDisconnect (websocket : WebSocket) (job_id : string)
| CallBroadcast (job_id : string) (message : Message).

Definition run_call (c : hub_call) : M World unit :=
  match c with
  | CallConnect ws job => WebSocketManager.connect ws job
  | CallDisconnect ws job => WebSocketManager.disconnect ws job
  | CallBroadcast job msg => WebSocketManager.broadcast_to_job job msg
  end.

(** A fresh process: no registration, nothing sent, every connection in
    [gone] rejects frames. *)
Definition fresh_world (gone : gset WebSocket) : World :=
  mkWorld WebSocketManager.init gone [] 0.

(** A world in which connections [1] and [2] follow job ["job-a"] and the
    transport of [2] is gone. *)
Definition two_listeners : World :=
  (for_each [CallConnect 1 "job-a"; CallConnect 2 "job-a"] run_call (fresh_world {[2]})).2.

Definition hello : Message :=
  mkMessage "status_update" (mkUpdate "processing" (Some "hello") None None) None.

(** ** The application ([application.py]) *)

(** A request body ([ResearchRequest]). *)
Record ResearchRequest : Type := mkRequest {
  company : string;
  company_url : option string;
  industry : option string;
  hq_location : option string
}.

(** One entry of [job_status]. *)
Record JobRecord : Type := mkJob {
  job_state : string;          (* "status" *)
  job_result : option pyval;   (* "result" *)
  job_error : option string;   (* "error" *)
  job_debug_info : list string;(* "debug_info" *)
  job_company : pyval;         (* "company" *)
  job_report : pyval;          (* "report" *)
  job_last_update : nat        (* "last_update" *)
}.

(** The calls made on the durable store, which is an external service:
    [mongodb] is either [None] or a service whose calls may raise. *)
Inductive MongoCall : Type :=
| CreateJob (job_id : string) (data : ResearchRequest)
| UpdateJob (job_id : string) (status : string) (error : option string)
| StoreReport (job_id : string) (report : pyval).

Definition MongoDBService : Type := MongoCall → option exn.

(** The process state: the registry [job_status], the hub [manager] with
    its transport, and the calls received by the durable store.  The field
    [recorded] is a ghost log: it lists, oldest first, every status value
    written into [job_status], with the job id it was written for. *)
Record App : Type := mkApp {
  job_status : gmap string JobRecord;
  manager : World;
  stored : list MongoCall;
  recorded : list (string * string)
}.

Definition in_manager {A} (c : M World A) : M App A :=
  lift manager (λ w a, mkApp (job_status a) w (stored a) (recorded a)) c.

(** The factory of the [defaultdict]. *)
Definition default_job (t : nat) : JobRecord :=
  mkJob "pending" None None [] PyNone PyNone t.

(** [job_status[job_id]]: indexing a [defaultdict] inserts the default
    entry when the key is missing. *)
Definition job_status_getitem (job_id : string) : M App JobRecord :=
  registry ← gets job_status;
  match registry !! job_id with
  | Some r => ret r
  | None =>
      t ← in_manager datetime_now;
      let r := default_job t in
      modify (λ a, mkApp (<[job_id := r]> (job_status a)) (manager a) (stored a)
                     (recorded a ++ [(job_id, job_state r)]));;
      ret r
  end.

(** [job_status[job_id].update({"status": _, "report": _, "company": _,
    "last_update": datetime.now().isoformat()})]. *)
Definition job_status_update (job_id : string) (status : string) (report company : pyval)
    : M App unit :=
  r ← job_status_getitem job_id;
  t ← in_manager datetime_now;
  modify (λ a, mkApp (<[job_id := mkJob status (job_result r) (job_error r) (job_debug_info r)
                                    company report t]> (job_status a))
                 (manager a) (stored a) (recorded a ++ [(job_id, status)])).

(** A call on the durable store. *)
Definition mongo (mongodb : option MongoDBService) (c : MongoCall) : M App unit :=
  match mongodb with
  | None => ret tt
  | Some service =>
      λ a, let a' := mkApp (job_status a) (manager a) (stored a ++ [c]) (recorded a) in
           match service c with
           | Some e => (Raise e, a')
           | None => (Return tt, a')
           end
  end.

(** [v.get(k)] on an arbitrary object: an [AttributeError] unless [v] is a
    [dict]. *)
Definition py_dict_get {W} (v : pyval) (k : string) : M W pyval :=
  match v with
  | PyDict d => ret (py_get d k)
  | _ => raise "AttributeError: object has no attribute 'get'"
  end.

(** [len(v)]: a [TypeError] on an object without length. *)
Definition py_len {W} (v : pyval) : M W nat :=
  match v with
  | PyStr s => ret (String.length s)
  | PyList xs => ret (length xs)
  | PyDict d => ret (size d)
  | _ => raise "TypeError: object has no len()"
  end.

(** [state.update(s)] for each yielded [s], starting from [{}]. *)
Definition merge_states (states : list (gmap string pyval)) : gmap string pyval :=
  foldl (λ state s, s ∪ state) ∅ states.

(** [Graph(...).run(thread={})] seen from [process_research]: given the
    request and the job id, it publishes through the hub and yields a
    sequence of states, or raises. *)
Definition Graph : Type := ResearchRequest → string → M World (list (gmap string pyval)).

(** The end of the [try] block of [process_research]: what is done with
    the merged state. *)
Definition conclude_research (mongodb : option MongoDBService) (job_id : string)
    (data : ResearchRequest) (state : gmap string pyval) : M App unit :=
  report_content ←
    (if truthy (py_get state "report") then ret (py_get state "report")
     else py_dict_get (py_or (py_get state "editor") (PyDict ∅)) "report");
  if truthy report_content then
    _ ← py_len report_content;
    job_status_update job_id "completed" report_content (PyStr (company data));;
    mongo mongodb (UpdateJob job_id "completed" None);;
    mongo mongodb (StoreReport job_id report_content);;
    in_manager (WebSocketManager.send_status_update job_id "completed"
                  (Some "Recherche terminée avec succès") None
                  (Some (PyDict {[ "report" := report_content;
                                   "company" := PyStr (company data) ]})))
  else
    let error_message :=
      if truthy (py_get state "error")
      then "Erreur : " +:+ py_str (py_get state "error")
      else "Aucun rapport trouvé" in
    in_manager (WebSocketManager.send_status_update job_id "failed"
                  (Some "La recherche s'est terminée mais aucun rapport n'a été généré")
                  (Some error_message) None).

(** The [try] block of [process_research]. *)
Definition attempt_research (mongodb : option MongoDBService) (graph : Graph)
    (job_id : string) (data : ResearchRequest) : M App unit :=
  mongo mongodb (CreateJob job_id data);;
  (* await asyncio.sleep(1) *)
  in_manager (WebSocketManager.send_status_update job_id "processing"
                (Some "Starting research") None None);;
  states ← in_manager (graph data job_id);
  conclude_research mongodb job_id data (merge_states states).

(** The [except Exception as e] block of [process_research]. *)
Definition research_failed (mongodb : option MongoDBService) (job_id : string) (e : exn)
    : M App unit :=
  in_manager (WebSocketManager.send_status_update job_id "failed"
                (Some ("La recherche a échoué : " +:+ e)) (Some e) None);;
  mongo mongodb (UpdateJob job_id "failed" (Some e)).

Definition process_research (mongodb : option MongoDBService) (graph : Graph)
    (job_id : string) (data : ResearchRequest) : M App unit :=
  try_except (attempt_research mongodb graph job_id data)
    (research_failed mongodb job_id).

(** What a connection receives after it is accepted. *)
Inductive Received : Type :=
| RecvText (text : string)
| RecvDisconnect
| RecvError (e : exn).

(** [await websocket.accept()]: raises when the connection is gone. *)
Definition accept (websocket : WebSocket) : M World unit :=
  λ w, if decide (websocket ∈ broken w) then (Raise "WebSocketDisconnect", w)
       else (Return tt, w).

(** The receive loop of [websocket_endpoint] over what the client does;
    with nothing more to receive the coroutine stays suspended. *)
Fixpoint receive_loop (websocket : WebSocket) (job_id : string) (inbox : list Received)
    : M App unit :=
  match inbox with
  | [] => ret tt
  | RecvText _ :: rest => receive_loop websocket job_id rest
  | RecvDisconnect :: _ => in_manager (WebSocketManager.disconnect websocket job_id)
  | RecvError e :: _ => raise e
  end.

Definition websocket_endpoint (websocket : WebSocket) (job_id : string)
    (inbox : list Received) : M App unit :=
  try_except
    (in_manager (accept websocket);;
     in_manager (WebSocketManager.connect websocket job_id);;
     registry ← gets job_status;
     match registry !! job_id with
     | Some status =>
         in_manager (WebSocketManager.send_status_update job_id (job_state status)
                       (Some "Connected to status stream")
                       (job_error status) (job_result status))
     | None => ret tt
     end;;
     receive_loop websocket job_id inbox)
    (λ _, in_manager (WebSocketManager.disconnect websocket job_id)).

(** ** The pipeline stages *)

(** The external services that the stages call.  Each may raise.  The
    texts of the prompts are not modelled: a service is given the values
    from which its prompt is built. *)
Inductive StreamItem : Type :=
| Delta (content : option string)   (* a chunk with [delta.content] *)
| Stop                              (* a chunk with [finish_reason == "stop"] *)
| Broken (e : exn).                 (* the stream raises *)

Record Services : Type := mkServices {
  (* [tavily_client.crawl(url=url, ...)]: the list under ["results"] *)
  tavily_crawl : pyval → result (list (gmap string pyval));
  (* the document texts that [generate_category_briefing] sorts by score,
     truncates and puts in its prompt; building them raises on a document
     without a numeric score or without text *)
  briefing_documents : string → pyval → result (list string);
  (* [gemini_model.generate_content(prompt).text], for a category, the
     context and the document texts *)
  gemini_generate : string → gmap string pyval → list string → result string;
  (* [format_references_section(references, reference_info, reference_titles)] *)
  format_references_section : pyval → pyval → pyval → result string;
  (* the non-streamed completion of [compile_content]:
     [response.choices[0].message.content], for the context and the
     combined content *)
  openai_compile : gmap string pyval → string → result string;
  (* the streamed completion of [content_sweep], for the context and the
     content *)
  openai_sweep : gmap string pyval → string → result (list StreamItem)
}.

(** The guarded notification that every stage repeats:
[[
    if websocket_manager := state.get('websocket_manager'):
        if job_id := state.get('job_id'):
            await websocket_manager.send_status_update(job_id=job_id, ...)
]]
    A job id that is not a string is registered nowhere; one that is not
    hashable cannot be looked up. *)
Definition notify (state : gmap string pyval) (status message : string) (res : pyval)
    : M World unit :=
  if truthy (py_get state "websocket_manager") then
    if truthy (py_get state "job_id") then
      match py_get state "websocket_manager" with
      | PyManager =>
          match py_get state "job_id" with
          | PyStr job_id =>
              WebSocketManager.send_status_update job_id status (Some message) None (Some res)
          | PyList _ | PyDict _ => raise "TypeError: unhashable type"
          | _ => ret tt
          end
      | _ => raise "AttributeError: object has no attribute 'send_status_update'"
      end
    else ret tt
  else ret tt.

Definition step_result (step : string) : pyval := PyDict {[ "step" := PyStr step ]}.

Module GroundingNode.

Definition crawl_error_prefix : string :=
  "⚠️ Erreur lors de l’exploration du contenu du site web :".

(** The pages kept from the crawl: those with a [raw_content]. *)
Fixpoint scrape (url : pyval) (items : list (gmap string pyval))
    (site_scrape : gmap string pyval) : gmap string pyval :=
  match items with
  | [] => site_scrape
  | item :: rest =>
      if truthy (py_get item "raw_content") then
        let page_url := py_get_or item "url" url in
        scrape url rest
          (<[py_str page_url := PyDict {[ "raw_content" := py_get item "raw_content";
                                          "source" := PyStr "site_entreprise" ]}]> site_scrape)
      else scrape url rest site_scrape
  end.

(** The crawl of the company site: the pages found, the text appended to
    [msg], and [error_str] when the crawl raised. *)
Definition explore (svc : Services) (state : gmap string pyval) (url : pyval)
    : M World (gmap string pyval * string * option string) :=
  notify state "processing" "Exploration du site web de l’entreprise"
    (step_result "Exploration initiale du site");;
  try_except
    (site_extraction ← (λ w, (tavily_crawl svc url, w)) : M World _;
     let site_scrape := scrape url site_extraction ∅ in
     let pages := pretty (size site_scrape) in
     if truthy (PyDict site_scrape) then
       notify state "processing"
         ("Exploration réussie de " +:+ pages +:+ " pages du site web")
         (step_result "Exploration initiale du site");;
       ret (site_scrape,
            nl +:+ "✅ Exploration réussie de " +:+ pages +:+ " pages du site web", None)
     else
       notify state "processing" "⚠️ Aucun contenu trouvé à l’URL fournie"
         (step_result "Exploration initiale du site");;
       ret (site_scrape,
            nl +:+ "⚠️ Aucun contenu trouvé lors de l’exploration du site web", None))
    (λ e,
       let error_str := e in
       let error_msg := crawl_error_prefix +:+ " " +:+ error_str in
       notify state "website_error" error_msg
         (PyDict {[ "step" := PyStr "Exploration initiale du site";
                    "error" := PyStr error_str;
                    "continue_research" := PyBool true ]});;
       ret (∅, nl +:+ error_msg, Some error_str)).

(** The first half of [initial_search]: the crawl when a URL is given.
    It returns [site_scrape], [msg] and [error_str] (unbound unless the
    crawl raised). *)
Definition survey (svc : Services) (state : gmap string pyval) (msg0 : string)
    : M World (gmap string pyval * string * option string) :=
  if truthy (py_get state "company_url") then
    '(site_scrape, text, error_str) ← explore svc state (py_get state "company_url");
    ret (site_scrape,
         msg0 +:+ nl +:+ "🌐 Exploration du site web de l’entreprise : "
           +:+ py_str (py_get state "company_url") +:+ text,
         error_str)
  else
    notify state "processing"
      "Aucune URL d’entreprise fournie, passage direct à la phase de recherche"
      (step_result "Initialisation");;
    ret (∅,
         msg0 +:+ nl
           +:+ "⏩ Aucune URL d’entreprise fournie, passage direct à la phase de recherche",
         None).

(** The dict [research_state]. *)
Definition research_state_of (state : gmap string pyval) (msg : string)
    (site_scrape : gmap string pyval) : gmap string pyval :=
  {[ "company" := py_get state "company";
     "company_url" := py_get state "company_url";
     "hq_location" := py_get state "hq_location";
     "industry" := py_get state "industry";
     "messages" := PyList [PyStr msg];
     "site_scrape" := PyDict site_scrape;
     "websocket_manager" := py_get state "websocket_manager";
     "job_id" := py_get state "job_id" ]}.

(** [msg] with the context lines about the head office and the
    industry. *)
Definition with_context (state : gmap string pyval) (msg1 : string) : string :=
  let msg2 :=
    if truthy (py_get state "hq_location")
    then msg1 +:+ nl +:+ "📍 Siège social : " +:+ py_str (py_get state "hq_location")
    else msg1 in
  if truthy (py_get state "industry")
  then msg2 +:+ nl +:+ "🏭 Secteur d’activité : " +:+ py_str (py_get state "industry")
  else msg2.

(** The second half of [initial_search]: the state is built, and the
    crawl error is stored in it when [msg] mentions one. *)
Definition conclude_search (state : gmap string pyval)
    (found : gmap string pyval * string * option string) : M World (gmap string pyval) :=
  let '(site_scrape, msg1, error_str) := found in
  let msg := with_context state msg1 in
  let research_state := research_state_of state msg site_scrape in
  if contains crawl_error_prefix msg then
    match error_str with
    | Some e => ret (<["error" := PyStr e]> research_state)
    | None => raise "UnboundLocalError: error_str"
    end
  else ret research_state.

Definition initial_search (svc : Services) (state : gmap string pyval)
    : M World (gmap string pyval) :=
  let company := py_get_or state "company" (PyStr "Entreprise inconnue") in
  let msg0 := "🎯 Démarrage de la recherche pour " +:+ py_str company +:+ "..." +:+ nl in
  notify state "processing" ("🎯 Démarrage de la recherche pour " +:+ py_str company)
    (step_result "Initialisation");;
  found ← survey svc state msg0;
  conclude_search state found.

Definition run := initial_search.

End GroundingNode.

(** The stages after grounding mutate the state object they are given:
    the state [st] is part of what the monad threads, next to the hub. *)
Record Stage : Type := mkStage {
  st : gmap string pyval;
  hub : World
}.

Definition in_hub {A} (c : M World A) : M Stage A :=
  lift hub (λ w s, mkStage (st s) w) c.

(** The result of a call to an external service. *)
Definition call {W A} (r : result A) : M W A := λ w, (r, w).

(** [state[k] = v]. *)
Definition setitem (k : string) (v : pyval) : M Stage unit :=
  modify (λ s, mkStage (<[k := v]> (st s)) (hub s)).

Definition notify_st (status message : string) (res : pyval) : M Stage unit :=
  state ← gets st;
  in_hub (notify state status message res).

(** [state['editor']['report'] = report], after
[[
    if 'editor' not in state or not isinstance(state['editor'], dict):
        state['editor'] = {}
]] *)
Definition set_editor_report (report : pyval) : M Stage unit :=
  state ← gets st;
  let editor := match state !! "editor" with Some (PyDict d) => d | _ => ∅ end in
  setitem "editor" (PyDict (<["report" := report]> editor)).

Definition editor_result (substep : string) : pyval :=
  PyDict {[ "step" := PyStr "Éditeur"; "substep" := PyStr substep ]}.

Definition chunk_result (buffer : string) : pyval :=
  PyDict {[ "chunk" := PyStr buffer; "step" := PyStr "Éditeur" ]}.

Module Editor.

Definition briefing_keys : list (string * string) :=
  [("company", "company_briefing"); ("industry", "industry_briefing");
   ("financial", "financial_briefing"); ("news", "news_briefing")].

(** [self.context], as [compile_briefings] sets it. *)
Definition context_of (state : gmap string pyval) : gmap string pyval :=
  {[ "company" := py_get_or state "company" (PyStr "Entreprise inconnue");
     "industry" := py_get_or state "industry" (PyStr "Secteur inconnu");
     "hq_location" := py_get_or state "hq_location" (PyStr "Inconnue") ]}.

(** The texts of [briefings.values()], in order; joining raises on a
    value that is not a [str]. *)
Fixpoint texts {W} (briefings : list (string * pyval)) : M W (list string) :=
  match briefings with
  | [] => ret []
  | (_, PyStr content) :: rest => l ← texts rest; ret (content :: l)
  | _ :: _ => raise "TypeError: sequence item: expected str instance"
  end.

Definition compile_content (svc : Services) (context : gmap string pyval)
    (briefings : list (string * pyval)) : M Stage string :=
  contents ← texts briefings;
  let combined_content := String.concat (nl +:+ nl) contents in
  state ← gets st;
  let references := py_get_or state "references" (PyList []) in
  reference_text ←
    (if truthy references then
       _ ← py_len references;
       call (format_references_section svc references
               (py_get_or state "reference_info" (PyDict ∅))
               (py_get_or state "reference_titles" (PyDict ∅)))
     else ret "");
  try_except
    (response ← call (openai_compile svc context combined_content);
     let initial_report := strip response in
     ret (if String.eqb reference_text "" then initial_report
          else initial_report +:+ nl +:+ nl +:+ reference_text))
    (λ _, ret (strip combined_content)).

(** The flush condition of the streaming loop. *)
Definition flushable (buffer : string) : bool :=
  (has_char "." buffer || has_char "!" buffer || has_char "?" buffer
   || has_char "010" buffer)
  && (10 <? String.length buffer).

Definition send_chunk (buffer : string) : M Stage unit :=
  notify_st "report_chunk" "Mise en forme du rapport final" (chunk_result buffer).

(** [async for chunk in response: ...]; it returns [accumulated_text]. *)
Fixpoint sweep_loop (response : list StreamItem) (accumulated_text buffer : string)
    : M Stage string :=
  match response with
  | [] => ret accumulated_text
  | Broken e :: _ => raise e
  | Stop :: _ =>
      (if String.eqb buffer "" then ret tt else send_chunk buffer);;
      ret accumulated_text
  | Delta chunk_text :: rest =>
      match chunk_text with
      | Some text =>
          if String.eqb text "" then sweep_loop rest accumulated_text buffer
          else
            let accumulated_text := accumulated_text +:+ text in
            let buffer := buffer +:+ text in
            if flushable buffer then
              send_chunk buffer;;
              sweep_loop rest accumulated_text ""
            else sweep_loop rest accumulated_text buffer
      | None => sweep_loop rest accumulated_text buffer
      end
  end.

Definition content_sweep (svc : Services) (context : gmap string pyval) (content : string)
    : M Stage string :=
  try_except
    (response ← call (openai_sweep svc context content);
     accumulated_text ← sweep_loop response "" "";
     ret (strip accumulated_text))
    (λ _, ret (strip content)).

Definition edit_report (svc : Services) (context : gmap string pyval)
    (briefings : list (string * pyval)) : M Stage string :=
  try_except
    (notify_st "processing" "Compilation du rapport de recherche initial"
       (editor_result "compilation");;
     edited_report ← compile_content svc context briefings;
     if String.eqb edited_report "" then ret ""
     else
       notify_st "processing" "Nettoyage et organisation du rapport"
         (editor_result "nettoyage");;
       notify_st "processing" "Mise en forme du rapport final"
         (editor_result "mise_en_forme");;
       final_report ← content_sweep svc context edited_report;
       if String.eqb (strip final_report) "" then ret ""
       else
         setitem "report" (PyStr final_report);;
         setitem "status" (PyStr "editor_complete");;
         set_editor_report (PyStr final_report);;
         notify_st "editor_complete" "Rapport de recherche terminé"
           (PyDict {[ "step" := PyStr "Éditeur";
                      "report" := PyStr final_report;
                      "company" := py_get context "company";
                      "is_final" := PyBool true;
                      "status" := PyStr "terminé" ]});;
         ret final_report)
    (λ _, ret "").

(** The loop that collects the briefings present in the state, with the
    lines it appends to [msg]. *)
Fixpoint collect (keys : list (string * string)) (state : gmap string pyval)
    : M Stage (list (string * pyval) * list string) :=
  match keys with
  | [] => ret ([], [])
  | (category, key) :: rest =>
      let content := py_get state key in
      if truthy content then
        n ← py_len content;
        '(found, msg) ← collect rest state;
        ret ((category, content) :: found,
             ("Synthèse " +:+ category +:+ " trouvée (" +:+ pretty n +:+ " caractères)") :: msg)
      else
        '(found, msg) ← collect rest state;
        ret (found, ("Aucune synthèse " +:+ category +:+ " disponible") :: msg)
  end.

(** [state.setdefault('messages', []).append(AIMessage(content=text))]. *)
Definition append_message (text : string) : M Stage unit :=
  state ← gets st;
  match state !! "messages" with
  | None => setitem "messages" (PyList [PyStr text])
  | Some (PyList l) => setitem "messages" (PyList (l ++ [PyStr text]))
  | Some _ => raise "AttributeError: object has no attribute 'append'"
  end.

Definition compile_briefings (svc : Services) : M Stage unit :=
  state ← gets st;
  let company := py_get_or state "company" (PyStr "Entreprise inconnue") in
  let context := context_of state in
  notify_st "processing"
    ("Démarrage de la compilation du rapport pour " +:+ py_str company)
    (editor_result "initialisation");;
  let msg0 := ["📑 Compilation du rapport final pour " +:+ py_str company +:+ "..."] in
  notify_st "processing" "Collecte des synthèses de sections"
    (editor_result "collecte_synthèses");;
  '(individual_briefings, lines) ← collect briefing_keys state;
  msg ←
    match individual_briefings with
    | [] =>
        ret (msg0 ++ lines
               ++ [nl +:+ "⚠️ Aucune section de synthèse disponible pour la compilation"])
    | _ :: _ =>
        try_except (edit_report svc context individual_briefings;; ret tt) (λ _, ret tt);;
        ret (msg0 ++ lines)
    end;
  append_message (String.concat nl msg).

Definition run (svc : Services) : M Stage unit :=
  compile_briefings svc;;
  state ← gets st;
  match state !! "report" with
  | Some report => set_editor_report report
  | None => ret tt
  end.

End Editor.

Module Briefing.

(** Curated data field, category and state key of each briefing, in the
    order of the [categories] dict. *)
Definition categories : list (string * (string * string)) :=
  [("financial_data", ("financial", "financial_briefing"));
   ("news_data", ("news", "news_briefing"));
   ("industry_data", ("industry", "industry_briefing"));
   ("company_data", ("company", "company_briefing"))].

(** An entry of [briefing_tasks]. *)
Record Task : Type := mkTask {
  category : string;
  briefing_key : string;
  data_field : string;
  curated_data : pyval
}.

(** The loop that fills [briefing_tasks]; a category without curated
    data gets an empty briefing at once. *)
Fixpoint plan (cats : list (string * (string * string))) : M Stage (list Task) :=
  match cats with
  | [] => ret []
  | (field, (cat, key)) :: rest =>
      state ← gets st;
      let data := py_get_or state ("curated_" +:+ field) (PyDict ∅) in
      if truthy data then
        _ ← py_len data;
        tasks ← plan rest;
        ret (mkTask cat key field data :: tasks)
      else
        setitem key (PyStr "");;
        plan rest
  end.

(** Where a [process_briefing] task stands.  A task runs from one
    suspension point to the next without interleaving:
    - [Waiting]: at [async with briefing_semaphore], not yet let in;
    - [Holding]: holds a token, about to enter
      [generate_category_briefing] and send its start status;
    - [Started]: the start status is sent; next come the prompt, the
      generative call and, on an empty or failed answer, the empty
      briefing;
    - [Generated content]: the call answered [content]; next come the
      completion status, the write into the state and the release;
    - [Finished]: returned, token released;
    - [Aborted e]: [e] escaped the task, token released by [async with]. *)
Inductive Pc : Type :=
| Waiting
| Holding
| Started
| Generated (content : string)
| Finished
| Aborted (e : exn).

(** The tasks in flight under [asyncio.gather], with what they share:
    the semaphore's value, the local dict [briefings], the state and the
    hub, and the first exception that escaped a task. *)
Record Pool : Type := mkPool {
  semaphore : nat;
  briefings : gmap string pyval;
  procs : list (Task * Pc);
  failure : option exn;
  stage : Stage
}.

Definition holds_token (pc : Pc) : bool :=
  match pc with
  | Holding | Started | Generated _ => true
  | Waiting | Finished | Aborted _ => false
  end.

Definition terminated (pc : Pc) : bool :=
  match pc with
  | Finished | Aborted _ => true
  | _ => false
  end.

(** The number of tasks inside [async with briefing_semaphore]. *)
Definition holders (procs : list (Task * Pc)) : nat :=
  length (filter (λ p, holds_token p.2 = true) procs).

(** The end of [process_briefing]: the result is stored, the task
    returns and [async with] releases the token. *)
Definition store (i : nat) (t : Task) (content : string) (stage' : Stage) (p : Pool) : Pool :=
  mkPool (S (semaphore p))
    (if String.eqb content "" then briefings p
     else <[category t := PyStr content]> (briefings p))
    (<[i := (t, Finished)]> (procs p))
    (failure p)
    (mkStage (<[briefing_key t := PyStr content]> (st stage')) (hub stage')).

(** An exception leaves [async with]: the token is released. *)
Definition abort (i : nat) (t : Task) (e : exn) (stage' : Stage) (p : Pool) : Pool :=
  mkPool (S (semaphore p)) (briefings p) (<[i := (t, Aborted e)]> (procs p))
    (Some (default e (failure p))) stage'.

Definition start_result (t : Task) (total_docs : nat) : pyval :=
  PyDict {[ "step" := PyStr "Briefing"; "category" := PyStr (category t);
            "total_docs" := PyInt (Z.of_nat total_docs) ]}.

Definition complete_result (t : Task) : pyval :=
  PyDict {[ "step" := PyStr "Briefing"; "category" := PyStr (category t) ]}.

(** One move of task [i]: from its suspension point to the next one. *)
Definition step (svc : Services) (context : gmap string pyval) (i : nat) (p : Pool) : Pool :=
  match procs p !! i with
  | None => p
  | Some (t, Waiting) =>
      match semaphore p with
      | O => p
      | S n => mkPool n (briefings p) (<[i := (t, Holding)]> (procs p)) (failure p) (stage p)
      end
  | Some (t, Holding) =>
      match (total_docs ← py_len (curated_data t);
             in_hub (notify context "briefing_start"
                       ("Génération du briefing " +:+ category t)
                       (start_result t total_docs))) (stage p) with
      | (Return _, stage') =>
          mkPool (semaphore p) (briefings p) (<[i := (t, Started)]> (procs p)) (failure p) stage'
      | (Raise e, stage') => abort i t e stage' p
      end
  | Some (t, Started) =>
      match briefing_documents svc (category t) (curated_data t) with
      | Raise e => abort i t e (stage p) p
      | Return doc_texts =>
          match gemini_generate svc (category t) context doc_texts with
          | Raise _ => store i t "" (stage p) p
          | Return text =>
              if String.eqb (strip text) "" then store i t "" (stage p) p
              else mkPool (semaphore p) (briefings p)
                     (<[i := (t, Generated (strip text))]> (procs p)) (failure p) (stage p)
          end
      end
  | Some (t, Generated content) =>
      match in_hub (notify context "briefing_complete"
                      ("Briefing " +:+ category t +:+ " complété")
                      (complete_result t)) (stage p) with
      | (Return _, stage') => store i t content stage' p
      | (Raise _, stage') => store i t "" stage' p
      end
  | Some (_, Finished) | Some (_, Aborted _) => p
  end.

(** The task can move. *)
Definition enabled (p : Pool) (i : nat) : bool :=
  match procs p !! i with
  | Some (_, Waiting) => negb (semaphore p =? 0)
  | Some (_, pc) => negb (terminated pc)
  | None => false
  end.

(** The moves chosen by the event loop, in order. *)
Definition run_schedule (svc : Services) (context : gmap string pyval)
    (schedule : list nat) (p : Pool) : Pool :=
  foldl (λ p i, step svc context i p) p schedule.

(** The first task that can move. *)
Definition next_enabled (p : Pool) : option nat :=
  head (filter (λ i, enabled p i = true) (seq 0 (length (procs p)))).

(** [gather] waits for every task: once the chosen moves are played the
    remaining ones follow, first task first. *)
Fixpoint drain (svc : Services) (context : gmap string pyval) (fuel : nat) (p : Pool) : Pool :=
  match fuel with
  | O => p
  | S fuel' =>
      match next_enabled p with
      | Some i => drain svc context fuel' (step svc context i p)
      | None => p
      end
  end.

Definition init_pool (tasks : list Task) (s : Stage) : Pool :=
  mkPool 2 ∅ (map (λ t, (t, Waiting)) tasks) None s.

(** [await asyncio.gather] of one [process_briefing(task)] per entry of
    [briefing_tasks], under [briefing_semaphore = asyncio.Semaphore(2)]:
    every task takes at most four moves.  The call raises the first
    exception that escaped a task. *)
Definition gather (svc : Services) (context : gmap string pyval) (schedule : list nat)
    (tasks : list Task) : M Stage (gmap string pyval) :=
  λ s, let p := drain svc context (4 * length tasks)
                  (run_schedule svc context schedule (init_pool tasks s)) in
       match failure p with
       | Some e => (Raise e, stage p)
       | None => (Return (briefings p), stage p)
       end.

Definition context_of (state : gmap string pyval) : gmap string pyval :=
  {[ "company" := py_get_or state "company" (PyStr "Unknown Company");
     "industry" := py_get_or state "industry" (PyStr "Unknown");
     "hq_location" := py_get_or state "hq_location" (PyStr "Unknown");
     "websocket_manager" := py_get state "websocket_manager";
     "job_id" := py_get state "job_id" ]}.

Definition create_briefings (svc : Services) (schedule : list nat) : M Stage unit :=
  state ← gets st;
  notify_st "processing" "Starting research briefings" (step_result "Briefing");;
  let context := context_of state in
  briefing_tasks ← plan categories;
  briefings ←
    match briefing_tasks with
    | [] => ret ∅
    | _ :: _ => gather svc context schedule briefing_tasks
    end;
  setitem "briefings" (PyDict briefings).

Definition run := create_briefings.

End Briefing.

(** ** The stage graph *)

(** The input state that [Graph.__init__] builds from the arguments that
    [process_research] passes. *)
Definition opt_str (o : option string) : pyval :=
  match o with Some s => PyStr s | None => PyNone end.

Definition input_state (data : ResearchRequest) (job_id : string) : gmap string pyval :=
  {[ "company" := PyStr (company data);
     "company_url" := opt_str (company_url data);
     "hq_location" := opt_str (hq_location data);
     "industry" := opt_str (industry data);
     "websocket_manager" := PyManager;
     "job_id" := PyStr job_id ]}.

(** Modelled from the spec: [backend/graph.py] ([Graph] and its [run]) is
    not among the sources.  The executor "drives a fixed stage graph
    (grounding, then the analyzers, then the briefing compiler, then the
    editor), merges stage outputs into one evolving state", and
    [process_research] receives the state after each stage.  The
    analyzers and the curation of their documents are the parameter
    [research], which works on the state that grounding returned;
    [schedule] is the interleaving of the briefing tasks. *)
Definition Graph_run (svc : Services) (research : M Stage unit) (schedule : list nat) : Graph :=
  λ data job_id,
    s1 ← GroundingNode.run svc (input_state data job_id);
    lift (λ w, mkStage s1 w) (λ s _, hub s)
      (research;;
       s2 ← gets st;
       Briefing.run svc schedule;;
       s3 ← gets st;
       Editor.run svc;;
       s4 ← gets st;
       ret [s1; s2; s3; s4]).

(** *** Sample runs *)

(** A document, and curated data holding it for each category. *)
Definition sample_doc : pyval :=
  PyDict {[ "title" := PyStr "About"; "content" := PyStr "Acme makes anvils." ]}.

Definition sample_docs : pyval := PyDict {[ "https://acme.test/about" := sample_doc ]}.

(** Analyzers that curate one document per category. *)
Definition sample_research : M Stage unit :=
  setitem "curated_financial_data" sample_docs;;
  setitem "curated_news_data" sample_docs;;
  setitem "curated_industry_data" sample_docs;;
  setitem "curated_company_data" sample_docs.

(** Analyzers that find nothing. *)
Definition empty_research : M Stage unit :=
  setitem "curated_financial_data" (PyDict ∅);;
  setitem "curated_news_data" (PyDict ∅);;
  setitem "curated_industry_data" (PyDict ∅);;
  setitem "curated_company_data" (PyDict ∅).

(** Services that answer; the crawl times out, and the cleanup call
    streams ["Sec"], then ["tion 1." ++ "\n"], then stops. *)
Definition sample_services : Services :=
  mkServices
    (λ _, Raise "timeout")
    (λ _ _, Return ["Title: About"])
    (λ cat _ _, Return ("* " +:+ cat +:+ " facts"))
    (λ _ _ _, Return "")
    (λ _ combined, Return ("# Rapport" +:+ nl +:+ combined))
    (λ _ _, Return [Delta (Some "Sec"); Delta (Some ("tion 1." +:+ nl)); Stop]).

Definition sample_request : ResearchRequest :=
  mkRequest "Acme" (Some "https://acme.test") None None.

(** A process in which connection [1] follows job ["job-a"]. *)
Definition one_listener : App :=
  mkApp ∅ (for_each [CallConnect 1 "job-a"] run_call (fresh_world ∅)).2 [] [].

(** The status updates that reached a connection, oldest first. *)
Definition received (ws : WebSocket) (frames : list Frame) : list StatusUpdate :=
  map (λ f, msg_data (fr_text f))
    (filter (λ f, fr_to f = ws ∧ fr_delivered f = true) frames).

(** The chunks carried by the [report_chunk] updates of a list. *)
Definition chunks_of (updates : list StatusUpdate) : list string :=
  omap (λ u, if String.eqb (su_status u) "report_chunk" then
               match su_result u with
               | Some (PyDict d) =>
                   match d !! "chunk" with Some (PyStr c) => Some c | _ => None end
               | _ => None
               end
             else None) updates.

(** The statuses recorded in the registry for a job, oldest first. *)
Definition statuses_of (job_id : string) (log : list (string * string)) : list string :=
  map snd (filter (λ e, e.1 = job_id) log).

(** *** Vocabulary for the runner's properties *)

(** The report that [process_research] looks for in the merged state. *)
Definition report_lookup (state : gmap string pyval) : result pyval :=
  if truthy (py_get state "report") then Return (py_get state "report")
  else match py_or (py_get state "editor") (PyDict ∅) with
       | PyDict d => Return (py_get d "report")
       | _ => Raise "AttributeError: object has no attribute 'get'"
       end.

(** The error text of the status update sent when no report is found. *)
Definition no_report_error (state : gmap string pyval) : string :=
  if truthy (py_get state "error")
  then "Erreur : " +:+ py_str (py_get state "error")
  else "Aucun rapport trouvé".

(** The update sent when no report is found. *)
Definition no_report_update (state : gmap string pyval) : StatusUpdate :=
  mkUpdate "failed" (Some "La recherche s'est terminée mais aucun rapport n'a été généré")
    (Some (no_report_error state)) None.

(** The registry and its log are the same in two process states. *)
Definition same_registry (a a' : App) : Prop :=
  job_status a' = job_status a ∧ recorded a' = recorded a.

(** The position of a status in the lifecycle
    pending, processing, then completed or failed. *)
Definition rank (status : string) : nat :=
  if String.eqb status "pending" then 0
  else if String.eqb status "processing" then 1
  else 2.

(** A sequence of statuses only moves forward in the lifecycle and never
    leaves a terminal status. *)
Fixpoint monotonic (statuses : list string) : bool :=
  match statuses with
  | [] => true
  | s :: rest =>
      match rest with
      | [] => true
      | s' :: _ => (rank s <? 2) && (rank s <=? rank s') && monotonic rest
      end
  end.

(** A sequence of statuses follows the lifecycle as the registry
    contract words it: it starts in pending, every run records
    processing, and each transition is one of pending to processing,
    processing to completed, processing to failed. *)
Definition allowed (s s' : string) : bool :=
  (String.eqb s "pending" && String.eqb s' "processing")
  || (String.eqb s "processing" && (String.eqb s' "completed" || String.eqb s' "failed")).

Fixpoint transitions_allowed (statuses : list string) : bool :=
  match statuses with
  | [] => true
  | s :: rest =>
      match rest with
      | [] => true
      | s' :: _ => allowed s s' && transitions_allowed rest
      end
  end.

Definition follows_lifecycle (statuses : list string) : bool :=
  transitions_allowed statuses
  && bool_decide ("processing" ∈ statuses).

(** A graph whose run raises. *)
Definition crashing_graph : Graph := λ _ _, raise "boom".

(** A graph that yields one state holding a report. *)
Definition reporting_graph : Graph :=
  λ _ _, ret [ ({[ "report" := PyStr "# Rapport" ]} : gmap string pyval) ].

(** [len] is defined on the value. *)
Definition sized (v : pyval) : bool :=
  match v with
  | PyStr _ | PyList _ | PyDict _ => true
  | _ => false
  end.

(** The report that the run records: the one looked up, when it is
    truthy and has a length. *)
Definition found_report (state : gmap string pyval) : option pyval :=
  match report_lookup state with
  | Return report_content =>
      if truthy report_content && sized report_content then Some report_content else None
  | Raise _ => None
  end.

(** The registry entry written for a completed job, over the entry [old]
    that the job had. *)
Definition completed_entry (old : option JobRecord) (data : ResearchRequest)
    (report_content : pyval) (t : nat) : JobRecord :=
  mkJob "completed" (from_option job_result None old) (from_option job_error None old)
    (from_option job_debug_info [] old) (PyStr (company data)) report_content t.

(** What a run that completes adds to the log of recorded statuses. *)
Definition completed_log (old : option JobRecord) (job_id : string) : list (string * string) :=
  match old with
  | None => [(job_id, "pending"); (job_id, "completed")]
  | Some _ => [(job_id, "completed")]
  end.

(** The exception that a call on the durable store raises, if any. *)
Definition mongo_raises (mongodb : option MongoDBService) (c : MongoCall) : option exn :=
  match mongodb with
  | Some service => service c
  | None => None
  end.

(** The hub as the graph finds it: after the processing update of
    [process_research]. *)
Definition world_at_start (job_id : string) (a : App) : World :=
  (WebSocketManager.send_status_update job_id "processing" (Some "Starting research")
     None None (manager a)).2.

(** *** Vocabulary for the stages' properties *)

(** The guarded notification does not raise on this state: the manager,
    when one is given together with a job id, is the hub, and the job id
    can be looked up. *)
Definition notify_ok (state : gmap string pyval) : bool :=
  if truthy (py_get state "websocket_manager") && truthy (py_get state "job_id") then
    match py_get state "websocket_manager" with
    | PyManager =>
        match py_get state "job_id" with
        | PyList _ | PyDict _ => false
        | _ => true
        end
    | _ => false
    end
  else true.

(** The state carries the hub and the id of a job that the live
    connection [ws] follows. *)
Definition listening (job_id : string) (ws : WebSocket) (s : Stage) : Prop :=
  st s !! "websocket_manager" = Some PyManager
  ∧ st s !! "job_id" = Some (PyStr job_id)
  ∧ job_id ≠ ""
  ∧ ws ∈ subscribers (active_connections (hub s)) job_id
  ∧ ws ∉ broken (hub s).

(** The texts of a stream's chunks, in order. *)
Definition delta_text (chunk_text : option string) : string := default "" chunk_text.

Definition stream_text (deltas : list (option string)) : string :=
  foldr String.append "" (map delta_text deltas).

(** The update that carries a chunk. *)
Definition chunk_update (buffer : string) : StatusUpdate :=
  mkUpdate "report_chunk" (Some "Mise en forme du rapport final") None
    (Some (chunk_result buffer)).

(** A stage in which connection [1] follows job ["job-a"] and whose state
    carries the hub and the job id. *)
Definition sample_stage : Stage :=
  mkStage (input_state sample_request "job-a") (manager one_listener).

(** The run of scenario D: the sample request through the whole graph,
    with one document curated per category. *)
Definition scenario_D : result unit * App :=
  process_research None (Graph_run sample_services sample_research []) "job-a"
    sample_request one_listener.

(** *** Vocabulary for the briefing tasks *)

(** No token is ever lost: the semaphore's value and the tasks inside
    [async with] add up to its capacity. *)
Definition tokens_conserved (p : Briefing.Pool) : Prop :=
  Briefing.semaphore p + Briefing.holders (Briefing.procs p) = 2.

(** The tokens that a task holds: one or none. *)
Definition token (pc : Briefing.Pc) : nat := if Briefing.holds_token pc then 1 else 0.

(** The number of moves a task still has to make. *)
Definition moves_left (pc : Briefing.Pc) : nat :=
  match pc with
  | Briefing.Waiting => 4
  | Briefing.Holding => 3
  | Briefing.Started => 2
  | Briefing.Generated _ => 1
  | Briefing.Finished | Briefing.Aborted _ => 0
  end.

Definition work_left (procs : list (Briefing.Task * Briefing.Pc)) : nat :=
  sum_list (map (λ x, moves_left x.2) procs).

Definition all_terminated (procs : list (Briefing.Task * Briefing.Pc)) : Prop :=
  Forall (λ x, Briefing.terminated x.2 = true) procs.

(** The briefing that a task ends with when nothing escapes it: the
    stripped answer of the generative call, or the empty text when the
    call raises. *)
Definition briefing_text (svc : Services) (context : gmap string pyval) (t : Briefing.Task)
    : string :=
  match briefing_documents svc (Briefing.category t) (Briefing.curated_data t) with
  | Return doc_texts =>
      match gemini_generate svc (Briefing.category t) context doc_texts with
      | Return text => strip text
      | Raise _ => ""
      end
  | Raise _ => ""
  end.

(** Nothing can escape the task: its data has a length and its documents
    can be put in the prompt. *)
Definition task_safe (svc : Services) (t : Briefing.Task) : Prop :=
  sized (Briefing.curated_data t) = true
  ∧ ∃ doc_texts,
      briefing_documents svc (Briefing.category t) (Briefing.curated_data t) = Return doc_texts.

(** A briefing as the stage stores it: empty, or with something other
    than white space in it. *)
Definition good_text (c : string) : Prop := c = "" ∨ blank c = false.

Definition good_at (state : gmap string pyval) (k : string) : Prop :=
  ∃ c, state !! k = Some (PyStr c) ∧ good_text c.

(** What holds of the tasks of [tasks], started on the stage [s0],
    whatever the services do. *)
Record briefing_inv (tasks : list Briefing.Task) (s0 : Stage) (p : Briefing.Pool) : Prop :=
  mkBriefingInv {
    inv_tasks : map fst (Briefing.procs p) = tasks;
    inv_aborted : ∀ i t e,
      Briefing.procs p !! i = Some (t, Briefing.Aborted e) → Briefing.failure p ≠ None;
    inv_generated : ∀ i t c,
      Briefing.procs p !! i = Some (t, Briefing.Generated c) → blank c = false;
    inv_finished : ∀ i t,
      Briefing.procs p !! i = Some (t, Briefing.Finished) →
      good_at (st (Briefing.stage p)) (Briefing.briefing_key t);
    inv_good : ∀ k, good_at (st s0) k → good_at (st (Briefing.stage p)) k;
    inv_other : ∀ k,
      k ∉ map Briefing.briefing_key tasks → st (Briefing.stage p) !! k = st s0 !! k
  }.

(** What holds of them when nothing can escape a task. *)
Record briefing_exact (svc : Services) (context : gmap string pyval)
    (tasks : list Briefing.Task) (p : Briefing.Pool) : Prop :=
  mkBriefingExact {
    ex_tasks : map fst (Briefing.procs p) = tasks;
    ex_failure : Briefing.failure p = None;
    ex_aborted : ∀ i t e, Briefing.procs p !! i ≠ Some (t, Briefing.Aborted e);
    ex_generated : ∀ i t c,
      Briefing.procs p !! i = Some (t, Briefing.Generated c) →
      c = briefing_text svc context t ∧ c ≠ "";
    ex_finished : ∀ i t,
      Briefing.procs p !! i = Some (t, Briefing.Finished) →
      st (Briefing.stage p) !! Briefing.briefing_key t
        = Some (PyStr (briefing_text svc context t))
  }.

(** Services whose generative call fails for the news briefing. *)
Definition flaky_services : Services :=
  mkServices
    (λ _, Raise "timeout")
    (λ _ _, Return ["Title: About"])
    (λ cat _ _, if String.eqb cat "news" then Raise "quota exceeded"
                else Return ("* " +:+ cat +:+ " facts"))
    (λ _ _ _, Return "")
    (λ _ combined, Return ("# Rapport" +:+ nl +:+ combined))
    (λ _ _, Return [Delta (Some "Sec"); Delta (Some ("tion 1." +:+ nl)); Stop]).

(** The four briefing tasks over the sample documents. *)
Definition sample_tasks : list Briefing.Task :=
  [Briefing.mkTask "financial" "financial_briefing" "financial_data" sample_docs;
   Briefing.mkTask "news" "news_briefing" "news_data" sample_docs;
   Briefing.mkTask "industry" "industry_briefing" "industry_data" sample_docs;
   Briefing.mkTask "company" "company_briefing" "company_data" sample_docs].

(** *** Vocabulary for the pipeline's properties *)

(** The analyzers left no curated document in the state. *)
Definition no_documents (state : gmap string pyval) : Prop :=
  truthy (py_get_or state "curated_financial_data" (PyDict ∅)) = false
  ∧ truthy (py_get_or state "curated_news_data" (PyDict ∅)) = false
  ∧ truthy (py_get_or state "curated_industry_data" (PyDict ∅)) = false
  ∧ truthy (py_get_or state "curated_company_data" (PyDict ∅)) = false.

(** No report has been written into the state. *)
Definition unedited (state : gmap string pyval) : Prop :=
  state !! "report" = None ∧ state !! "editor" = None.

(** [state['messages']], when present, is a list. *)
Definition messages_ok (state : gmap string pyval) : Prop :=
  match state !! "messages" with
  | None | Some (PyList _) => True
  | Some _ => False
  end.

(** The state when the briefing stage found no curated data. *)
Definition without_briefings (state : gmap string pyval) : gmap string pyval :=
  <["briefings" := PyDict ∅]>
    (<["company_briefing" := PyStr ""]>
       (<["industry_briefing" := PyStr ""]>
          (<["news_briefing" := PyStr ""]>
             (<["financial_briefing" := PyStr ""]> state)))).

(** The four state keys that hold the briefings. *)
Definition briefing_state_keys : list string :=
  ["company_briefing"; "industry_briefing"; "financial_briefing"; "news_briefing"].

(** *** Vocabulary for the editor's properties *)

(** The briefings that [compile_briefings] finds in the state, in the
    order of [briefing_keys]. *)
Definition present_briefings (state : gmap string pyval) : list (string * pyval) :=
  omap (λ ck, if truthy (py_get state ck.2) then Some (ck.1, py_get state ck.2) else None)
    Editor.briefing_keys.

(** The texts of briefings that are all [str]. *)
Definition contents_of (briefings : list (string * pyval)) : list string :=
  omap (λ b, match b.2 with PyStr c => Some c | _ => None end) briefings.

(** [combined_content]. *)
Definition combined (contents : list string) : string := String.concat (nl +:+ nl) contents.

(** The references do not make [compile_content] raise: there are none,
    or they have a length and their section can be formatted. *)
Definition reference_text (svc : Services) (state : gmap string pyval) : result string :=
  let references := py_get_or state "references" (PyList []) in
  if truthy references then
    if sized references then
      format_references_section svc references
        (py_get_or state "reference_info" (PyDict ∅))
        (py_get_or state "reference_titles" (PyDict ∅))
    else Raise "TypeError: object has no len()"
  else Return "".

(** What [compile_content] returns for a given reference section: the
    stripped answer with the references, or the stripped combined
    content when the generative call raises. *)
Definition compile_outcome (svc : Services) (context : gmap string pyval)
    (refs : string) (contents : list string) : string :=
  match openai_compile svc context (combined contents) with
  | Return response =>
      if String.eqb refs "" then strip response
      else strip response +:+ nl +:+ nl +:+ refs
  | Raise _ => strip (combined contents)
  end.

(** The text accumulated from a stream, unless the stream raises before
    its stop signal. *)
Fixpoint sweep_text (response : list StreamItem) (accumulated_text : string) : option string :=
  match response with
  | [] => Some accumulated_text
  | Broken _ :: _ => None
  | Stop :: _ => Some accumulated_text
  | Delta chunk_text :: rest => sweep_text rest (accumulated_text +:+ delta_text chunk_text)
  end.

(** The cleanup call failed: it raised, or its stream did. *)
Definition sweep_failed (svc : Services) (context : gmap string pyval) (content : string)
    : Prop :=
  match openai_sweep svc context content with
  | Return response => sweep_text response "" = None
  | Raise _ => True
  end.

(** What [content_sweep] returns: the stripped streamed text, or the
    stripped input when the cleanup call failed. *)
Definition sweep_outcome (svc : Services) (context : gmap string pyval) (content : string)
    : string :=
  match openai_sweep svc context content with
  | Return response =>
      match sweep_text response "" with
      | Some text => strip text
      | None => strip content
      end
  | Raise _ => strip content
  end.

(** The state after [edit_report] has stored the final report. *)
Definition edited_state (state : gmap string pyval) (final_report : string)
    : gmap string pyval :=
  <["editor" := PyDict (<["report" := PyStr final_report]>
                          (match state !! "editor" with Some (PyDict d) => d | _ => ∅ end))]>
    (<["status" := PyStr "editor_complete"]>
       (<["report" := PyStr final_report]> state)).

(** The four briefings are texts. *)
Definition briefings_are_texts (state : gmap string pyval) : Prop :=
  Forall (λ ck : string * string, ∃ c, py_get state ck.2 = PyStr c) Editor.briefing_keys.

(** The state that grounding returns carries the hub and the job id it
    was given, a list of messages, and nothing of the later stages. *)
Definition grounded (state s1 : gmap string pyval) : Prop :=
  s1 !! "websocket_manager" = Some (py_get state "websocket_manager")
  ∧ s1 !! "job_id" = Some (py_get state "job_id")
  ∧ (∃ msg, s1 !! "messages" = Some (PyList [PyStr msg]))
  ∧ s1 !! "report" = None
  ∧ s1 !! "editor" = None
  ∧ s1 !! "references" = None
  ∧ (s1 !! "error" = None ∨ ∃ e, s1 !! "error" = Some (PyStr e)).

(** The update that ends a run without report. *)
Definition failed_update (error_message : string) : StatusUpdate :=
  mkUpdate "failed" (Some "La recherche s'est terminée mais aucun rapport n'a été généré")
    (Some error_message) None.

(** Scenario C: a request without company site, and analyzers that find
    nothing. *)
Definition quiet_request : ResearchRequest := mkRequest "Acme" None None None.

Definition scenario_C_grounding : result (gmap string pyval) * World :=
  GroundingNode.run sample_services (input_state quiet_request "job-a")
    (world_at_start "job-a" one_listener).

Definition scenario_C_s1 : gmap string pyval := value_of ∅ scenario_C_grounding.1.

Definition scenario_C_s2 : Stage :=
  (empty_research (mkStage scenario_C_s1 scenario_C_grounding.2)).2.

(** The update that grounding sends when the crawl raises [e]. *)
Definition website_error_update (e : exn) : StatusUpdate :=
  mkUpdate "website_error"
    (Some (GroundingNode.crawl_error_prefix +:+ " " +:+ e)) None
    (Some (PyDict {[ "step" := PyStr "Exploration initiale du site";
                     "error" := PyStr e;
                     "continue_research" := PyBool true ]})).

(** The graph of scenario D, run after the processing update. *)
Definition scenario_D_graph : result (list (gmap string pyval)) * World :=
  Graph_run sample_services sample_research [] sample_request "job-a"
    (world_at_start "job-a" one_listener).

Definition scenario_D_states : list (gmap string pyval) := value_of [] scenario_D_graph.1.

(** Services whose two editing calls fail. *)
Definition failing_editor_services : Services :=
  mkServices
    (λ _, Raise "timeout")
    (λ _ _, Return ["Title: About"])
    (λ cat _ _, Return ("* " +:+ cat +:+ " facts"))
    (λ _ _ _, Return "")
    (λ _ _, Raise "service unavailable")
    (λ _ _, Raise "service unavailable").

(** The sample stage once the analyzers have curated their documents,
    and once the briefing stage has run on it. *)
Definition curated_stage : Stage := (sample_research sample_stage).2.

Definition briefed_stage : Stage :=
  (Briefing.run failing_editor_services [] curated_stage).2.

(** ** The report endpoint ([application.py]) *)

(** [HTTPException(status_code, detail)], identified with its text. *)
Definition HTTPException (status_code : nat) (detail : string) : exn :=
  pretty status_code +:+ ": " +:+ detail.

(** The reading methods of the durable store that the report endpoint
    uses; each may raise. *)
Record MongoQueries : Type := mkQueries {
  get_report : string → result pyval
}.

(** [GET /research/{job_id}/report]. *)
Definition get_research_report (mongodb : option MongoQueries) (job_id : string)
    : M App pyval :=
  match mongodb with
  | None =>
      registry ← gets job_status;
      match registry !! job_id with
      | Some result =>
          if truthy (job_report result)
          then ret (PyDict {[ "report" := job_report result ]})
          else raise (HTTPException 404 "Report not found")
      | None => raise (HTTPException 404 "Report not found")
      end
  | Some db =>
      report ← (λ a, (get_report db job_id, a)) : M App pyval;
      if truthy report then ret report
      else raise (HTTPException 404 "Research report not found")
  end.

(** *** Vocabulary for the endpoints' properties *)

(** What the client does ends the receive loop. *)
Definition closes (item : Received) : bool :=
  match item with
  | RecvText _ => false
  | RecvDisconnect | RecvError _ => true
  end.

(** The update replayed to a job's connections when one attaches. *)
Definition replay_update (r : JobRecord) : StatusUpdate :=
  mkUpdate (job_state r) (Some "Connected to status stream") (job_error r) (job_result r).

(** The update sent when the run raised [e]. *)
Definition run_failed_update (e : exn) : StatusUpdate :=
  mkUpdate "failed" (Some ("La recherche a échoué : " +:+ e)) (Some e) None.

(** A durable store that refuses new jobs and accepts every other call. *)
Definition full_store : MongoDBService :=
  λ c, match c with CreateJob _ _ => Some "store is full" | _ => None end.

(** A durable store that accepts every call. *)
Definition sound_store : MongoDBService := λ _, None.

(** A durable store that fails to record a completion. *)
Definition stale_store : MongoDBService :=
  λ c, match c with
       | UpdateJob _ status None => if String.eqb status "completed" then Some "write failed" else None
       | _ => None
       end.

(** *** Vocabulary for the paths of grounding *)

(** A page as the crawl stores it. *)
Definition scraped_page (item : gmap string pyval) : pyval :=
  PyDict {[ "raw_content" := py_get item "raw_content";
            "source" := PyStr "site_entreprise" ]}.

(** The key under which a crawled page is stored. *)
Definition page_key (url : pyval) (item : gmap string pyval) : string :=
  py_str (py_get_or item "url" url).

(** The last update of a crawl that returned. *)
Definition crawl_done_update (site_scrape : gmap string pyval) : StatusUpdate :=
  mkUpdate "processing"
    (Some (if truthy (PyDict site_scrape)
           then "Exploration réussie de " +:+ pretty (size site_scrape) +:+ " pages du site web"
           else "⚠️ Aucun contenu trouvé à l’URL fournie"))
    None (Some (step_result "Exploration initiale du site")).

(** The update sent when the request names no company site. *)
Definition no_url_update : StatusUpdate :=
  mkUpdate "processing"
    (Some "Aucune URL d’entreprise fournie, passage direct à la phase de recherche")
    None (Some (step_result "Initialisation")).

(** A crawl that finds two pages, one of them without content. *)
Definition crawling_services : Services :=
  mkServices
    (λ _, Return [ ({[ "url" := PyStr "https://acme.test/about";
                       "raw_content" := PyStr "Acme makes anvils." ]} : gmap string pyval);
                   ({[ "url" := PyStr "https://acme.test/empty" ]} : gmap string pyval) ])
    (λ _ _, Return ["Title: About"])
    (λ cat _ _, Return ("* " +:+ cat +:+ " facts"))
    (λ _ _ _, Return "")
    (λ _ combined, Return ("# Rapport" +:+ nl +:+ combined))
    (λ _ _, Return [Stop]).

(** A request whose company name quotes the text of a crawl error. *)
Definition quoting_request : ResearchRequest :=
  mkRequest ("Acme " +:+ GroundingNode.crawl_error_prefix) None None None.

(** Grounding on the sample request when the crawl answers. *)
Definition crawl_run : result (gmap string pyval) * World :=
  GroundingNode.run crawling_services (input_state sample_request "job-a")
    (world_at_start "job-a" one_listener).

(** *** Vocabulary for what the editor leaves alone *)

(** The computation never changes the state, whatever its outcome. *)
Definition keeps_state {A} (c : M Stage A) : Prop := ∀ s, st (c s).2 = st s.

(** The state keys that the editor writes when it stores a report. *)
Definition report_keys : list string := ["report"; "status"; "editor"].

(** The computation changes the state under the report keys only. *)
Definition edits_only {A} (c : M Stage A) : Prop :=
  ∀ s k, k ∉ report_keys → st (c s).2 !! k = st s !! k.

(** The briefings in the state, when present, have a length. *)
Definition briefings_sized (state : gmap string pyval) : Prop :=
  Forall (λ ck : string * string,
            truthy (py_get state ck.2) = true → sized (py_get state ck.2) = true)
    Editor.briefing_keys.

(** The end of a stream: its stop signal, or nothing. *)
Definition stream_end (stop : bool) : list StreamItem := if stop then [Stop] else [].

(** Services whose references cannot be formatted. *)
Definition unformatted_services : Services :=
  mkServices
    (λ _, Raise "timeout")
    (λ _ _, Return ["Title: About"])
    (λ cat _ _, Return ("* " +:+ cat +:+ " facts"))
    (λ _ _ _, Raise "KeyError: 'url'")
    (λ _ combined, Return ("# Rapport" +:+ nl +:+ combined))
    (λ _ _, Return [Stop]).

(** The briefed stage, with references added to its state. *)
Definition referenced_stage : Stage :=
  mkStage (<["references" := PyList [PyStr "https://acme.test/about"]]> (st briefed_stage))
    (hub briefed_stage).

(** Services whose cleanup call answers with white space only. *)
Definition blank_sweep_services : Services :=
  mkServices
    (λ _, Raise "timeout")
    (λ _ _, Return ["Title: About"])
    (λ cat _ _, Return ("* " +:+ cat +:+ " facts"))
    (λ _ _ _, Return "")
    (λ _ combined, Return ("# Rapport" +:+ nl +:+ combined))
    (λ _ _, Return [Delta (Some " "); Delta (Some nl); Stop]).

(** The chunks that a connection has received once a stream is read:
    the ones flushed on the way and, at the stop signal, the remainder. *)
Definition published (flushed : list string) (rest : string) (stop : bool) : list string :=
  flushed ++ (if stop && negb (String.eqb rest "") then [rest] else []).

(** ** The analyzers ([researchers/news.py], [researchers/industry.py]) *)

(** Modelled from the spec: [backend/nodes/researchers/base.py]
    ([BaseResearcher]) is not among the sources.  An analyzer "generates
    search queries via the generative service" and "issues one or more
    search calls"; the search answers with a "mapping url→document".
    Both calls are given the state and the analyst type, may publish
    through the hub and may raise; they are taken not to write into the
    state.  The documents are listed in the order of the mapping. *)
Record BaseResearcher : Type := mkResearcher {
  (* [self.generate_queries(state, prompt)], for [self.analyst_type] *)
  generate_queries : string → gmap string pyval → M World (list string);
  (* [self.search_documents(state, [query])] *)
  search_documents : string → gmap string pyval → list string → M World (list (string * pyval))
}.

(** What an analyzer holds while it searches: the dict it fills
    ([news_data], [industry_data]), the lines of [msg], and the hub. *)
Record Desk : Type := mkDesk {
  desk_data : gmap string pyval;
  desk_msg : list string;
  desk_hub : World
}.

Definition on_hub {A} (c : M World A) : M Desk A :=
  lift desk_hub (λ w d, mkDesk (desk_data d) (desk_msg d) w) c.

(** [msg.append(line)]. *)
Definition add_line (line : string) : M Desk unit :=
  modify (λ d, mkDesk (desk_data d) (desk_msg d ++ [line]) (desk_hub d)).

(** The inner loop of both analyzers:
[[
    for url, doc in documents.items():
        doc['query'] = query
        news_data[url] = doc
]] *)
Definition tag_document (query : string) (entry : string * pyval) : M Desk unit :=
  match entry.2 with
  | PyDict doc =>
      modify (λ d, mkDesk (<[entry.1 := PyDict (<["query" := PyStr query]> doc)]> (desk_data d))
                     (desk_msg d) (desk_hub d))
  | _ => raise "TypeError: object does not support item assignment"
  end.

(** The outer loop of both analyzers:
[[
    for query in queries:
        documents = await self.search_documents(state, [query])
        if documents:
            ...
]] *)
Definition search_queries (base : BaseResearcher) (analyst_type : string)
    (state : gmap string pyval) (queries : list string) : M Desk unit :=
  for_each queries (λ query,
    documents ← on_hub (search_documents base analyst_type state [query]);
    for_each documents (tag_document query)).

(** The [try] statement of both analyzers, for the analyst named
    [analyst]. *)
Definition try_searches (base : BaseResearcher) (analyst_type analyst : string)
    (state : gmap string pyval) (queries : list string) : M Desk unit :=
  try_except
    (search_queries base analyst_type state queries;;
     data ← gets desk_data;
     add_line (nl +:+ "✓ Found " +:+ pretty (size data) +:+ " documents");;
     on_hub (notify state "processing"
               ("Used Tavily Search to find " +:+ pretty (size data) +:+ " documents")
               (PyDict {[ "step" := PyStr "Searching";
                          "analyst_type" := PyStr analyst;
                          "queries" := PyList (map PyStr queries) ]})))
    (λ e, add_line (nl +:+ "⚠️ Error during research: " +:+ e)).

(** The pages of the company site with which both analyzers start:
[[
    if site_scrape := state.get('site_scrape'):
        msg.append(f"\n📊 Including {len(site_scrape)} pages from company website...")
        news_data.update(site_scrape)
]]
    Grounding stores a dict; [update] raises on the other truthy values
    that have a length, unless they are sequences of pairs, which no
    stage stores. *)
Definition site_pages {W} (state : gmap string pyval) (msg : list string)
    : M W (gmap string pyval * list string) :=
  let site_scrape := py_get state "site_scrape" in
  if truthy site_scrape then
    n ← py_len site_scrape;
    match site_scrape with
    | PyDict pages =>
        ret (pages,
             msg ++ [nl +:+ "📊 Including " +:+ pretty n +:+ " pages from company website..."])
    | _ => raise "ValueError: dictionary update sequence element"
    end
  else ret (∅, msg).

(** [messages = state.get('messages', []); messages.append(m);
    state['messages'] = messages]. *)
Definition add_message (text : string) : M Stage unit :=
  state ← gets st;
  match py_get_or state "messages" (PyList []) with
  | PyList l => setitem "messages" (PyList (l ++ [PyStr text]))
  | _ => raise "AttributeError: object has no attribute 'append'"
  end.

(** The searches of an analyzer, run on the hub of the stage. *)
Definition at_desk (data : gmap string pyval) (msg : list string) (c : M Desk unit)
    : M Stage (gmap string pyval * list string) :=
  λ s, let '(r, d) := c (mkDesk data msg (hub s)) in
       (match r with
        | Return _ => Return (desk_data d, desk_msg d)
        | Raise e => Raise e
        end,
        mkStage (st s) (desk_hub d)).

Definition bullet (query : string) : string := "• " +:+ query.

Module NewsScanner.

Definition analyst_type : string := "news_analyzer".

Definition analyze (base : BaseResearcher) : M Stage (gmap string pyval) :=
  state ← gets st;
  let company := py_get_or state "company" (PyStr "Unknown Company") in
  let msg := ["📰 News Scanner analyzing " +:+ py_str company] in
  queries ← in_hub (generate_queries base analyst_type state);
  add_message ("🔍 Subqueries for news analysis:" +:+ nl
                 +:+ String.concat nl (map bullet queries));;
  state ← gets st;
  '(news_data, msg) ← site_pages state msg;
  '(news_data, msg) ←
     at_desk news_data msg (try_searches base analyst_type "News Scanner" state queries);
  add_message (String.concat nl msg);;
  setitem "news_data" (PyDict news_data);;
  ret {[ "message" := PyList (map PyStr msg); "news_data" := PyDict news_data ]}.

Definition run := analyze.

End NewsScanner.

Module IndustryAnalyzer.

Definition analyst_type : string := "industry_analyzer".

Definition analyze (base : BaseResearcher) : M Stage (gmap string pyval) :=
  state ← gets st;
  let company := py_get_or state "company" (PyStr "Unknown Company") in
  let industry := py_get_or state "industry" (PyStr "Unknown Industry") in
  let msg := ["🏭 Industry Analyzer analyzing " +:+ py_str company
                +:+ " in " +:+ py_str industry] in
  queries ← in_hub (generate_queries base analyst_type state);
  add_message ("🔍 Subqueries for industry analysis:" +:+ nl
                 +:+ String.concat nl (map bullet queries));;
  notify_st "processing" "Industry analysis queries generated"
    (PyDict {[ "step" := PyStr "Industry Analyst";
               "analyst_type" := PyStr "Industry Analyst";
               "queries" := PyList (map PyStr queries) ]});;
  state ← gets st;
  '(industry_data, msg) ← site_pages state msg;
  '(industry_data, msg) ←
     at_desk industry_data msg
       (try_searches base analyst_type "Industry Analyst" state queries);
  add_message (String.concat nl msg);;
  setitem "industry_data" (PyDict industry_data);;
  ret {[ "message" := PyList (map PyStr msg); "industry_data" := PyDict industry_data ]}.

Definition run := analyze.

End IndustryAnalyzer.

(** *** Vocabulary for the analyzers' properties *)

(** A document as an analyzer stores it: tagged with one of the
    queries. *)
Definition tagged (queries : list string) (v : pyval) : Prop :=
  ∃ doc query, v = PyDict doc ∧ query ∈ queries ∧ doc !! "query" = Some (PyStr query).

(** What the searches for [queries] may have done to the data of an
    analyzer: every address is still there, and an entry is as it was
    or is a document tagged with one of the queries. *)
Definition grown (queries : list string) (data data' : gmap string pyval) : Prop :=
  (∀ url, is_Some (data !! url) → is_Some (data' !! url))
  ∧ ∀ url v, data' !! url = Some v → data !! url = Some v ∨ tagged queries v.

(** The state holds no site pages, or a dict of them. *)
Definition site_pages_of (state : gmap string pyval) : option (gmap string pyval) :=
  match py_get state "site_scrape" with
  | PyDict pages => Some pages
  | v => if truthy v then None else Some ∅
  end.

(** A researcher whose second search fails. *)
Definition sample_queries : list string := ["acme news"; "acme press"].

Definition failing_researcher : BaseResearcher :=
  mkResearcher
    (λ _ _, ret sample_queries)
    (λ _ _ queries,
       match queries with
       | [query] =>
           if String.eqb query "acme news"
           then ret [("https://news.test/1", PyDict {[ "title" := PyStr "Acme news" ]})]
           else raise "search timeout"
       | _ => ret []
       end).

(** The sample stage after a crawl that kept one page. *)
Definition scraped_stage : Stage :=
  mkStage (<["site_scrape" := PyDict {[ "https://acme.test/about" := sample_doc ]}]>
             (st sample_stage))
    (hub sample_stage).

(** *** Vocabulary for the dict of briefings *)

(** The entry of the [briefings] dict for a briefing text: none for the
    empty text. *)
Definition briefings_entry (c : string) : option pyval :=
  if String.eqb c "" then None else Some (PyStr c).

(** The category and the state key of a task. *)
Definition task_slot (t : Briefing.Task) : string * string :=
  (Briefing.category t, Briefing.briefing_key t).

(** What holds of the local dict [briefings] while the tasks run: it
    holds the non-empty briefings of the tasks that have finished, under
    their categories, and nothing else. *)
Record briefings_inv (tasks : list Briefing.Task) (p : Briefing.Pool) : Prop :=
  mkBriefingsInv {
    bi_tasks : map fst (Briefing.procs p) = tasks;
    bi_finished : ∀ i t,
      Briefing.procs p !! i = Some (t, Briefing.Finished) →
      ∃ c, st (Briefing.stage p) !! Briefing.briefing_key t = Some (PyStr c)
           ∧ Briefing.briefings p !! Briefing.category t = briefings_entry c;
    bi_only : ∀ cat,
      is_Some (Briefing.briefings p !! cat) →
      ∃ i t, Briefing.procs p !! i = Some (t, Briefing.Finished) ∧ Briefing.category t = cat
  }.

(** ** The documents of a briefing prompt ([briefing.py]) *)

(** [s[:n]]. *)
Fixpoint take_chars (n : nat) (s : string) : string :=
  match n, s with
  | S n', String c rest => String c (take_chars n' rest)
  | _, _ => EmptyString
  end.

Module BriefingPrompt.

(** [self.max_doc_length]. *)
Definition max_doc_length : nat := 8000.

(** The text that a document contributes to the prompt:
[[
    title = doc.get('title', '')
    content = doc.get('raw_content') or doc.get('content', '')
    if len(content) > self.max_doc_length:
        content = content[:self.max_doc_length] + "... [content truncated]"
    doc_entry = f"Title: {title}\n\nContent: {content}"
]]
    A content that is too long and is not a text cannot be truncated:
    the slice or the concatenation raises. *)
Definition doc_entry {W} (doc : gmap string pyval) : M W string :=
  let title := py_get_or doc "title" (PyStr "") in
  let content := py_or (py_get doc "raw_content") (py_get_or doc "content" (PyStr "")) in
  n ← py_len content;
  content ←
    (if max_doc_length <? n then
       match content with
       | PyStr text =>
           ret (PyStr (take_chars max_doc_length text +:+ "... [content truncated]"))
       | _ => raise "TypeError: cannot truncate the content"
       end
     else ret content);
  ret ("Title: " +:+ py_str title +:+ nl +:+ nl +:+ "Content: " +:+ py_str content).

(** The loop of [generate_category_briefing] over the documents sorted
    by score:
[[
    for _ , doc in sorted_items:
        ...
        if total_length + len(doc_entry) < 120000:
            doc_texts.append(doc_entry)
            total_length += len(doc_entry)
        else:
            break
]] *)
Fixpoint select_documents {W} (sorted_items : list (gmap string pyval))
    (doc_texts : list string) (total_length : nat) : M W (list string) :=
  match sorted_items with
  | [] => ret doc_texts
  | doc :: rest =>
      doc_entry ← doc_entry doc;
      if total_length + String.length doc_entry <? 120000 then
        select_documents rest (doc_texts ++ [doc_entry])
          (total_length + String.length doc_entry)
      else ret doc_texts
  end.

End BriefingPrompt.

(** *** Vocabulary for the prompt's properties *)

(** The total length of a list of texts. *)
Definition total_length (texts : list string) : nat := sum_list (map String.length texts).

(** * Properties *)

Lemma returns_eta {A W} (x : result A * W) (dflt : A) :
  returns x.1 = true → x = (Return (value_of dflt x.1), x.2).
Proof. by destruct x as [[a|e] w]. Qed.

Lemma returns_unit_eta {W} (x : result unit * W) : returns x.1 = true → x = (Return tt, x.2).
Proof. by destruct x as [[[]|e] w]. Qed.

(** ** Strings *)

Section strings.
Implicit Types (s t : string) (c : ascii).

Lemma append_cons c s t : String c s +:+ t = String c (s +:+ t).
Proof. done. Qed.

Lemma append_nil_l s : "" +:+ s = s.
Proof. done. Qed.

Lemma append_nil_r s : s +:+ "" = s.
Proof. induction s as [|c s IH]; [done|]. by rewrite append_cons IH. Qed.

Lemma append_assoc s t u : (s +:+ t) +:+ u = s +:+ (t +:+ u).
Proof. induction s as [|c s IH]; [done|]. by rewrite !append_cons IH. Qed.

Lemma blank_append s t : blank (s +:+ t) = blank s && blank t.
Proof.
  induction s as [|c s IH]; [done|]. rewrite append_cons. simpl.
  rewrite IH. by destruct (is_space c).
Qed.

Lemma blank_lstrip s : blank (lstrip s) = blank s.
Proof.
  induction s as [|c s IH]; simpl; [done|].
  destruct (is_space c) eqn:Hc; simpl; [done|by rewrite Hc].
Qed.

Lemma blank_rstrip s : blank (rstrip s) = blank s.
Proof.
  induction s as [|c s IH]; [done|]. cbn [rstrip].
  destruct (blank (String c s)) eqn:Hb; [done|].
  simpl. rewrite IH. exact Hb.
Qed.

Lemma blank_strip s : blank (strip s) = blank s.
Proof. unfold strip. by rewrite blank_rstrip blank_lstrip. Qed.

Lemma rstrip_empty s : rstrip s = "" ↔ blank s = true.
Proof.
  destruct s as [|c s]; [done|]. cbn [rstrip].
  by destruct (blank (String c s)).
Qed.

(** Stripping leaves nothing exactly when the text is white space. *)
Lemma strip_empty s : strip s = "" ↔ blank s = true.
Proof. unfold strip. by rewrite rstrip_empty blank_lstrip. Qed.

Lemma strip_nonempty s : blank s = false → strip s ≠ "".
Proof. intros Hb Hs. apply strip_empty in Hs. congruence. Qed.

Lemma nonempty_eqb s : String.eqb s "" = false ↔ s ≠ "".
Proof. apply String.eqb_neq. Qed.

Lemma blank_concat (sep : string) (l : list string) :
  (∃ x, x ∈ l ∧ blank x = false) → blank (String.concat sep l) = false.
Proof.
  induction l as [|x l IH]; intros (y & Hy & Hb).
  - by apply elem_of_nil in Hy.
  - destruct l as [|x' l].
    + apply elem_of_cons in Hy as [->|Hy]; [done|]. by apply elem_of_nil in Hy.
    + change (String.concat sep (x :: x' :: l))
        with (x +:+ sep +:+ String.concat sep (x' :: l)).
      rewrite !blank_append. apply elem_of_cons in Hy as [->|Hy].
      * by rewrite Hb.
      * rewrite IH; [|by exists y]. by rewrite !andb_false_r.
Qed.

Lemma prefix_app needle s : String.prefix needle (needle +:+ s) = true.
Proof.
  induction needle as [|c needle IH]; [by destruct s|].
  rewrite append_cons. simpl. by destruct (ascii_dec c c).
Qed.

Lemma prefix_app_l needle s t :
  String.prefix needle s = true → String.prefix needle (s +:+ t) = true.
Proof.
  revert s. induction needle as [|c needle IH]; intros s; [by destruct (s +:+ t)|].
  destruct s as [|c' s]; [done|]. rewrite append_cons. simpl.
  destruct (ascii_dec c c'); [apply IH|done].
Qed.

Lemma contains_eq needle hay :
  contains needle hay =
    String.prefix needle hay
    || match hay with EmptyString => false | String _ rest => contains needle rest end.
Proof. by destruct hay. Qed.

Lemma contains_prefix needle hay : String.prefix needle hay = true → contains needle hay = true.
Proof. intros H. by rewrite contains_eq H. Qed.

Lemma contains_app_r needle s t : contains needle t = true → contains needle (s +:+ t) = true.
Proof.
  intros H. induction s as [|c s IH]; [done|].
  rewrite append_cons contains_eq IH. by rewrite orb_true_r.
Qed.

Lemma contains_app_l needle s t : contains needle s = true → contains needle (s +:+ t) = true.
Proof.
  induction s as [|c s IH].
  - rewrite contains_eq orb_false_r. intros H. apply contains_prefix.
    destruct needle; [by destruct t|done].
  - rewrite contains_eq append_cons. intros [H|H]%orb_true_iff.
    + apply contains_prefix. by apply (prefix_app_l _ (String c s)).
    + rewrite contains_eq IH //. by rewrite orb_true_r.
Qed.

End strings.

(** ** The hub's registration map *)

Section hub_map.
Import WebSocketManager.
Implicit Types (conns : gmap string (gset WebSocket)) (ws : WebSocket) (job : string).

Lemma subscribers_connect conns ws job job' :
  subscribers (connect_map ws job conns) job' =
    if decide (job = job') then subscribers conns job ∪ {[ws]} else subscribers conns job'.
Proof.
  unfold subscribers, connect_map. case_decide as Hj.
  - subst job'. destruct (conns !! job) as [s|] eqn:E.
    + by rewrite lookup_alter_eq E.
    + rewrite lookup_alter_eq lookup_insert_eq. simpl. set_solver.
  - destruct (conns !! job) as [s|] eqn:E.
    + by rewrite lookup_alter_ne.
    + by rewrite lookup_alter_ne // lookup_insert_ne.
Qed.

Lemma connect_lookup conns ws job :
  connect_map ws job conns !! job = Some (subscribers conns job ∪ {[ws]}).
Proof.
  unfold subscribers, connect_map. destruct (conns !! job) as [s|] eqn:E.
  - by rewrite lookup_alter_eq E.
  - by rewrite lookup_alter_eq lookup_insert_eq.
Qed.

Lemma connect_lookup_ne conns ws job job' :
  job ≠ job' → connect_map ws job conns !! job' = conns !! job'.
Proof.
  intros Hj. unfold connect_map. destruct (conns !! job) as [s|] eqn:E.
  - by rewrite lookup_alter_ne.
  - by rewrite lookup_alter_ne // lookup_insert_ne.
Qed.

Lemma disconnect_lookup conns ws job :
  disconnect_map ws job conns !! job =
    match conns !! job with
    | Some s => if decide (s ∖ {[ws]} = ∅) then None else Some (s ∖ {[ws]})
    | None => None
    end.
Proof.
  unfold disconnect_map. destruct (conns !! job) as [s|] eqn:E; [|done].
  rewrite lookup_alter_eq E. simpl. case_decide.
  - by rewrite lookup_delete_eq.
  - by rewrite lookup_alter_eq E.
Qed.

Lemma disconnect_lookup_ne conns ws job job' :
  job ≠ job' → disconnect_map ws job conns !! job' = conns !! job'.
Proof.
  intros Hj. unfold disconnect_map. destruct (conns !! job) as [s|] eqn:E; [|done].
  rewrite lookup_alter_eq E. simpl. case_decide.
  - by rewrite lookup_delete_ne // lookup_alter_ne.
  - by rewrite lookup_alter_ne.
Qed.

Lemma subscribers_disconnect conns ws job job' :
  subscribers (disconnect_map ws job conns) job' =
    if decide (job = job') then subscribers conns job ∖ {[ws]} else subscribers conns job'.
Proof.
  unfold subscribers. case_decide as Hj.
  - subst job'. rewrite disconnect_lookup. destruct (conns !! job) as [s|]; simpl.
    + case_decide as He; simpl; [by rewrite He | done].
    + set_solver.
  - by rewrite disconnect_lookup_ne.
Qed.

Lemma hub_inv_init : hub_inv init.
Proof. intros job s. unfold init. by rewrite lookup_empty. Qed.

Lemma hub_inv_connect conns ws job : hub_inv conns → hub_inv (connect_map ws job conns).
Proof.
  intros Hinv job' s. destruct (decide (job = job')) as [<-|Hne].
  - rewrite connect_lookup. intros [= <-]. set_solver.
  - rewrite connect_lookup_ne //. apply Hinv.
Qed.

Lemma hub_inv_disconnect conns ws job : hub_inv conns → hub_inv (disconnect_map ws job conns).
Proof.
  intros Hinv job' s. destruct (decide (job = job')) as [<-|Hne].
  - rewrite disconnect_lookup. destruct (conns !! job) as [s0|]; [|done].
    case_decide; [done|]. by intros [= <-].
  - rewrite disconnect_lookup_ne //. apply Hinv.
Qed.

Lemma disconnect_absent conns ws job :
  ws ∉ subscribers conns job → hub_inv conns → disconnect_map ws job conns = conns.
Proof.
  intros Hws Hinv. apply map_eq. intros job'. destruct (decide (job = job')) as [<-|Hne].
  - rewrite disconnect_lookup. unfold subscribers in Hws.
    destruct (conns !! job) as [s|] eqn:E; [|done]. simpl in Hws.
    assert (s ∖ {[ws]} = s) as -> by set_solver.
    case_decide as He; [|done]. by apply Hinv in E.
  - by rewrite disconnect_lookup_ne.
Qed.

(** Disconnecting twice is disconnecting once, in every state of the map. *)
Lemma disconnect_idemp conns ws job :
  disconnect_map ws job (disconnect_map ws job conns) = disconnect_map ws job conns.
Proof.
  apply map_eq. intros job'. destruct (decide (job = job')) as [<-|Hne].
  - rewrite !disconnect_lookup. destruct (conns !! job) as [s|] eqn:E; [|done].
    case_decide as He; [done|].
    assert (s ∖ {[ws]} ∖ {[ws]} = s ∖ {[ws]}) as -> by set_solver.
    by rewrite decide_False.
  - by rewrite !disconnect_lookup_ne.
Qed.

End hub_map.

(** ** Publishing *)

Section hub_publish.
Import WebSocketManager.
Implicit Types (w : World) (ws : WebSocket) (job : string) (msg : Message).

Lemma send_loop_spec (cs : list WebSocket) msg (d : gset WebSocket) w :
  send_loop cs msg d w =
    (Return (d ∪ list_to_set (filter (λ c, c ∈ broken w) cs)),
     mkWorld (active_connections w) (broken w)
       (wire w ++ map (frame_for w msg) cs) (now w)).
Proof.
  revert d w. induction cs as [|c cs IH]; intros d w.
  - simpl. unfold ret. destruct w; simpl. rewrite app_nil_r. f_equal. f_equal. set_solver.
  - cbn [send_loop]. unfold mbind, M_bind, bind, try_except, send_text, ret.
    unfold frame_for at 1. rewrite filter_cons. simpl.
    destruct (decide (c ∈ broken w)) as [Hc|Hc].
    + rewrite IH. simpl. rewrite -app_assoc. simpl.
      rewrite (bool_decide_eq_false_2 (c ∉ broken w)); [|by intros Hn].
      f_equal. f_equal. set_solver.
    + rewrite IH. simpl. rewrite -app_assoc. simpl.
      rewrite (bool_decide_eq_true_2 (c ∉ broken w)) //.
Qed.

Lemma disconnect_all_spec (cs : list WebSocket) job w :
  for_each cs (λ connection, disconnect connection job) w =
    (Return tt,
     set_connections (λ conns, foldl (λ m c, disconnect_map c job m) conns cs) w).
Proof.
  revert w. induction cs as [|c cs IH]; intros w.
  - by destruct w.
  - cbn [for_each]. unfold mbind, M_bind, bind, disconnect, modify.
    rewrite IH. by destruct w.
Qed.

Lemma subscribers_disconnect_all (cs : list WebSocket) job job' conns :
  subscribers (foldl (λ m c, disconnect_map c job m) conns cs) job' =
    if decide (job = job') then subscribers conns job ∖ list_to_set cs
    else subscribers conns job'.
Proof.
  revert conns. induction cs as [|c cs IH]; intros conns; simpl.
  - case_decide as Hd; [|done]. subst job'. by rewrite difference_empty_L.
  - rewrite IH !subscribers_disconnect. case_decide as Hd; [|done].
    rewrite decide_True //. set_solver.
Qed.

Lemma hub_inv_disconnect_all (cs : list WebSocket) job conns :
  hub_inv conns → hub_inv (foldl (λ m c, disconnect_map c job m) conns cs).
Proof.
  revert conns. induction cs as [|c cs IH]; intros conns Hinv; simpl; [done|].
  by apply IH, hub_inv_disconnect.
Qed.

(** What one publish does, in closed form. *)
Lemma broadcast_to_job_spec job msg w :
  broadcast_to_job job msg w =
    match active_connections w !! job with
    | None => (Return tt, w)
    | Some s =>
        let stamped := mkMessage (msg_type msg) (msg_data msg) (Some (now w)) in
        (Return tt,
         mkWorld
           (foldl (λ m c, disconnect_map c job m) (active_connections w)
              (elements (list_to_set (filter (λ c, c ∈ broken w) (elements s))
                           : gset WebSocket)))
           (broken w)
           (wire w ++ map (frame_for w stamped) (elements s))
           (S (now w)))
    end.
Proof.
  unfold broadcast_to_job, mbind, M_bind, bind, gets. 
  destruct (active_connections w !! job) as [s|] eqn:E; [|done].
  unfold datetime_now. rewrite send_loop_spec. cbn [active_connections broken wire now].
  rewrite disconnect_all_spec. unfold set_connections. cbn [active_connections broken wire now].
  rewrite union_empty_l_L. done.
Qed.

Lemma broadcast_subscribers job job' msg w :
  subscribers (active_connections (broadcast_to_job job msg w).2) job' =
    if decide (job = job') then subscribers (active_connections w) job ∖ broken w
    else subscribers (active_connections w) job'.
Proof.
  rewrite broadcast_to_job_spec.
  destruct (active_connections w !! job) as [s|] eqn:E; simpl.
  - rewrite subscribers_disconnect_all. case_decide as Hd; [|done].
    unfold subscribers. rewrite E. simpl. apply set_eq. intros x.
    rewrite !elem_of_difference elem_of_list_to_set elem_of_elements
      elem_of_list_to_set list_elem_of_filter elem_of_elements. tauto.
  - case_decide as Hd; [|done]. subst job'. unfold subscribers. rewrite E. simpl.
    by rewrite difference_disjoint_L.
Qed.

Lemma broadcast_hub_inv job msg w :
  hub_inv (active_connections w) → hub_inv (active_connections (broadcast_to_job job msg w).2).
Proof.
  intros Hinv. rewrite broadcast_to_job_spec.
  destruct (active_connections w !! job) as [s|]; simpl; [|done].
  by apply hub_inv_disconnect_all.
Qed.

Lemma broadcast_returns job msg w : (broadcast_to_job job msg w).1 = Return tt.
Proof. rewrite broadcast_to_job_spec. by destruct (active_connections w !! job). Qed.

Lemma broadcast_broken job msg w : broken (broadcast_to_job job msg w).2 = broken w.
Proof. rewrite broadcast_to_job_spec. by destruct (active_connections w !! job). Qed.

(** The frames that a publish puts on the wire. *)
Lemma broadcast_wire job msg w :
  wire (broadcast_to_job job msg w).2 =
    wire w ++ map (frame_for w (mkMessage (msg_type msg) (msg_data msg) (Some (now w))))
                (elements (subscribers (active_connections w) job)).
Proof.
  rewrite broadcast_to_job_spec. unfold subscribers.
  destruct (active_connections w !! job) as [s|]; simpl; [done|].
  by rewrite elements_empty app_nil_r.
Qed.

Lemma received_app ws (l1 l2 : list Frame) :
  received ws (l1 ++ l2) = received ws l1 ++ received ws l2.
Proof. unfold received. by rewrite filter_app map_app. Qed.

Lemma received_frames_list ws w msg (cs : list WebSocket) :
  NoDup cs →
  received ws (map (frame_for w msg) cs) =
    if decide (ws ∈ cs ∧ ws ∉ broken w) then [msg_data msg] else [].
Proof.
  unfold received. induction 1 as [|c cs Hc Hnd IH].
  - destruct (decide (ws ∈ [] ∧ ws ∉ broken w)) as [[Hin _]|_]; [|done].
    by apply elem_of_nil in Hin.
  - change (map (frame_for w msg) (c :: cs))
      with (frame_for w msg c :: map (frame_for w msg) cs).
    rewrite filter_cons.
    destruct (decide (fr_to (frame_for w msg c) = ws
                      ∧ fr_delivered (frame_for w msg c) = true)) as [[Hto Hd]|Hn].
    + simpl in Hto, Hd. subst c. apply bool_decide_eq_true in Hd.
      change (map ?f (?x :: ?l)) with (f x :: map f l). rewrite IH.
      destruct (decide (ws ∈ cs ∧ ws ∉ broken w)) as [[Hin _]|_]; [done|].
      destruct (decide (ws ∈ ws :: cs ∧ ws ∉ broken w)) as [_|Hn]; [done|].
      destruct Hn. split; [by left|done].
    + rewrite IH. destruct (decide (ws ∈ cs ∧ ws ∉ broken w)) as [[Hin Hb]|Hn'].
      * destruct (decide (ws ∈ c :: cs ∧ ws ∉ broken w)) as [_|Hn'']; [done|].
        destruct Hn''. split; [by right|done].
      * destruct (decide (ws ∈ c :: cs ∧ ws ∉ broken w)) as [[Hin Hb]|_]; [|done].
        apply elem_of_cons in Hin as [->|Hin].
        -- destruct Hn. split; [done|]. by apply bool_decide_eq_true.
        -- destruct Hn'. by split.
Qed.

(** What a connection receives from one publish. *)
Lemma received_broadcast ws job msg w :
  received ws (wire (broadcast_to_job job msg w).2) =
    received ws (wire w)
      ++ if decide (ws ∈ subscribers (active_connections w) job ∧ ws ∉ broken w)
         then [msg_data msg] else [].
Proof.
  rewrite broadcast_wire received_app. f_equal.
  rewrite received_frames_list; [|apply NoDup_elements].
  destruct (decide (ws ∈ subscribers (active_connections w) job ∧ ws ∉ broken w))
    as [[Hs Hb]|Hn];
    destruct (decide (ws ∈ elements (subscribers (active_connections w) job)
                      ∧ ws ∉ broken w)) as [[Hs' Hb']|Hn']; try done.
  - destruct Hn'. split; [by apply elem_of_elements|done].
  - destruct Hn. split; [by apply elem_of_elements|done].
Qed.

(** A live registered connection stays so across a publish. *)
Lemma broadcast_keeps_listener ws job job' msg w :
  ws ∈ subscribers (active_connections w) job' → ws ∉ broken w →
  ws ∈ subscribers (active_connections (broadcast_to_job job msg w).2) job'.
Proof.
  intros Hs Hb. rewrite broadcast_subscribers. case_decide as Hd; [|done].
  subst job'. by apply elem_of_difference.
Qed.

End hub_publish.

(** ** Guarantees of the hub *)

Section hub_guarantees.
Import WebSocketManager.
Implicit Types (w : World) (ws : WebSocket) (job : string) (msg : Message).

Lemma run_call_hub_inv (c : hub_call) w :
  hub_inv (active_connections w) → hub_inv (active_connections (run_call c w).2).
Proof.
  destruct c as [ws job|ws job|job msg]; simpl; intros Hinv.
  - by apply hub_inv_connect.
  - by apply hub_inv_disconnect.
  - by apply broadcast_hub_inv.
Qed.

Lemma run_call_returns (c : hub_call) w : (run_call c w).1 = Return tt.
Proof. destruct c; simpl; [done|done|apply broadcast_returns]. Qed.

Lemma run_calls_hub_inv (calls : list hub_call) w :
  hub_inv (active_connections w) →
  hub_inv (active_connections (for_each calls run_call w).2).
Proof.
  revert w. induction calls as [|c calls IH]; intros w Hinv; [done|].
  cbn [for_each]. unfold mbind, M_bind, bind.
  pose proof (run_call_returns c w) as Hr. pose proof (run_call_hub_inv c w Hinv) as Hi.
  destruct (run_call c w) as [[[]|e] w']; simpl in *; [|done].
  by apply IH.
Qed.

(** C9. After any sequence of [connect], [disconnect] and
    [broadcast_to_job] calls, no job id of [active_connections] is mapped
    to an empty set.  A further [connect] leaves the job id mapped to a
    set containing the new connection, a further [disconnect] of the only
    remaining connection removes the job id, and both keep every present
    key non-empty. *)
Theorem hub_keys_never_empty (calls : list hub_call) w ws job :
  hub_inv (active_connections w) →
  let conns := active_connections (for_each calls run_call w).2 in
  hub_inv conns
  ∧ (∃ s, connect_map ws job conns !! job = Some s ∧ ws ∈ s)
  ∧ hub_inv (connect_map ws job conns)
  ∧ hub_inv (disconnect_map ws job conns)
  ∧ (subscribers conns job ⊆ {[ws]} → disconnect_map ws job conns !! job = None).
Proof.
  intros Hinv conns. assert (hub_inv conns) as Hc by by apply run_calls_hub_inv.
  split_and!; [done| |by apply hub_inv_connect|by apply hub_inv_disconnect|].
  - eexists. split; [apply connect_lookup|]. set_solver.
  - intros Hsub. rewrite disconnect_lookup. unfold subscribers in Hsub.
    destruct (conns !! job) as [s|]; [|done]. simpl in Hsub.
    rewrite decide_True //. set_solver.
Qed.

Lemma hub_keys_never_empty_witness :
  hub_inv (active_connections (fresh_world ∅))
  ∧ let conns := active_connections
       (for_each [CallConnect 1 "job-a"; CallConnect 2 "job-a"; CallDisconnect 1 "job-a"]
          run_call (fresh_world ∅)).2 in
    hub_inv conns
    ∧ (∃ s, connect_map 2 "job-a" conns !! "job-a" = Some s ∧ 2 ∈ s)
    ∧ hub_inv (connect_map 2 "job-a" conns)
    ∧ hub_inv (disconnect_map 2 "job-a" conns)
    ∧ (subscribers conns "job-a" ⊆ {[2]} → disconnect_map 2 "job-a" conns !! "job-a" = None).
Proof.
  split; [apply hub_inv_init|].
  apply (hub_keys_never_empty _ (fresh_world ∅) 2 "job-a"), hub_inv_init.
Defined.





End hub_guarantees.

(** ** The job runner and the status endpoint *)

Section application.
Import WebSocketManager.
Implicit Types (a : App) (w : World) (ws : WebSocket) (job : string).

Lemma in_manager_eq {A} (c : M World A) a :
  in_manager c a = ((c (manager a)).1,
                    mkApp (job_status a) (c (manager a)).2 (stored a) (recorded a)).
Proof. unfold in_manager, lift. by destruct (c (manager a)). Qed.

Lemma send_status_update_returns job status message error res w :
  (send_status_update job status message error res w).1 = Return tt.
Proof. apply broadcast_returns. Qed.

Lemma publish_eq job status message error res a :
  in_manager (send_status_update job status message error res) a =
    (Return tt,
     mkApp (job_status a) (send_status_update job status message error res (manager a)).2
       (stored a) (recorded a)).
Proof. by rewrite in_manager_eq send_status_update_returns. Qed.

(** A call on the durable store touches neither registry nor hub. *)
Lemma mongo_frame mongodb c a :
  job_status (mongo mongodb c a).2 = job_status a
  ∧ manager (mongo mongodb c a).2 = manager a
  ∧ recorded (mongo mongodb c a).2 = recorded a.
Proof.
  unfold mongo. destruct mongodb as [service|]; [|done].
  by destruct (service c).
Qed.

End application.

Section runner.
Import WebSocketManager.
Implicit Types (a : App) (w : World) (ws : WebSocket) (job : string).
Implicit Types (mongodb : option MongoDBService) (graph : Graph) (data : ResearchRequest).
Implicit Types (state : gmap string pyval).

Lemma same_registry_refl a : same_registry a a.
Proof. done. Qed.

Lemma same_registry_trans a b c : same_registry a b → same_registry b c → same_registry a c.
Proof. intros [H1 H2] [H3 H4]. split; congruence. Qed.

Lemma mongo_same_registry mongodb c a : same_registry a (mongo mongodb c a).2.
Proof. destruct (mongo_frame mongodb c a) as (? & ? & ?). by split. Qed.

Lemma mongo_manager mongodb c a : manager (mongo mongodb c a).2 = manager a.
Proof. by destruct (mongo_frame mongodb c a) as (? & ? & ?). Qed.

Lemma mongo_none c a : mongo None c a = (Return tt, a).
Proof. done. Qed.

Lemma in_manager_same_registry {A} (c : M World A) a : same_registry a (in_manager c a).2.
Proof. by rewrite in_manager_eq. Qed.

Lemma research_failed_same_registry mongodb job e a :
  same_registry a (research_failed mongodb job e a).2.
Proof.
  unfold research_failed, mbind, M_bind, bind. rewrite publish_eq.
  eapply same_registry_trans; [|apply mongo_same_registry]. done.
Qed.

Lemma conclude_research_eq mongodb job data state :
  conclude_research mongodb job data state =
    match report_lookup state with
    | Raise e => raise e
    | Return report_content =>
        if truthy report_content then
          (_ ← py_len report_content;
           job_status_update job "completed" report_content (PyStr (company data));;
           mongo mongodb (UpdateJob job "completed" None);;
           mongo mongodb (StoreReport job report_content);;
           in_manager (send_status_update job "completed"
                         (Some "Recherche terminée avec succès") None
                         (Some (PyDict {[ "report" := report_content;
                                          "company" := PyStr (company data) ]}))))
        else
          in_manager (send_status_update job "failed"
                        (su_message (no_report_update state))
                        (su_error (no_report_update state)) None)
    end.
Proof.
  unfold conclude_research, report_lookup, py_dict_get.
  destruct (truthy (py_get state "report")); [done|].
  by destruct (py_or (py_get state "editor") (PyDict ∅)).
Qed.

(** Without a report the run ends on the failed update and leaves the
    registry as it is. *)
Lemma conclude_research_no_report mongodb job data state report_content a :
  report_lookup state = Return report_content → truthy report_content = false →
  conclude_research mongodb job data state a =
    (Return tt,
     mkApp (job_status a)
       (broadcast_to_job job (mkMessage "status_update" (no_report_update state) None)
          (manager a)).2
       (stored a) (recorded a)).
Proof.
  intros Hl Ht. rewrite conclude_research_eq Hl Ht. by rewrite publish_eq.
Qed.

(** What writing the completed entry does to the registry. *)
Lemma job_status_update_eq job status report comp a :
  job_status_update job status report comp a =
    (Return tt,
     match job_status a !! job with
     | Some r =>
         mkApp (<[job := mkJob status (job_result r) (job_error r) (job_debug_info r)
                           comp report (now (manager a))]> (job_status a))
           (mkWorld (active_connections (manager a)) (broken (manager a))
              (wire (manager a)) (S (now (manager a))))
           (stored a) (recorded a ++ [(job, status)])
     | None =>
         mkApp (<[job := mkJob status None None [] comp report (S (now (manager a)))]>
                  (job_status a))
           (mkWorld (active_connections (manager a)) (broken (manager a))
              (wire (manager a)) (S (S (now (manager a)))))
           (stored a) (recorded a ++ [(job, "pending"); (job, status)])
     end).
Proof.
  unfold job_status_update, job_status_getitem, mbind, M_bind, bind, gets, modify, ret.
  destruct (job_status a !! job) as [r|] eqn:E.
  - rewrite in_manager_eq. simpl. done.
  - rewrite !in_manager_eq. simpl. rewrite insert_insert_eq -app_assoc. done.
Qed.

Lemma py_len_sized {W} (v : pyval) (w : W) :
  py_len v w = if sized v
               then (Return (match v with
                             | PyStr s => String.length s
                             | PyList xs => length xs
                             | PyDict d => size d
                             | _ => 0
                             end), w)
               else (Raise "TypeError: object has no len()", w).
Proof. by destruct v. Qed.

(** Registry and log after the [try] block has looked at the state. *)
Lemma conclude_research_registry mongodb job data state a :
  let a' := (conclude_research mongodb job data state a).2 in
  match found_report state with
  | Some report_content =>
      recorded a' = recorded a ++ completed_log (job_status a !! job) job
      ∧ ∃ t, job_status a' =
               <[job := completed_entry (job_status a !! job) data report_content t]>
                 (job_status a)
  | None => same_registry a a'
  end.
Proof.
  intros a'. subst a'. rewrite conclude_research_eq. unfold found_report.
  destruct (report_lookup state) as [rc|e]; [|done].
  destruct (truthy rc) eqn:Ht; simpl; [|by rewrite publish_eq].
  unfold mbind, M_bind, bind. rewrite py_len_sized.
  destruct (sized rc) eqn:Hs; [|done].
  rewrite job_status_update_eq.
  match goal with |- context [mongo mongodb (UpdateJob job "completed" None) ?x] =>
    set (a1 := x) end.
  assert (recorded a1 = recorded a ++ completed_log (job_status a !! job) job
          ∧ ∃ t, job_status a1 =
              <[job := completed_entry (job_status a !! job) data rc t]> (job_status a))
    as Ha1.
  { subst a1. destruct (job_status a !! job) as [r|]; simpl; eauto. }
  clearbody a1.
  pose proof (mongo_same_registry mongodb (UpdateJob job "completed" None) a1) as [Hj1 Hr1].
  destruct (mongo mongodb (UpdateJob job "completed" None) a1) as [[[]|e1] a2];
    simpl in *; [|by rewrite Hj1 Hr1].
  pose proof (mongo_same_registry mongodb (StoreReport job rc) a2) as [Hj2 Hr2].
  destruct (mongo mongodb (StoreReport job rc) a2) as [[[]|e2] a3];
    simpl in *; [|by rewrite Hj2 Hr2 Hj1 Hr1].
  rewrite publish_eq. simpl. by rewrite Hj2 Hr2 Hj1 Hr1.
Qed.

Lemma attempt_research_registry mongodb graph job data a :
  let a' := (attempt_research mongodb graph job data a).2 in
  same_registry a a'
  ∨ ∃ report_content t,
      truthy report_content = true
      ∧ recorded a' = recorded a ++ completed_log (job_status a !! job) job
      ∧ job_status a' =
          <[job := completed_entry (job_status a !! job) data report_content t]>
            (job_status a).
Proof.
  intros a'. subst a'. unfold attempt_research, mbind, M_bind, bind.
  pose proof (mongo_same_registry mongodb (CreateJob job data) a) as [Hj0 Hr0].
  destruct (mongo mongodb (CreateJob job data) a) as [[[]|e0] a0]; simpl in *;
    [|by left].
  rewrite publish_eq in_manager_eq. simpl.
  destruct (graph data job _) as [[states|e1] w1]; simpl; [|by left].
  match goal with |- context [conclude_research _ _ _ _ ?x] => set (a1 := x) end.
  pose proof (conclude_research_registry mongodb job data (merge_states states) a1) as Hc.
  assert (job_status a1 = job_status a ∧ recorded a1 = recorded a) as [Hj1 Hr1] by done.
  simpl in Hc. unfold found_report in Hc.
  destruct (report_lookup (merge_states states)) as [rc|e2]; cycle 1.
  { left. destruct Hc as [? ?]. split; congruence. }
  destruct (truthy rc) eqn:Ht; simpl in Hc; cycle 1.
  { left. destruct Hc as [? ?]. split; congruence. }
  destruct (sized rc); simpl in Hc; cycle 1.
  { left. destruct Hc as [? ?]. split; congruence. }
  right. destruct Hc as [Hrec [t Hjs]]. exists rc, t.
  rewrite Hj1 Hr1 in Hrec Hjs. done.
Qed.

(** What a run does to the registry: nothing, or the completed entry. *)
Lemma process_research_registry mongodb graph job data a :
  let a' := (process_research mongodb graph job data a).2 in
  same_registry a a'
  ∨ ∃ report_content t,
      truthy report_content = true
      ∧ recorded a' = recorded a ++ completed_log (job_status a !! job) job
      ∧ job_status a' =
          <[job := completed_entry (job_status a !! job) data report_content t]>
            (job_status a).
Proof.
  intros a'. subst a'. unfold process_research, try_except.
  pose proof (attempt_research_registry mongodb graph job data a) as Ha.
  destruct (attempt_research mongodb graph job data a) as [[[]|e] a1]; simpl in *; [done|].
  pose proof (research_failed_same_registry mongodb job e a1) as [Hj Hr].
  destruct Ha as [[Hj1 Hr1]|(rc & t & Ht & Hrec & Hjs)].
  - left. split; congruence.
  - right. exists rc, t. rewrite Hj Hr. done.
Qed.

Lemma mongo_eq mongodb c a :
  mongo mongodb c a =
    (match mongo_raises mongodb c with Some e => Raise e | None => Return tt end,
     mkApp (job_status a) (manager a)
       (match mongodb with Some _ => stored a ++ [c] | None => stored a end)
       (recorded a)).
Proof.
  unfold mongo, mongo_raises. destruct mongodb as [service|]; [|by destruct a].
  by destruct (service c).
Qed.

(** The [try] block, once the store accepted the job and the graph
    returned its states. *)
Lemma attempt_research_eq mongodb graph job data a states w1 :
  mongo_raises mongodb (CreateJob job data) = None →
  graph data job (world_at_start job a) = (Return states, w1) →
  attempt_research mongodb graph job data a =
    conclude_research mongodb job data (merge_states states)
      (mkApp (job_status a) w1
         (match mongodb with
          | Some _ => stored a ++ [CreateJob job data]
          | None => stored a
          end)
         (recorded a)).
Proof.
  intros Hm Hg. unfold attempt_research, mbind, M_bind, bind.
  rewrite mongo_eq Hm publish_eq in_manager_eq. simpl.
  unfold world_at_start in Hg. by rewrite Hg.
Qed.

(** Registry and log after the [try] block, case by case. *)
Lemma attempt_research_cases mongodb graph job data a :
  let a' := (attempt_research mongodb graph job data a).2 in
  match mongo_raises mongodb (CreateJob job data) with
  | Some _ => same_registry a a'
  | None =>
      match (graph data job (world_at_start job a)).1 with
      | Raise _ => same_registry a a'
      | Return states =>
          match found_report (merge_states states) with
          | None => same_registry a a'
          | Some report_content =>
              recorded a' = recorded a ++ completed_log (job_status a !! job) job
              ∧ ∃ t, job_status a' =
                       <[job := completed_entry (job_status a !! job) data report_content t]>
                         (job_status a)
          end
      end
  end.
Proof.
  intros a'. subst a'.
  destruct (mongo_raises mongodb (CreateJob job data)) as [e|] eqn:Hm.
  { unfold attempt_research, mbind, M_bind, bind. by rewrite mongo_eq Hm. }
  destruct (graph data job (world_at_start job a)) as [[states|e] w1] eqn:Hg; simpl.
  - rewrite (attempt_research_eq _ _ _ _ _ _ _ Hm Hg).
    match goal with |- context [conclude_research _ _ _ _ ?x] => set (a1 := x) end.
    apply (conclude_research_registry mongodb job data (merge_states states) a1).
  - unfold attempt_research, mbind, M_bind, bind.
    rewrite mongo_eq Hm publish_eq in_manager_eq. simpl.
    unfold world_at_start in Hg. by rewrite Hg.
Qed.

Lemma process_research_cases mongodb graph job data a :
  let a' := (process_research mongodb graph job data a).2 in
  match mongo_raises mongodb (CreateJob job data) with
  | Some _ => same_registry a a'
  | None =>
      match (graph data job (world_at_start job a)).1 with
      | Raise _ => same_registry a a'
      | Return states =>
          match found_report (merge_states states) with
          | None => same_registry a a'
          | Some report_content =>
              recorded a' = recorded a ++ completed_log (job_status a !! job) job
              ∧ ∃ t, job_status a' =
                       <[job := completed_entry (job_status a !! job) data report_content t]>
                         (job_status a)
          end
      end
  end.
Proof.
  intros a'. subst a'. unfold process_research, try_except.
  pose proof (attempt_research_cases mongodb graph job data a) as Ha. simpl in Ha.
  destruct (attempt_research mongodb graph job data a) as [[[]|e] a1]; simpl in *; [done|].
  pose proof (research_failed_same_registry mongodb job e a1) as Hf.
  destruct (mongo_raises mongodb (CreateJob job data));
    [by eapply same_registry_trans|].
  destruct ((graph data job (world_at_start job a)).1) as [states|e'];
    [|by eapply same_registry_trans].
  destruct (found_report (merge_states states));
    [|by eapply same_registry_trans].
  destruct Hf as [Hj Hr]. by rewrite Hj Hr.
Qed.

(** The receive loop sends nothing and leaves the registry alone. *)
Lemma receive_loop_quiet ws job (inbox : list Received) a :
  wire (manager (receive_loop ws job inbox a).2) = wire (manager a)
  ∧ same_registry a (receive_loop ws job inbox a).2.
Proof.
  induction inbox as [|[text| |e] inbox IH]; simpl; try done.
Qed.

(** Attaching to a job that has no registry entry sends nothing. *)
Lemma websocket_endpoint_no_entry ws job (inbox : list Received) a :
  job_status a !! job = None →
  wire (manager (websocket_endpoint ws job inbox a).2) = wire (manager a).
Proof.
  intros Hj. unfold websocket_endpoint, try_except, mbind, M_bind, bind, gets.
  rewrite in_manager_eq. unfold accept. simpl.
  destruct (decide (ws ∈ broken (manager a))) as [Hb|Hb]; simpl; [done|].
  rewrite Hj. simpl.
  match goal with |- context [receive_loop ws job inbox ?x] => set (a1 := x) end.
  destruct (receive_loop_quiet ws job inbox a1) as [Hw _].
  destruct (receive_loop ws job inbox a1) as [[[]|e] a2]; simpl in *; by rewrite Hw.
Qed.

(** Attaching to a job that has a registry entry replays its status,
    once, to the new connection. *)
Lemma websocket_endpoint_replay ws job (inbox : list Received) a r :
  job_status a !! job = Some r →
  ws ∉ broken (manager a) →
  ws ∉ subscribers (active_connections (manager a)) job →
  received ws (wire (manager (websocket_endpoint ws job inbox a).2)) =
    received ws (wire (manager a))
      ++ [mkUpdate (job_state r) (Some "Connected to status stream")
            (job_error r) (job_result r)].
Proof.
  intros Hj Hb Hs. unfold websocket_endpoint, try_except, mbind, M_bind, bind, gets.
  rewrite in_manager_eq. unfold accept. simpl.
  rewrite decide_False //. simpl. rewrite Hj publish_eq. simpl.
  match goal with |- context [receive_loop ws job inbox ?x] => set (a1 := x) end.
  destruct (receive_loop_quiet ws job inbox a1) as [Hw _].
  assert (received ws (wire (manager a1)) =
            received ws (wire (manager a))
              ++ [mkUpdate (job_state r) (Some "Connected to status stream")
                    (job_error r) (job_result r)]) as Ha1.
  { subst a1. simpl. unfold send_status_update. rewrite received_broadcast. simpl.
    f_equal.
    destruct (decide (ws ∈ subscribers (connect_map ws job (active_connections (manager a))) job
                      ∧ ws ∉ broken (manager a))) as [_|Hn]; [done|].
    destruct Hn. split; [|done].
    rewrite subscribers_connect. destruct (decide (job = job)); [|done]. set_solver. }
  destruct (receive_loop ws job inbox a1) as [[[]|e] a2]; simpl in *; by rewrite Hw.
Qed.

Lemma statuses_of_app job (l1 l2 : list (string * string)) :
  statuses_of job (l1 ++ l2) = statuses_of job l1 ++ statuses_of job l2.
Proof. unfold statuses_of. by rewrite filter_app map_app. Qed.

Lemma statuses_of_completed_log job :
  statuses_of job (completed_log None job) = ["pending"; "completed"].
Proof.
  unfold statuses_of, completed_log. rewrite !filter_cons. simpl.
  by destruct (decide (job = job)).
Qed.

(** C1 (the code departs from the claim).  A run whose graph raises, or
    yields no report that can be recorded, leaves the job without a
    registry entry; a connection that attaches afterwards is sent
    nothing at all, where the claim promises a failed event. *)
Theorem late_subscriber_after_failed_run mongodb graph job data a ws
    (inbox : list Received) :
  job_status a !! job = None →
  (∀ states, (graph data job (world_at_start job a)).1 = Return states →
             found_report (merge_states states) = None) →
  let a1 := (process_research mongodb graph job data a).2 in
  job_status a1 !! job = None
  ∧ wire (manager (websocket_endpoint ws job inbox a1).2) = wire (manager a1).
Proof.
  intros Hfresh Hgraph a1.
  assert (job_status a1 !! job = None) as Hnone.
  { pose proof (process_research_cases mongodb graph job data a) as Hc. simpl in Hc.
    fold a1 in Hc.
    assert (same_registry a a1) as [Hj _]; [|by rewrite Hj].
    destruct (mongo_raises mongodb (CreateJob job data)); [done|].
    destruct ((graph data job (world_at_start job a)).1) as [states|e]; [|done].
    by rewrite (Hgraph states eq_refl) in Hc. }
  split; [done|]. by apply websocket_endpoint_no_entry.
Qed.

Lemma late_subscriber_after_failed_run_witness :
  job_status one_listener !! "job-a" = None
  ∧ (∀ states,
       (crashing_graph sample_request "job-a" (world_at_start "job-a" one_listener)).1
         = Return states →
       found_report (merge_states states) = None)
  ∧ let a1 := (process_research None crashing_graph "job-a" sample_request one_listener).2 in
    job_status a1 !! "job-a" = None
    ∧ wire (manager (websocket_endpoint 2 "job-a" [] a1).2) = wire (manager a1).
Proof.
  assert (job_status one_listener !! "job-a" = None) as H1 by done.
  assert (∀ states,
            (crashing_graph sample_request "job-a" (world_at_start "job-a" one_listener)).1
              = Return states →
            found_report (merge_states states) = None) as H2 by done.
  split; [exact H1|]. split; [exact H2|].
  exact (late_subscriber_after_failed_run None crashing_graph "job-a" sample_request
           one_listener 2 [] H1 H2).
Defined.




End runner.

(** ** Notifications from the stages *)

Section stage_notify.
Import WebSocketManager.
Implicit Types (s : Stage) (w : World) (ws : WebSocket) (job : string).
Implicit Types (state : gmap string pyval).

Lemma in_hub_eq {A} (c : M World A) s :
  in_hub c s = ((c (hub s)).1, mkStage (st s) (c (hub s)).2).
Proof. unfold in_hub, lift. by destruct (c (hub s)). Qed.

Lemma notify_st_eq status message res s :
  notify_st status message res s =
    ((notify (st s) status message res (hub s)).1,
     mkStage (st s) (notify (st s) status message res (hub s)).2).
Proof. unfold notify_st, mbind, M_bind, bind, gets. by rewrite in_hub_eq. Qed.

Lemma notify_returns state status message res w :
  notify_ok state = true → (notify state status message res w).1 = Return tt.
Proof.
  unfold notify_ok, notify.
  destruct (truthy (py_get state "websocket_manager")); [|done].
  destruct (truthy (py_get state "job_id")); [|done]. simpl.
  destruct (py_get state "websocket_manager"); try done.
  destruct (py_get state "job_id"); try done; intros _;
    apply send_status_update_returns.
Qed.

Lemma notify_raises state status message res w :
  notify_ok state = false → ∃ e, (notify state status message res w).1 = Raise e.
Proof.
  unfold notify_ok, notify.
  destruct (truthy (py_get state "websocket_manager")); [|done].
  destruct (truthy (py_get state "job_id")); [|done]. simpl.
  destruct (py_get state "websocket_manager"); try (by eexists).
  destruct (py_get state "job_id"); try done; by eexists.
Qed.

Lemma notify_st_returns status message res s :
  notify_ok (st s) = true →
  ∃ w', notify_st status message res s = (Return tt, mkStage (st s) w')
        ∧ broken w' = broken (hub s).
Proof.
  intros Hok. rewrite notify_st_eq notify_returns //. eexists. split; [done|].
  unfold notify.
  destruct (truthy (py_get (st s) "websocket_manager")); [|done].
  destruct (truthy (py_get (st s) "job_id")); [|done].
  destruct (py_get (st s) "websocket_manager"); try done.
  destruct (py_get (st s) "job_id"); try done. apply broadcast_broken.
Qed.

Lemma listening_notify_ok job ws s : listening job ws s → notify_ok (st s) = true.
Proof.
  intros (Hm & Hj & Hne & _). unfold notify_ok, py_get. rewrite Hm Hj. simpl.
  by destruct (String.eqb job "").
Qed.

(** A listening connection receives every notification of a stage. *)
Lemma notify_st_listening job ws status message res s :
  listening job ws s →
  ∃ s', notify_st status message res s = (Return tt, s')
        ∧ st s' = st s
        ∧ listening job ws s'
        ∧ received ws (wire (hub s')) =
            received ws (wire (hub s)) ++ [mkUpdate status (Some message) None (Some res)].
Proof.
  intros (Hm & Hj & Hne & Hs & Hb). rewrite notify_st_eq.
  unfold notify, py_get. rewrite Hm Hj. simpl.
  assert (String.eqb job "" = false) as -> by by apply String.eqb_neq.
  simpl. unfold send_status_update. rewrite broadcast_returns.
  eexists. split; [done|]. simpl. split; [done|]. split.
  - split_and!; try done.
    + by apply broadcast_keeps_listener.
    + by rewrite broadcast_broken.
  - rewrite received_broadcast. f_equal.
    destruct (decide (ws ∈ subscribers (active_connections (hub s)) job
                      ∧ ws ∉ broken (hub s))) as [_|Hn]; [done|].
    by destruct Hn.
Qed.

End stage_notify.

(** ** The editor's streaming cleanup *)

Section sweep.
Import WebSocketManager Editor.
Implicit Types (s : Stage) (ws : WebSocket) (job : string).
Implicit Types (svc : Services) (context : gmap string pyval).

Lemma send_chunk_listening job ws buffer s :
  listening job ws s →
  ∃ s', send_chunk buffer s = (Return tt, s')
        ∧ st s' = st s
        ∧ listening job ws s'
        ∧ received ws (wire (hub s')) = received ws (wire (hub s)) ++ [chunk_update buffer].
Proof. exact (notify_st_listening job ws _ _ _ s). Qed.

(** The chunks sent while a stream is read up to its stop signal
    concatenate to the text that was buffered and streamed, and the
    loop returns everything streamed. *)
Lemma sweep_loop_reconstructs job ws (deltas : list (option string))
    (accumulated_text buffer : string) s :
  listening job ws s →
  ∃ s' chunks,
    sweep_loop (map Delta deltas ++ [Stop]) accumulated_text buffer s =
      (Return (accumulated_text +:+ stream_text deltas), s')
    ∧ st s' = st s
    ∧ listening job ws s'
    ∧ received ws (wire (hub s')) = received ws (wire (hub s)) ++ map chunk_update chunks
    ∧ foldr String.append "" chunks = buffer +:+ stream_text deltas.
Proof.
  revert accumulated_text buffer s.
  induction deltas as [|d deltas IH]; intros acc buffer s Hl.
  - cbn [map app sweep_loop]. unfold stream_text. cbn [map foldr].
    rewrite !append_nil_r. unfold mbind, M_bind, bind.
    destruct (String.eqb buffer "") eqn:Hb.
    + apply String.eqb_eq in Hb. subst buffer. exists s, [].
      split_and!; try done. by rewrite app_nil_r.
    + destruct (send_chunk_listening job ws buffer s Hl) as (s' & -> & Hst & Hl' & Hr).
      exists s', [buffer]. split_and!; try done. simpl. by rewrite append_nil_r.
  - change (map Delta (d :: deltas) ++ [Stop])
      with (Delta d :: (map Delta deltas ++ [Stop])).
    change (stream_text (d :: deltas)) with (delta_text d +:+ stream_text deltas).
    cbn [sweep_loop]. destruct d as [text|]; cycle 1.
    { simpl. apply IH, Hl. }
    destruct (String.eqb text "") eqn:Ht.
    { apply String.eqb_eq in Ht. subst text. simpl. apply IH, Hl. }
    simpl. destruct (flushable (buffer +:+ text)) eqn:Hf.
    + unfold mbind, M_bind, bind.
      destruct (send_chunk_listening job ws (buffer +:+ text) s Hl)
        as (s1 & -> & Hst1 & Hl1 & Hr1).
      destruct (IH (acc +:+ text) "" s1 Hl1) as (s' & chunks & -> & Hst & Hl' & Hr & Hc).
      exists s', ((buffer +:+ text) :: chunks). split_and!; try done.
      * by rewrite append_assoc.
      * congruence.
      * rewrite Hr Hr1 -app_assoc. done.
      * simpl. rewrite Hc. simpl. by rewrite append_assoc.
    + destruct (IH (acc +:+ text) (buffer +:+ text) s Hl)
        as (s' & chunks & -> & Hst & Hl' & Hr & Hc).
      exists s', chunks. split_and!; try done.
      * by rewrite append_assoc.
      * by rewrite Hc append_assoc.
Qed.

(** Scenario D at the cleanup call: the buffer "Sec" is not flushed, the
    buffer "Section 1." with its newline is, and the stop signal finds
    an empty buffer. *)
Lemma content_sweep_scenario_D job ws svc context content s :
  openai_sweep svc context content =
    Return [Delta (Some "Sec"); Delta (Some ("tion 1." +:+ nl)); Stop] →
  listening job ws s →
  ∃ s', content_sweep svc context content s = (Return "Section 1.", s')
        ∧ st s' = st s
        ∧ listening job ws s'
        ∧ received ws (wire (hub s')) =
            received ws (wire (hub s)) ++ [chunk_update ("Section 1." +:+ nl)].
Proof.
  intros Hsvc Hl.
  assert (sweep_loop [Delta (Some "Sec"); Delta (Some ("tion 1." +:+ nl)); Stop] "" "" =
            (send_chunk ("Section 1." +:+ nl);; ret ("Section 1." +:+ nl))) as Heq
    by reflexivity.
  unfold content_sweep, try_except, mbind, M_bind, bind, call.
  rewrite Hsvc Heq. unfold mbind, M_bind, bind.
  destruct (send_chunk_listening job ws ("Section 1." +:+ nl) s Hl)
    as (s' & -> & Hst & Hl' & Hr).
  exists s'. split_and!; done.
Qed.

Lemma flushable_spec (buffer : string) :
  flushable buffer = true ↔
    (has_char "." buffer = true ∨ has_char "!" buffer = true
     ∨ has_char "?" buffer = true ∨ has_char "010" buffer = true)
    ∧ 10 < String.length buffer.
Proof.
  unfold flushable. rewrite andb_true_iff !orb_true_iff Nat.ltb_lt. tauto.
Qed.

Lemma sample_stage_listening : listening "job-a" 1 sample_stage.
Proof. split_and!; [done|done|done|compute_done|compute_done]. Qed.

(** C3 (as amended).  In scenario D the cleanup call streams "Sec", then
    "tion 1." with a newline, then stops: a listening connection
    receives exactly one chunk event, carrying the whole text, and the
    call returns the stripped text.  A chunk is flushed when the buffer
    holds a sentence end or a newline and is longer than ten characters,
    and at the stop signal when a remainder is left; for every stream
    that ends with the stop signal the chunks received concatenate to
    the streamed text.  In the run of the whole pipeline the chunk event
    is followed by the editor's final event and the terminal completed
    event. *)
Theorem streamed_chunks_reconstruct_report job ws svc context content s
    (deltas : list (option string)) :
  listening job ws s →
  openai_sweep svc context content =
    Return [Delta (Some "Sec"); Delta (Some ("tion 1." +:+ nl)); Stop] →
  (∃ s', content_sweep svc context content s = (Return "Section 1.", s')
         ∧ received ws (wire (hub s')) =
             received ws (wire (hub s)) ++ [chunk_update ("Section 1." +:+ nl)])
  ∧ (∀ buffer,
       flushable buffer = true ↔
         (has_char "." buffer = true ∨ has_char "!" buffer = true
          ∨ has_char "?" buffer = true ∨ has_char "010" buffer = true)
         ∧ 10 < String.length buffer)
  ∧ (∀ text rest accumulated_text buffer,
       text ≠ "" →
       sweep_loop (Delta (Some text) :: rest) accumulated_text buffer =
         if flushable (buffer +:+ text)
         then (send_chunk (buffer +:+ text);;
               sweep_loop rest (accumulated_text +:+ text) "")
         else sweep_loop rest (accumulated_text +:+ text) (buffer +:+ text))
  ∧ (∀ rest accumulated_text buffer,
       sweep_loop (Stop :: rest) accumulated_text buffer =
         ((if String.eqb buffer "" then ret tt else send_chunk buffer);;
          ret accumulated_text))
  ∧ (∃ s' chunks,
       sweep_loop (map Delta deltas ++ [Stop]) "" "" s = (Return (stream_text deltas), s')
       ∧ received ws (wire (hub s')) = received ws (wire (hub s)) ++ map chunk_update chunks
       ∧ foldr String.append "" chunks = stream_text deltas)
  ∧ (let updates := received 1 (wire (manager scenario_D.2)) in
     chunks_of updates = ["Section 1." +:+ nl]
     ∧ map su_status (drop (length updates - 3) updates) =
         ["report_chunk"; "editor_complete"; "completed"]
     ∧ last updates =
         Some (mkUpdate "completed" (Some "Recherche terminée avec succès") None
                 (Some (PyDict {[ "report" := PyStr "Section 1.";
                                  "company" := PyStr "Acme" ]})))).
Proof.
  intros Hl Hsvc. split_and!.
  - destruct (content_sweep_scenario_D job ws svc context content s Hsvc Hl)
      as (s' & Heq & _ & _ & Hr). by exists s'.
  - apply flushable_spec.
  - intros text rest acc buffer Ht. cbn [sweep_loop].
    apply String.eqb_neq in Ht. by rewrite Ht.
  - done.
  - destruct (sweep_loop_reconstructs job ws deltas "" "" s Hl)
      as (s' & chunks & Heq & _ & _ & Hr & Hc).
    exists s', chunks. by rewrite Heq.
  - by vm_compute.
Qed.

Lemma streamed_chunks_reconstruct_report_witness :
  listening "job-a" 1 sample_stage
  ∧ openai_sweep sample_services ∅ "draft" =
      Return [Delta (Some "Sec"); Delta (Some ("tion 1." +:+ nl)); Stop]
  ∧ ∃ s', content_sweep sample_services ∅ "draft" sample_stage = (Return "Section 1.", s')
          ∧ received 1 (wire (hub s')) =
              received 1 (wire (hub sample_stage)) ++ [chunk_update ("Section 1." +:+ nl)].
Proof.
  split; [exact sample_stage_listening|]. split; [reflexivity|].
  exact (proj1 (streamed_chunks_reconstruct_report "job-a" 1 sample_services ∅ "draft"
                  sample_stage [] sample_stage_listening eq_refl)).
Defined.

(** C3 as stated fails: in scenario D the connection receives one chunk
    event, not two. *)
Lemma scenario_D_has_one_chunk :
  chunks_of (received 1 (wire (manager scenario_D.2))) = ["Section 1." +:+ nl]
  ∧ length (chunks_of (received 1 (wire (manager scenario_D.2)))) ≠ 2.
Proof. by vm_compute. Qed.

End sweep.

(** ** The briefing tasks and their limiter *)

Section limiter.
Import Briefing.
Implicit Types (p : Pool) (t : Task) (pc : Pc) (i : nat).
Implicit Types (svc : Services) (context : gmap string pyval).
Implicit Types (l : list (Task * Pc)).

Lemma holders_cons t pc l : holders ((t, pc) :: l) = token pc + holders l.
Proof.
  unfold holders, token. rewrite filter_cons. simpl.
  destruct (holds_token pc); by rewrite ?decide_True ?decide_False.
Qed.

Lemma holders_insert l i t pc t' pc' :
  l !! i = Some (t, pc) →
  holders (<[i := (t', pc')]> l) + token pc = holders l + token pc'.
Proof.
  revert i. induction l as [|[t0 pc0] l IH]; intros [|i] Hi; simplify_eq/=.
  - rewrite !holders_cons. lia.
  - rewrite !holders_cons. specialize (IH i Hi). lia.
Qed.

Lemma work_left_insert l i t pc t' pc' :
  l !! i = Some (t, pc) →
  work_left (<[i := (t', pc')]> l) + moves_left pc = work_left l + moves_left pc'.
Proof.
  unfold work_left.
  revert i. induction l as [|[t0 pc0] l IH]; intros [|i] Hi; simplify_eq/=.
  - lia.
  - specialize (IH i Hi). lia.
Qed.

Lemma holders_le_length l : holders l ≤ length l.
Proof. unfold holders. apply length_filter. Qed.

(** A move of task [i] changes its own entry only, keeps the tokens in
    balance and brings the task closer to its end. *)
Lemma step_move svc context i p :
  step svc context i p = p
  ∨ ∃ t pc pc',
      procs p !! i = Some (t, pc)
      ∧ procs (step svc context i p) = <[i := (t, pc')]> (procs p)
      ∧ semaphore (step svc context i p) + token pc' = semaphore p + token pc
      ∧ moves_left pc' < moves_left pc.
Proof.
  unfold step. destruct (procs p !! i) as [[t pc]|] eqn:Hi; [|by left].
  destruct pc as [| | |content| |e].
  - destruct (semaphore p) as [|n] eqn:Hs; [by left|].
    right. exists t, Waiting, Holding. simpl. split_and!; [done|done|unfold token; simpl; lia|lia].
  - right.
    destruct ((total_docs ← py_len (curated_data t);
               in_hub (notify context "briefing_start"
                         ("Génération du briefing " +:+ category t)
                         (start_result t total_docs))) (stage p)) as [[[]|e] stage'].
    + exists t, Holding, Started. simpl. split_and!; [done|done|unfold token; simpl; lia|lia].
    + exists t, Holding, (Aborted e). simpl. split_and!; [done|done|unfold token; simpl; lia|lia].
  - right. destruct (briefing_documents svc (category t) (curated_data t)) as [docs|e].
    + destruct (gemini_generate svc (category t) context docs) as [text|e].
      * destruct (String.eqb (strip text) "").
        -- exists t, Started, Finished. simpl. split_and!; [done|done|unfold token; simpl; lia|lia].
        -- exists t, Started, (Generated (strip text)). simpl.
           split_and!; [done|done|unfold token; simpl; lia|lia].
      * exists t, Started, Finished. simpl. split_and!; [done|done|unfold token; simpl; lia|lia].
    + exists t, Started, (Aborted e). simpl. split_and!; [done|done|unfold token; simpl; lia|lia].
  - right. exists t, (Generated content), Finished.
    destruct (in_hub (notify context "briefing_complete"
                        ("Briefing " +:+ category t +:+ " complété")
                        (complete_result t)) (stage p)) as [[[]|e] stage'];
      simpl; split_and!; try done; unfold token; simpl; lia.
  - by left.
  - by left.
Qed.

Lemma step_enabled_moves svc context i p :
  enabled p i = true →
  ∃ t pc pc',
    procs p !! i = Some (t, pc)
    ∧ procs (step svc context i p) = <[i := (t, pc')]> (procs p)
    ∧ semaphore (step svc context i p) + token pc' = semaphore p + token pc
    ∧ moves_left pc' < moves_left pc.
Proof.
  intros He. destruct (step_move svc context i p) as [Heq|Hm]; [|done].
  exfalso. revert He Heq. unfold enabled, step.
  destruct (procs p !! i) as [[t pc]|] eqn:Hi; [|done].
  assert (∀ pc' q, procs q = <[i := (t, pc')]> (procs p) → pc' ≠ pc → q ≠ p) as Hne.
  { intros pc' q Hq Hpc ->. apply (f_equal (λ l, l !! i)) in Hq.
    rewrite list_lookup_insert_eq in Hq; [|by eapply lookup_lt_Some]. congruence. }
  destruct pc as [| | |content| |e]; simpl; try done.
  - destruct (semaphore p) as [|n]; [done|]. intros _. by eapply Hne.
  - intros _.
    destruct ((total_docs ← py_len (curated_data t);
               in_hub (notify context "briefing_start"
                         ("Génération du briefing " +:+ category t)
                         (start_result t total_docs))) (stage p)) as [[[]|e] stage'];
      by eapply Hne.
  - intros _. destruct (briefing_documents svc (category t) (curated_data t)) as [docs|e];
      [|by eapply Hne].
    destruct (gemini_generate svc (category t) context docs) as [text|e];
      [|by eapply Hne].
    destruct (String.eqb (strip text) ""); by eapply Hne.
  - intros _.
    destruct (in_hub (notify context "briefing_complete"
                        ("Briefing " +:+ category t +:+ " complété")
                        (complete_result t)) (stage p)) as [[[]|e] stage'];
      by eapply Hne.
Qed.

Lemma step_tokens_conserved svc context i p :
  tokens_conserved p → tokens_conserved (step svc context i p).
Proof.
  unfold tokens_conserved. intros Hp.
  destruct (step_move svc context i p) as [->|(t & pc & pc' & Hi & Hprocs & Hsem & _)];
    [done|].
  rewrite Hprocs. pose proof (holders_insert _ _ _ _ t pc' Hi). lia.
Qed.

Lemma step_work_left svc context i p :
  work_left (procs (step svc context i p)) ≤ work_left (procs p).
Proof.
  destruct (step_move svc context i p) as [->|(t & pc & pc' & Hi & Hprocs & _ & Hlt)];
    [done|].
  rewrite Hprocs. pose proof (work_left_insert _ _ _ _ t pc' Hi). lia.
Qed.

Lemma step_length svc context i p :
  length (procs (step svc context i p)) = length (procs p).
Proof.
  destruct (step_move svc context i p) as [->|(t & pc & pc' & Hi & Hprocs & _)]; [done|].
  by rewrite Hprocs length_insert.
Qed.

Lemma run_schedule_tokens_conserved svc context (schedule : list nat) p :
  tokens_conserved p → tokens_conserved (run_schedule svc context schedule p).
Proof.
  revert p. induction schedule as [|i schedule IH]; intros p Hp; [done|].
  apply IH, step_tokens_conserved, Hp.
Qed.

Lemma run_schedule_work_left svc context (schedule : list nat) p :
  work_left (procs (run_schedule svc context schedule p)) ≤ work_left (procs p).
Proof.
  revert p. induction schedule as [|i schedule IH]; intros p; [done|].
  etrans; [apply IH|apply step_work_left].
Qed.

Lemma init_pool_conserved (tasks : list Task) (s : Stage) :
  tokens_conserved (init_pool tasks s).
Proof.
  unfold tokens_conserved, init_pool. simpl.
  assert (holders (map (λ t, (t, Waiting)) tasks) = 0) as ->; [|done].
  induction tasks as [|t tasks IH]; [done|]. simpl. by rewrite holders_cons IH.
Qed.

Lemma init_pool_work_left (tasks : list Task) (s : Stage) :
  work_left (procs (init_pool tasks s)) = 4 * length tasks.
Proof.
  unfold work_left, init_pool. simpl.
  induction tasks as [|t tasks IH]; [done|]. simpl in *. lia.
Qed.

(** Whatever every move preserves holds when [gather] is done. *)
Lemma run_schedule_invariant (I : Pool → Prop) svc context (schedule : list nat) p :
  (∀ i q, I q → I (step svc context i q)) → I p → I (run_schedule svc context schedule p).
Proof.
  intros Hstep. revert p. induction schedule as [|i schedule IH]; intros p Hp; [done|].
  apply IH, Hstep, Hp.
Qed.

Lemma drain_invariant (I : Pool → Prop) svc context (fuel : nat) p :
  (∀ i q, I q → I (step svc context i q)) → I p → I (drain svc context fuel p).
Proof.
  intros Hstep. revert p. induction fuel as [|fuel IH]; intros p Hp; [done|].
  simpl. destruct (next_enabled p) as [i|]; [|done]. apply IH, Hstep, Hp.
Qed.

Lemma next_enabled_Some p i : next_enabled p = Some i → enabled p i = true.
Proof.
  unfold next_enabled. intros Hh. apply head_Some_elem_of in Hh.
  by apply list_elem_of_filter in Hh as [He _].
Qed.

Lemma next_enabled_None p i : next_enabled p = None → enabled p i = false.
Proof.
  unfold next_enabled. intros Hh. apply head_None in Hh.
  destruct (enabled p i) eqn:He; [|done]. exfalso.
  assert (i ∈ filter (λ i, enabled p i = true) (seq 0 (length (procs p)))) as Hin.
  { apply list_elem_of_filter. split; [done|]. apply elem_of_seq. split; [lia|].
    unfold enabled in He. destruct (procs p !! i) as [x|] eqn:Hi; [|done].
    apply lookup_lt_Some in Hi. lia. }
  rewrite Hh in Hin. by apply elem_of_nil in Hin.
Qed.

Lemma holders_pos l :
  0 < holders l → ∃ j t pc, l !! j = Some (t, pc) ∧ holds_token pc = true.
Proof.
  induction l as [|[t pc] l IH]; [by inversion 1|].
  rewrite holders_cons. unfold token. destruct (holds_token pc) eqn:Hh.
  - intros _. by exists 0, t, pc.
  - intros Hl. destruct IH as (j & t' & pc' & Hj & Hh'); [lia|].
    by exists (S j), t', pc'.
Qed.

(** No deadlock: while a task is unfinished, some task can move. *)
Lemma progress p i t pc :
  tokens_conserved p → procs p !! i = Some (t, pc) → terminated pc = false →
  ∃ j, enabled p j = true.
Proof.
  intros Hc Hi Ht.
  assert (pc ≠ Waiting → enabled p i = true) as Hmoves.
  { intros Hw. unfold enabled. rewrite Hi. by destruct pc. }
  destruct pc; try (by exists i; apply Hmoves).
  destruct (semaphore p) as [|n] eqn:Hs.
  - unfold tokens_conserved in Hc. rewrite Hs in Hc.
    destruct (holders_pos (procs p)) as (j & t' & pc' & Hj & Hh); [lia|].
    exists j. unfold enabled. rewrite Hj. by destruct pc'.
  - exists i. unfold enabled. by rewrite Hi Hs.
Qed.

Lemma work_left_zero l : work_left l = 0 → all_terminated l.
Proof.
  unfold work_left, all_terminated. induction l as [|[t pc] l IH]; [by constructor|].
  simpl. intros Hz. constructor.
  - simpl. destruct pc; simpl in *; try done; lia.
  - apply IH. lia.
Qed.

(** [gather] returns: with as many moves as are left to make, every
    task terminates. *)
Lemma drain_terminates svc context (fuel : nat) p :
  tokens_conserved p → work_left (procs p) ≤ fuel →
  all_terminated (procs (drain svc context fuel p)).
Proof.
  revert p. induction fuel as [|fuel IH]; intros p Hc Hw.
  - apply work_left_zero. simpl. lia.
  - simpl. destruct (next_enabled p) as [i|] eqn:Hn.
    + apply IH; [by apply step_tokens_conserved|].
      apply next_enabled_Some in Hn.
      destruct (step_enabled_moves svc context i p Hn)
        as (t & pc & pc' & Hi & Hprocs & _ & Hlt).
      rewrite Hprocs. pose proof (work_left_insert _ _ _ _ t pc' Hi). lia.
    + apply Forall_lookup. intros i [t pc] Hi. simpl.
      destruct (terminated pc) eqn:Ht; [done|]. exfalso.
      destruct (progress p i t pc Hc Hi Ht) as (j & Hj).
      by rewrite (next_enabled_None p j Hn) in Hj.
Qed.

Lemma all_terminated_holders l : all_terminated l → holders l = 0.
Proof.
  induction 1 as [|[t pc] l Ht _ IH]; [done|].
  rewrite holders_cons IH. simpl in Ht. unfold token. by destruct pc.
Qed.

Lemma lookup_procs_insert l i j (x y : Task * Pc) :
  l !! i = Some x →
  <[i := y]> l !! j = if decide (i = j) then Some y else l !! j.
Proof.
  intros Hi. case_decide as Hd.
  - subst j. apply list_lookup_insert_eq. by eapply lookup_lt_Some.
  - by apply list_lookup_insert_ne.
Qed.

Lemma map_fst_insert l i t pc pc' :
  l !! i = Some (t, pc) → map fst (<[i := (t, pc')]> l) = map fst l.
Proof.
  revert i. induction l as [|[t0 pc0] l IH]; intros [|i] Hi; simplify_eq/=; [done|].
  by rewrite IH.
Qed.

Lemma task_key_listed l i t pc :
  l !! i = Some (t, pc) → briefing_key t ∈ map briefing_key (map fst l).
Proof.
  intros Hi. apply list_elem_of_In, in_map, in_map_iff. exists (t, pc).
  split; [done|]. apply list_elem_of_In. by eapply list_elem_of_lookup_2.
Qed.

(** The status calls of a task leave the state dict alone. *)
Lemma start_call_st context t (s : Stage) :
  st ((total_docs ← py_len (curated_data t);
       in_hub (notify context "briefing_start"
                 ("Génération du briefing " +:+ category t)
                 (start_result t total_docs))) s).2 = st s.
Proof.
  unfold mbind, M_bind, bind. rewrite py_len_sized.
  destruct (sized (curated_data t)); [|done]. by rewrite in_hub_eq.
Qed.

Lemma start_call_returns context t (s : Stage) :
  notify_ok context = true → sized (curated_data t) = true →
  ((total_docs ← py_len (curated_data t);
    in_hub (notify context "briefing_start"
              ("Génération du briefing " +:+ category t)
              (start_result t total_docs))) s).1 = Return tt.
Proof.
  intros Hn Hs. unfold mbind, M_bind, bind. rewrite py_len_sized Hs in_hub_eq. simpl.
  by apply notify_returns.
Qed.

Section inv.
Context (svc : Services) (context : gmap string pyval).
Context (tasks : list Task) (s0 : Stage).

Lemma inv_move p i t pc pc' sem brf stage' :
  briefing_inv tasks s0 p → procs p !! i = Some (t, pc) →
  st stage' = st (stage p) →
  (∀ c, pc' = Generated c → blank c = false) →
  pc' ≠ Finished → (∀ e, pc' ≠ Aborted e) →
  briefing_inv tasks s0 (mkPool sem brf (<[i := (t, pc')]> (procs p)) (failure p) stage').
Proof.
  intros [H1 H2 H3 H4 H5 H6] Hi Hst Hgen Hfin Habt. split; simpl.
  - by rewrite (map_fst_insert _ _ _ pc).
  - intros j t' e. rewrite (lookup_procs_insert _ _ _ _ _ Hi).
    case_decide; [by intros [= _ ?%Habt]|apply H2].
  - intros j t' c. rewrite (lookup_procs_insert _ _ _ _ _ Hi).
    case_decide; [intros [= _ ?]; by apply Hgen|apply H3].
  - intros j t'. rewrite (lookup_procs_insert _ _ _ _ _ Hi) Hst.
    case_decide; [by intros [= _ ?]|apply H4].
  - intros k. rewrite Hst. apply H5.
  - intros k. rewrite Hst. apply H6.
Qed.

Lemma good_at_insert (state : gmap string pyval) k k' c :
  good_text c → good_at state k → good_at (<[k' := PyStr c]> state) k.
Proof.
  intros Hc Hk. destruct (decide (k' = k)) as [->|Hne].
  - exists c. by rewrite lookup_insert_eq.
  - destruct Hk as (c' & Hl & Hc'). exists c'. by rewrite lookup_insert_ne.
Qed.

Lemma inv_store p i t pc content stage' :
  briefing_inv tasks s0 p → procs p !! i = Some (t, pc) →
  st stage' = st (stage p) → good_text content →
  briefing_inv tasks s0 (store i t content stage' p).
Proof.
  intros [H1 H2 H3 H4 H5 H6] Hi Hst Hc. split; simpl.
  - by rewrite (map_fst_insert _ _ _ pc).
  - intros j t' e. rewrite (lookup_procs_insert _ _ _ _ _ Hi).
    case_decide; [done|apply H2].
  - intros j t' c. rewrite (lookup_procs_insert _ _ _ _ _ Hi).
    case_decide; [done|apply H3].
  - intros j t'. rewrite (lookup_procs_insert _ _ _ _ _ Hi) Hst.
    case_decide.
    + intros [= <-]. exists content. by rewrite lookup_insert_eq.
    + intros Hj. apply good_at_insert; [done|]. by eapply H4.
  - intros k Hk. rewrite Hst. apply good_at_insert; [done|]. by apply H5.
  - intros k Hk. rewrite Hst lookup_insert_ne; [by apply H6|].
    intros <-. apply Hk. rewrite -H1. by eapply task_key_listed.
Qed.

Lemma inv_abort p i t pc e stage' :
  briefing_inv tasks s0 p → procs p !! i = Some (t, pc) →
  st stage' = st (stage p) →
  briefing_inv tasks s0 (abort i t e stage' p).
Proof.
  intros [H1 H2 H3 H4 H5 H6] Hi Hst. split; simpl.
  - by rewrite (map_fst_insert _ _ _ pc).
  - done.
  - intros j t' c. rewrite (lookup_procs_insert _ _ _ _ _ Hi).
    case_decide; [done|apply H3].
  - intros j t'. rewrite (lookup_procs_insert _ _ _ _ _ Hi) Hst.
    case_decide; [done|apply H4].
  - intros k. rewrite Hst. apply H5.
  - intros k. rewrite Hst. apply H6.
Qed.

Lemma strip_good text : good_text (strip text).
Proof.
  destruct (blank text) eqn:Hb.
  - left. by apply strip_empty.
  - right. by rewrite blank_strip.
Qed.

(** Every move keeps [briefing_inv]. *)
Lemma step_briefing_inv i p :
  briefing_inv tasks s0 p → briefing_inv tasks s0 (step svc context i p).
Proof.
  intros Hinv. unfold step. destruct (procs p !! i) as [[t pc]|] eqn:Hi; [|done].
  destruct pc as [| | |content| |e]; try done.
  - destruct (semaphore p) as [|n]; [done|]. by eapply inv_move.
  - pose proof (start_call_st context t (stage p)) as Hst.
    destruct ((total_docs ← py_len (curated_data t);
               in_hub (notify context "briefing_start"
                         ("Génération du briefing " +:+ category t)
                         (start_result t total_docs))) (stage p)) as [[[]|e] stage'];
      simpl in Hst.
    + by eapply inv_move.
    + by eapply inv_abort.
  - destruct (briefing_documents svc (category t) (curated_data t)) as [docs|e];
      [|by eapply inv_abort].
    destruct (gemini_generate svc (category t) context docs) as [text|e];
      [|by eapply inv_store; [..|left]].
    destruct (String.eqb (strip text) "") eqn:He;
      [by eapply inv_store; [..|left]|].
    eapply inv_move; try done.
    intros c [= <-]. apply String.eqb_neq in He.
    rewrite blank_strip. destruct (blank text) eqn:Hb; [|done].
    by apply strip_empty in Hb.
  - pose proof (in_hub_eq (notify context "briefing_complete"
                             ("Briefing " +:+ category t +:+ " complété")
                             (complete_result t)) (stage p)) as Heq.
    destruct (in_hub (notify context "briefing_complete"
                        ("Briefing " +:+ category t +:+ " complété")
                        (complete_result t)) (stage p)) as [[[]|e] stage'];
      injection Heq as _ ->.
    + eapply inv_store; try done. right. by eapply inv_generated.
    + eapply inv_store; try done. by left.
Qed.

Lemma init_pool_lookup i t pc :
  procs (init_pool tasks s0) !! i = Some (t, pc) → tasks !! i = Some t ∧ pc = Waiting.
Proof.
  simpl. intros Hi. apply list_lookup_fmap_Some in Hi as (t' & Ha & Hb).
  by simplify_eq.
Qed.

Lemma init_briefing_inv : briefing_inv tasks s0 (init_pool tasks s0).
Proof.
  split; try done.
  - simpl. rewrite map_map. simpl. apply map_id.
  - intros i t e Hi. by apply init_pool_lookup in Hi as [_ ?].
  - intros i t c Hi. by apply init_pool_lookup in Hi as [_ ?].
  - intros i t Hi. by apply init_pool_lookup in Hi as [_ ?].
Qed.

End inv.

Section exact.
Context (svc : Services) (context : gmap string pyval) (tasks : list Task).
Hypothesis notify_safe : notify_ok context = true.
Hypothesis tasks_safe : Forall (task_safe svc) tasks.
Hypothesis keys_distinct : NoDup (map briefing_key tasks).

Lemma listed_task_safe p i t pc :
  map fst (procs p) = tasks → procs p !! i = Some (t, pc) → task_safe svc t.
Proof.
  intros Htasks Hi. eapply Forall_forall in tasks_safe; [done|].
  rewrite -Htasks. apply list_elem_of_In, in_map_iff. exists (t, pc).
  split; [done|]. apply list_elem_of_In. by eapply list_elem_of_lookup_2.
Qed.

Lemma distinct_keys p i j t pc t' pc' :
  map fst (procs p) = tasks →
  procs p !! i = Some (t, pc) → procs p !! j = Some (t', pc') → i ≠ j →
  briefing_key t ≠ briefing_key t'.
Proof.
  intros Htasks Hi Hj Hne Heq. apply Hne.
  eapply (NoDup_lookup _ i j (briefing_key t) keys_distinct).
  - rewrite -Htasks !list_lookup_fmap Hi. done.
  - rewrite -Htasks !list_lookup_fmap Hj. simpl. by rewrite Heq.
Qed.

Lemma exact_move p i t pc pc' sem brf stage' :
  briefing_exact svc context tasks p → procs p !! i = Some (t, pc) →
  st stage' = st (stage p) →
  (∀ c, pc' = Generated c → c = briefing_text svc context t ∧ c ≠ "") →
  pc' ≠ Finished → (∀ e, pc' ≠ Aborted e) →
  briefing_exact svc context tasks
    (mkPool sem brf (<[i := (t, pc')]> (procs p)) (failure p) stage').
Proof.
  intros [H1 H2 H3 H4 H5] Hi Hst Hgen Hfin Habt. split; simpl.
  - by rewrite (map_fst_insert _ _ _ pc).
  - done.
  - intros j t' e. rewrite (lookup_procs_insert _ _ _ _ _ Hi).
    case_decide; [by intros [= _ ?%Habt]|apply H3].
  - intros j t' c. rewrite (lookup_procs_insert _ _ _ _ _ Hi).
    case_decide; [intros [= <- ?]; by apply Hgen|apply H4].
  - intros j t'. rewrite (lookup_procs_insert _ _ _ _ _ Hi) Hst.
    case_decide; [by intros [= _ ?]|apply H5].
Qed.

Lemma exact_store p i t pc stage' :
  briefing_exact svc context tasks p → procs p !! i = Some (t, pc) →
  st stage' = st (stage p) →
  briefing_exact svc context tasks (store i t (briefing_text svc context t) stage' p).
Proof.
  intros [H1 H2 H3 H4 H5] Hi Hst. split; simpl.
  - by rewrite (map_fst_insert _ _ _ pc).
  - done.
  - intros j t' e. rewrite (lookup_procs_insert _ _ _ _ _ Hi).
    case_decide; [done|apply H3].
  - intros j t' c. rewrite (lookup_procs_insert _ _ _ _ _ Hi).
    case_decide; [done|apply H4].
  - intros j t'. rewrite (lookup_procs_insert _ _ _ _ _ Hi) Hst.
    case_decide as Hd.
    + intros [= <-]. by rewrite lookup_insert_eq.
    + intros Hj. rewrite lookup_insert_ne; [by eapply H5|].
      by eapply distinct_keys.
Qed.

(** Every move keeps [briefing_exact]. *)
Lemma step_briefing_exact i p :
  briefing_exact svc context tasks p →
  briefing_exact svc context tasks (step svc context i p).
Proof.
  intros Hex. unfold step. destruct (procs p !! i) as [[t pc]|] eqn:Hi; [|done].
  destruct (listed_task_safe p i t pc (ex_tasks _ _ _ _ Hex) Hi) as [Hsized [docs Hdocs]].
  destruct pc as [| | |content| |e]; try done.
  - destruct (semaphore p) as [|n]; [done|]. by eapply exact_move.
  - pose proof (start_call_st context t (stage p)) as Hst.
    pose proof (start_call_returns context t (stage p) notify_safe Hsized) as Hr.
    destruct ((total_docs ← py_len (curated_data t);
               in_hub (notify context "briefing_start"
                         ("Génération du briefing " +:+ category t)
                         (start_result t total_docs))) (stage p)) as [[[]|e] stage'];
      simpl in Hst, Hr; [|done].
    by eapply exact_move.
  - assert (∀ stage', st stage' = st (stage p) →
              briefing_text svc context t = "" →
              briefing_exact svc context tasks (store i t "" stage' p)) as Hempty.
    { intros stage' Hst <-. by eapply exact_store. }
    pose proof (eq_refl (briefing_text svc context t)) as Htext.
    unfold briefing_text at 2 in Htext. rewrite Hdocs in Htext. rewrite Hdocs.
    destruct (gemini_generate svc (category t) context docs) as [text|e];
      [|by apply Hempty].
    destruct (String.eqb (strip text) "") eqn:He.
    + apply Hempty; [done|]. apply String.eqb_eq in He. congruence.
    + eapply exact_move; try done. intros c [= <-]. split; [done|].
      by apply String.eqb_neq.
  - destruct (ex_generated _ _ _ _ Hex i t content Hi) as [-> Hne].
    pose proof (in_hub_eq (notify context "briefing_complete"
                             ("Briefing " +:+ category t +:+ " complété")
                             (complete_result t)) (stage p)) as Heq.
    rewrite notify_returns // in Heq. rewrite Heq. by eapply exact_store.
Qed.

Lemma init_briefing_exact (s0 : Stage) :
  briefing_exact svc context tasks (init_pool tasks s0).
Proof.
  split; try done.
  - simpl. rewrite map_map. simpl. apply map_id.
  - intros i t e Hi. by apply init_pool_lookup in Hi as [_ ?].
  - intros i t c Hi. by apply init_pool_lookup in Hi as [_ ?].
  - intros i t Hi. by apply init_pool_lookup in Hi as [_ ?].
Qed.

End exact.

(** The pool when [gather] is done. *)
Lemma gather_done svc context (tasks : list Task) (s : Stage) (schedule : list nat) :
  let q := drain svc context (4 * length tasks)
             (run_schedule svc context schedule (init_pool tasks s)) in
  tokens_conserved q ∧ all_terminated (procs q) ∧ semaphore q = 2
  ∧ briefing_inv tasks s q.
Proof.
  intros q.
  assert (tokens_conserved q) as Hc.
  { apply drain_invariant; [apply step_tokens_conserved|].
    apply run_schedule_tokens_conserved, init_pool_conserved. }
  assert (all_terminated (procs q)) as Ht.
  { apply drain_terminates.
    - apply run_schedule_tokens_conserved, init_pool_conserved.
    - etrans; [apply run_schedule_work_left|]. by rewrite init_pool_work_left. }
  split_and!; try done.
  - unfold tokens_conserved in Hc. rewrite (all_terminated_holders _ Ht) in Hc. lia.
  - apply drain_invariant; [apply step_briefing_inv|].
    apply run_schedule_invariant; [apply step_briefing_inv|]. apply init_briefing_inv.
Qed.

Lemma all_terminated_finished (tasks : list Task) (s : Stage) (q : Pool) t :
  briefing_inv tasks s q → all_terminated (procs q) → failure q = None →
  t ∈ tasks → ∃ i, procs q !! i = Some (t, Finished).
Proof.
  intros Hinv Ht Hf Hin. rewrite -(inv_tasks _ _ _ Hinv) in Hin.
  apply list_elem_of_fmap in Hin as ([t' pc] & -> & Hin).
  apply list_elem_of_lookup in Hin as [i Hi]. exists i.
  eapply Forall_lookup in Ht; [|done]. simpl in *.
  destruct pc; try done. by apply (inv_aborted _ _ _ Hinv) in Hi.
Qed.



End limiter.

(** ** The briefing stage *)

Section briefing_stage.
Import Briefing.
Implicit Types (s : Stage) (svc : Services) (state : gmap string pyval).

Lemma setitem_eq k v s : setitem k v s = (Return tt, mkStage (<[k := v]> (st s)) (hub s)).
Proof. done. Qed.

(** Without curated data there is no task: the four briefings are set
    to the empty text and nothing is asked of the generative service. *)
Lemma create_briefings_no_documents svc (schedule : list nat) s :
  notify_ok (st s) = true → no_documents (st s) →
  ∃ w', create_briefings svc schedule s =
          (Return tt, mkStage (without_briefings (st s)) w')
        ∧ broken w' = broken (hub s).
Proof.
  intros Hok (H1 & H2 & H3 & H4).
  destruct (notify_st_returns "processing" "Starting research briefings"
              (step_result "Briefing") s Hok) as (w' & Hn & Hb).
  exists w'. split; [|done].
  unfold create_briefings, mbind, M_bind, bind, gets. rewrite Hn.
  unfold categories. cbn [plan]. unfold mbind, M_bind, bind, gets. simpl st.
  change ("curated_" +:+ "financial_data") with "curated_financial_data".
  rewrite H1 setitem_eq. simpl st.
  change ("curated_" +:+ "news_data") with "curated_news_data".
  unfold py_get_or in *. rewrite lookup_insert_ne // H2 setitem_eq. simpl st.
  change ("curated_" +:+ "industry_data") with "curated_industry_data".
  rewrite !lookup_insert_ne // H3 setitem_eq. simpl st.
  change ("curated_" +:+ "company_data") with "curated_company_data".
  rewrite !lookup_insert_ne // H4 setitem_eq. simpl. done.
Qed.

(** The loop that plans the tasks only writes empty briefings. *)
Lemma plan_shape (cats : list (string * (string * string))) s r s' :
  plan cats s = (r, s') →
  hub s' = hub s
  ∧ (∀ k, k ∉ map (λ c, c.2.2) cats → st s' !! k = st s !! k)
  ∧ (∀ k, good_at (st s) k → good_at (st s') k)
  ∧ ∀ tasks, r = Return tasks →
      (∀ k, k ∈ map briefing_key tasks → k ∈ map (λ c, c.2.2) cats)
      ∧ ∀ c, c ∈ cats → c.2.2 ∈ map briefing_key tasks ∨ good_at (st s') c.2.2.
Proof.
  revert s r s'. induction cats as [|[field [cat key]] cats IH]; intros s r s'.
  - intros [= <- <-]. split_and!; try done. intros tasks [= <-]. split; [done|].
    by intros c ?%elem_of_nil.
  - cbn [plan]. unfold mbind, M_bind, bind, gets.
    destruct (truthy (py_get_or (st s) ("curated_" +:+ field) (PyDict ∅))).
    + rewrite py_len_sized.
      destruct (sized (py_get_or (st s) ("curated_" +:+ field) (PyDict ∅)));
        [|intros [= <- <-]; by split_and!].
      destruct (plan cats s) as [r0 s0] eqn:Hp.
      destruct (IH _ _ _ Hp) as (Hh & Ho & Hg & Ht).
      destruct r0 as [tasks0|e]; intros [= <- <-].
      * split_and!; try done.
        { intros k Hk. apply Ho. intros Hin. apply Hk. simpl. by right. }
        intros tasks [= <-]. destruct (Ht tasks0 eq_refl) as [Hsub Hall]. split.
        { simpl. intros k [->|Hk]%elem_of_cons; [by left|]. right. by apply Hsub. }
        intros c [->|Hc]%elem_of_cons; [left; simpl; by left|].
        destruct (Hall c Hc) as [?|?]; [left; simpl; by right|by right].
      * split_and!; try done.
        intros k Hk. apply Ho. intros Hin. apply Hk. simpl. by right.
    + rewrite setitem_eq. destruct (plan cats _) as [r0 s0] eqn:Hp.
      destruct (IH _ _ _ Hp) as (Hh & Ho & Hg & Ht). simpl in *.
      intros [= <- <-]. split_and!; try done.
      * intros k Hk. rewrite Ho; [|intros Hin; apply Hk; by right].
        rewrite lookup_insert_ne //. intros <-. apply Hk. by left.
      * intros k Hk. apply Hg.
        destruct (decide (key = k)) as [->|Hne].
        -- exists "". rewrite lookup_insert_eq. split; [done|by left].
        -- destruct Hk as (c & Hc & Hgood). exists c. by rewrite lookup_insert_ne.
      * intros tasks ->. destruct (Ht tasks eq_refl) as [Hsub Hall]. split.
        { intros k Hk. right. by apply Hsub. }
        intros c [->|Hc]%elem_of_cons; [|by apply Hall].
        right. simpl. apply Hg. exists "". rewrite lookup_insert_eq.
        split; [done|by left].
Qed.

Lemma category_keys k :
  k ∈ map (λ c : string * (string * string), c.2.2) categories ↔ k ∈ briefing_state_keys.
Proof. unfold categories, briefing_state_keys. simpl. set_solver. Qed.

Lemma good_at_insert_ne state k k' v :
  k' ≠ k → good_at state k → good_at (<[k' := v]> state) k.
Proof. intros Hne (c & Hc & Hg). exists c. by rewrite lookup_insert_ne. Qed.

(** The state that the briefing stage returns: the four briefings are
    texts, each empty or with something other than white space in it;
    notifications did not raise; nothing else changed but the
    [briefings] dict. *)
Lemma create_briefings_shape svc (schedule : list nat) s s' :
  create_briefings svc schedule s = (Return tt, s') →
  notify_ok (st s) = true
  ∧ (∀ k, k ∈ briefing_state_keys → good_at (st s') k)
  ∧ (∀ k, k ∉ "briefings" :: briefing_state_keys → st s' !! k = st s !! k).
Proof.
  unfold create_briefings, mbind, M_bind, bind, gets. rewrite notify_st_eq.
  destruct (notify_ok (st s)) eqn:Hok; cycle 1.
  { destruct (notify_raises (st s) "processing" "Starting research briefings"
                (step_result "Briefing") (hub s) Hok) as [e ->]. done. }
  rewrite notify_returns //.
  match goal with |- context [plan categories ?x] =>
    destruct (plan categories x) as [r1 s1] eqn:Hp end.
  destruct (plan_shape _ _ _ _ Hp) as (Hh & Ho & Hg & Ht). simpl in Ho, Hg.
  destruct r1 as [tasks|e]; [|done].
  destruct (Ht tasks eq_refl) as [Hsub Hall].
  assert (∀ k, k ∉ "briefings" :: briefing_state_keys → st s1 !! k = st s !! k) as Hother.
  { intros k Hk. apply Ho. rewrite category_keys. intros Hin. apply Hk. by right. }
  assert (∀ k, k ∈ briefing_state_keys → k ≠ "briefings") as Hnb.
  { unfold briefing_state_keys. intros k Hk ->. set_solver. }
  destruct tasks as [|t tasks].
  - unfold ret. rewrite setitem_eq. intros [= <-]. simpl. split_and!; [done| |].
    + intros k Hk. apply good_at_insert_ne; [intros <-; by eapply Hnb|].
      apply category_keys in Hk. apply list_elem_of_fmap in Hk as (c & -> & Hc).
      destruct (Hall c Hc) as [Hin|?]; [|done]. by apply elem_of_nil in Hin.
    + intros k Hk. rewrite lookup_insert_ne; [|intros <-; apply Hk; by left].
      by apply Hother.
  - unfold gather.
    destruct (gather_done svc (context_of (st s)) (t :: tasks) s1 schedule)
      as (_ & Hterm & _ & Hinv).
    match goal with |- context [failure ?x] => set (q := x) in * end.
    destruct (failure q) eqn:Hf; [done|]. rewrite setitem_eq. intros [= <-]. simpl.
    split_and!; [done| |].
    + intros k Hk. apply good_at_insert_ne; [intros <-; by eapply Hnb|].
      apply category_keys in Hk. apply list_elem_of_fmap in Hk as (c & -> & Hc).
      destruct (Hall c Hc) as [Hin|Hgood]; [|by apply (inv_good _ _ _ Hinv)].
      apply list_elem_of_fmap in Hin as (t' & -> & Hin).
      destruct (all_terminated_finished _ _ _ t' Hinv Hterm Hf Hin) as [i Hi].
      by apply (inv_finished _ _ _ Hinv) in Hi.
    + intros k Hk. rewrite lookup_insert_ne; [|intros <-; apply Hk; by left].
      rewrite (inv_other _ _ _ Hinv); [by apply Hother|].
      intros Hin%Hsub%category_keys. apply Hk. by right.
Qed.

End briefing_stage.

(** ** The editor *)

Section editor.
Import Editor.
Implicit Types (s : Stage) (svc : Services) (state context : gmap string pyval).

(** A sequence of notifications on a state where they do not raise. *)
Lemma notify_st_ok status message res s :
  notify_ok (st s) = true →
  ∃ s', notify_st status message res s = (Return tt, s')
        ∧ st s' = st s ∧ broken (hub s') = broken (hub s).
Proof.
  intros Hok. destruct (notify_st_returns status message res s Hok) as (w' & Heq & Hb).
  by exists (mkStage (st s) w').
Qed.

Lemma sweep_loop_eq (response : list StreamItem) (accumulated_text buffer : string) s :
  notify_ok (st s) = true →
  ∃ s', st s' = st s ∧ broken (hub s') = broken (hub s)
        ∧ match sweep_text response accumulated_text with
          | Some text => sweep_loop response accumulated_text buffer s = (Return text, s')
          | None => ∃ e, sweep_loop response accumulated_text buffer s = (Raise e, s')
          end.
Proof.
  revert accumulated_text buffer s.
  induction response as [|item response IH]; intros acc buffer s Hok.
  - by exists s.
  - destruct item as [chunk_text| |e]; cbn [sweep_loop sweep_text].
    + destruct chunk_text as [text|]; cycle 1.
      { simpl. rewrite append_nil_r. by apply IH. }
      destruct (String.eqb text "") eqn:Ht.
      { apply String.eqb_eq in Ht. subst text. simpl. rewrite append_nil_r. by apply IH. }
      simpl delta_text. destruct (flushable (buffer +:+ text)); [|by apply IH].
      unfold mbind, M_bind, bind, send_chunk.
      destruct (notify_st_ok "report_chunk" "Mise en forme du rapport final"
                  (chunk_result (buffer +:+ text)) s Hok) as (s1 & -> & Hst & Hb).
      destruct (IH (acc +:+ text) "" s1) as (s' & Hst' & Hb' & Hres); [by rewrite Hst|].
      exists s'. split_and!; [congruence|congruence|done].
    + unfold mbind, M_bind, bind. destruct (String.eqb buffer ""); [by exists s|].
      unfold send_chunk.
      destruct (notify_st_ok "report_chunk" "Mise en forme du rapport final"
                  (chunk_result buffer) s Hok) as (s1 & -> & Hst & Hb).
      by exists s1.
    + exists s. split_and!; [done|done|by exists e].
Qed.

(** [content_sweep] returns the stripped stream, or falls back on the
    stripped content it was given. *)
Lemma content_sweep_eq svc context (content : string) s :
  notify_ok (st s) = true →
  ∃ s', content_sweep svc context content s = (Return (sweep_outcome svc context content), s')
        ∧ st s' = st s ∧ broken (hub s') = broken (hub s).
Proof.
  intros Hok. unfold content_sweep, sweep_outcome, try_except, mbind, M_bind, bind, call.
  destruct (openai_sweep svc context content) as [response|e]; [|by exists s].
  destruct (sweep_loop_eq response "" "" s Hok) as (s' & Hst & Hb & Hres).
  destruct (sweep_text response "") as [text|].
  - rewrite Hres. by exists s'.
  - destruct Hres as [e ->]. by exists s'.
Qed.

Lemma texts_eq {W} (briefings : list (string * pyval)) (w : W) :
  Forall (λ b, ∃ c, b.2 = PyStr c) briefings →
  texts briefings w = (Return (contents_of briefings), w).
Proof.
  induction 1 as [|[cat v] briefings [c Hc] _ IH]; [done|].
  simpl in Hc. subst v. cbn [texts]. unfold mbind, M_bind, bind. by rewrite IH.
Qed.

(** [compile_content] returns the compiled report, or falls back on the
    stripped concatenation of the briefings. *)
Lemma compile_content_eq svc context (briefings : list (string * pyval)) s refs :
  Forall (λ b, ∃ c, b.2 = PyStr c) briefings →
  reference_text svc (st s) = Return refs →
  compile_content svc context briefings s =
    (Return (compile_outcome svc context refs (contents_of briefings)), s).
Proof.
  intros Hb Hrefs. unfold compile_content, mbind, M_bind, bind, gets.
  rewrite texts_eq //. unfold reference_text in Hrefs. simpl st.
  unfold try_except, call, compile_outcome, combined.
  destruct (truthy (py_get_or (st s) "references" (PyList []))).
  - rewrite py_len_sized.
    destruct (sized (py_get_or (st s) "references" (PyList []))); [|done].
    rewrite Hrefs. by destruct (openai_compile svc context _).
  - injection Hrefs as <-. unfold ret. by destruct (openai_compile svc context _).
Qed.

Lemma notify_ok_insert state k v :
  k ≠ "websocket_manager" → k ≠ "job_id" →
  notify_ok (<[k := v]> state) = notify_ok state.
Proof. intros H1 H2. unfold notify_ok, py_get. by rewrite !lookup_insert_ne. Qed.

Lemma notify_ok_edited state final_report :
  notify_ok (edited_state state final_report) = notify_ok state.
Proof. unfold edited_state. by rewrite !notify_ok_insert. Qed.

(** [edit_report], in closed form, on a state where notifications do
    not raise and for briefings that are texts. *)
Lemma edit_report_eq svc context (briefings : list (string * pyval)) s refs :
  notify_ok (st s) = true →
  Forall (λ b, ∃ c, b.2 = PyStr c) briefings →
  reference_text svc (st s) = Return refs →
  let edited_report := compile_outcome svc context refs (contents_of briefings) in
  let final_report := sweep_outcome svc context edited_report in
  ∃ s', broken (hub s') = broken (hub s)
        ∧ if String.eqb edited_report "" || String.eqb (strip final_report) ""
          then edit_report svc context briefings s = (Return "", s') ∧ st s' = st s
          else edit_report svc context briefings s = (Return final_report, s')
               ∧ st s' = edited_state (st s) final_report.
Proof.
  intros Hok Hb Hrefs E F. unfold edit_report, try_except, mbind, M_bind, bind.
  destruct (notify_st_ok "processing" "Compilation du rapport de recherche initial"
              (editor_result "compilation") s Hok) as (s1 & -> & Hst1 & Hb1).
  rewrite (compile_content_eq svc context briefings s1 refs) //; [|by rewrite Hst1].
  fold E. destruct (String.eqb E "") eqn:HE; cbn [orb].
  { exists s1. by rewrite Hst1. }
  destruct (notify_st_ok "processing" "Nettoyage et organisation du rapport"
              (editor_result "nettoyage") s1) as (s2 & -> & Hst2 & Hb2);
    [by rewrite Hst1|].
  destruct (notify_st_ok "processing" "Mise en forme du rapport final"
              (editor_result "mise_en_forme") s2) as (s3 & -> & Hst3 & Hb3);
    [by rewrite Hst2 Hst1|].
  destruct (content_sweep_eq svc context E s3) as (s4 & -> & Hst4 & Hb4);
    [by rewrite Hst3 Hst2 Hst1|].
  fold F. assert (st s4 = st s) as Hst by congruence.
  assert (broken (hub s4) = broken (hub s)) as Hbr by congruence.
  destruct (String.eqb (strip F) "") eqn:HF.
  { exists s4. by rewrite Hst. }
  rewrite !setitem_eq. unfold set_editor_report, mbind, M_bind, bind, gets.
  cbn [st hub]. rewrite setitem_eq. cbn [st hub].
  rewrite !lookup_insert_ne //.
  match goal with |- context [notify_st ?a ?b ?c ?x] =>
    destruct (notify_st_ok a b c x) as (s5 & -> & Hst5 & Hb5) end.
  { cbn [st]. rewrite Hst. change (notify_ok (edited_state (st s) F) = true).
    by rewrite notify_ok_edited. }
  exists s5. split; [simpl in Hb5; congruence|]. split; [done|].
  rewrite Hst5. cbn [st]. by rewrite Hst.
Qed.

Lemma collect_eq (keys : list (string * string)) state s :
  Forall (λ ck : string * string, ∃ c, py_get state ck.2 = PyStr c) keys →
  ∃ lines,
    collect keys state s =
      (Return (omap (λ ck, if truthy (py_get state ck.2)
                           then Some (ck.1, py_get state ck.2) else None) keys,
               lines), s).
Proof.
  induction 1 as [|[cat key] keys [c Hc] _ [lines IH]]; [by exists []|].
  cbn [collect omap list_omap fst snd]. simpl in Hc.
  destruct (truthy (py_get state key)) eqn:Ht; eexists; unfold mbind, M_bind, bind.
  - rewrite py_len_sized Hc. cbn [sized]. by rewrite IH.
  - by rewrite IH.
Qed.

Lemma present_briefings_texts state :
  briefings_are_texts state →
  Forall (λ b : string * pyval, ∃ c, b.2 = PyStr c) (present_briefings state).
Proof.
  unfold briefings_are_texts, present_briefings.
  induction 1 as [|[cat key] keys [c Hc] _ IH]; [done|].
  cbn [omap list_omap fst snd]. simpl in Hc.
  destruct (truthy (py_get state key)); [|done]. constructor; [by exists c|done].
Qed.

Lemma append_message_other (text : string) s k :
  k ≠ "messages" →
  st (append_message text s).2 !! k = st s !! k
  ∧ hub (append_message text s).2 = hub s.
Proof.
  intros Hk. unfold append_message, mbind, M_bind, bind, gets.
  destruct (st s !! "messages") as [[]|]; try done; rewrite setitem_eq; simpl;
    by rewrite lookup_insert_ne.
Qed.

Lemma append_message_returns (text : string) s :
  messages_ok (st s) →
  ∃ msgs, append_message text s =
            (Return tt, mkStage (<["messages" := PyList msgs]> (st s)) (hub s)).
Proof.
  unfold messages_ok, append_message, mbind, M_bind, bind, gets.
  destruct (st s !! "messages") as [[]|]; try done; intros _; by eexists.
Qed.

(** [compile_briefings] comes down to its last statement, run on the
    state that [edit_report] left. *)
Lemma compile_briefings_eq svc s refs :
  notify_ok (st s) = true → briefings_are_texts (st s) →
  reference_text svc (st s) = Return refs →
  let found := present_briefings (st s) in
  let edited_report := compile_outcome svc (context_of (st s)) refs (contents_of found) in
  let final_report := sweep_outcome svc (context_of (st s)) edited_report in
  ∃ s1 text,
    compile_briefings svc s = append_message text s1
    ∧ broken (hub s1) = broken (hub s)
    ∧ st s1 =
        match found with
        | [] => st s
        | _ :: _ =>
            if String.eqb edited_report "" || String.eqb (strip final_report) ""
            then st s else edited_state (st s) final_report
        end.
Proof.
  intros Hok Htexts Hrefs found E F.
  unfold compile_briefings, mbind, M_bind, bind, gets.
  match goal with |- context [notify_st ?a ?b ?c s] =>
    destruct (notify_st_ok a b c s Hok) as (s1 & -> & Hst1 & Hb1) end.
  match goal with |- context [notify_st ?a ?b ?c s1] =>
    destruct (notify_st_ok a b c s1) as (s2 & -> & Hst2 & Hb2); [by rewrite Hst1|] end.
  destruct (collect_eq briefing_keys (st s) s2 Htexts) as [lines ->].
  fold (present_briefings (st s)). fold found.
  pose proof (present_briefings_texts (st s) Htexts) as Hfound. fold found in Hfound.
  destruct found as [|b found'] eqn:Hfd.
  - unfold ret. exists s2. eexists. split; [done|]. split; [congruence|congruence].
  - unfold try_except, mbind, M_bind, bind.
    destruct (edit_report_eq svc (context_of (st s)) (b :: found') s2 refs)
      as (s3 & Hb3 & Hres); [by rewrite Hst2 Hst1|done|by rewrite Hst2 Hst1|].
    cbv zeta in Hres. fold E in Hres. fold F in Hres.
    destruct (String.eqb E "" || String.eqb (strip F) "");
      destruct Hres as [-> Hst3]; unfold ret; exists s3; eexists;
      (split; [done|]); (split; [congruence|]); rewrite Hst3; congruence.
Qed.

(** The report in the state when the editor is done. *)
Lemma editor_run_report svc s refs :
  notify_ok (st s) = true → briefings_are_texts (st s) →
  reference_text svc (st s) = Return refs →
  let found := present_briefings (st s) in
  let edited_report := compile_outcome svc (context_of (st s)) refs (contents_of found) in
  let final_report := sweep_outcome svc (context_of (st s)) edited_report in
  st (Editor.run svc s).2 !! "report" =
    match found with
    | [] => st s !! "report"
    | _ :: _ =>
        if String.eqb edited_report "" || String.eqb (strip final_report) ""
        then st s !! "report" else Some (PyStr final_report)
    end.
Proof.
  intros Hok Htexts Hrefs found E F.
  destruct (compile_briefings_eq svc s refs Hok Htexts Hrefs) as (s1 & text & Heq & _ & Hst1).
  fold found E F in Hst1.
  assert (st s1 !! "report" =
            match found with
            | [] => st s !! "report"
            | _ :: _ =>
                if String.eqb E "" || String.eqb (strip F) ""
                then st s !! "report" else Some (PyStr F)
            end) as Hrep.
  { rewrite Hst1. destruct found; [done|].
    destruct (String.eqb E "" || String.eqb (strip F) ""); [done|].
    unfold edited_state.
    by rewrite lookup_insert_ne // lookup_insert_ne // lookup_insert_eq. }
  rewrite -Hrep. unfold Editor.run, mbind, M_bind, bind, gets. rewrite Heq.
  destruct (append_message_other text s1 "report") as [Hr _]; [done|].
  destruct (append_message text s1) as [[[]|e] s2]; simpl in *; [|done].
  destruct (st s2 !! "report") as [report|] eqn:Hs2; [|by rewrite -Hr].
  unfold set_editor_report, mbind, M_bind, bind, gets. rewrite setitem_eq. simpl.
  by rewrite lookup_insert_ne // Hs2.
Qed.

(** Without a briefing the editor only adds its message. *)
Lemma editor_run_no_briefings svc s :
  notify_ok (st s) = true → briefings_are_texts (st s) →
  present_briefings (st s) = [] → messages_ok (st s) → st s !! "report" = None →
  ∃ msgs w',
    Editor.run svc s = (Return tt, mkStage (<["messages" := PyList msgs]> (st s)) w')
    ∧ broken w' = broken (hub s).
Proof.
  intros Hok Htexts Hnone Hmsg Hrep.
  unfold Editor.run, compile_briefings, mbind, M_bind, bind, gets.
  match goal with |- context [notify_st ?a ?b ?c s] =>
    destruct (notify_st_ok a b c s Hok) as (s1 & -> & Hst1 & Hb1) end.
  match goal with |- context [notify_st ?a ?b ?c s1] =>
    destruct (notify_st_ok a b c s1) as (s2 & -> & Hst2 & Hb2); [by rewrite Hst1|] end.
  destruct (collect_eq briefing_keys (st s) s2 Htexts) as [lines ->].
  fold (present_briefings (st s)). rewrite Hnone. unfold ret.
  match goal with |- context [append_message ?text s2] =>
    destruct (append_message_returns text s2) as [msgs Hm]; [by rewrite Hst2 Hst1|];
    rewrite Hm end.
  cbn [st]. rewrite lookup_insert_ne // Hst2 Hst1 Hrep.
  exists msgs, (hub s2). split; [done|congruence].
Qed.

End editor.

(** ** Grounding *)

Section grounding.
Import GroundingNode.
Implicit Types (w : World) (svc : Services) (state : gmap string pyval).

Lemma conclude_search_grounded state found w s1 w1 :
  conclude_search state found w = (Return s1, w1) → w1 = w ∧ grounded state s1.
Proof.
  destruct found as [[site_scrape msg1] error_str]. unfold conclude_search.
  destruct (contains crawl_error_prefix (with_context state msg1)).
  - destruct error_str as [e|]; [|by unfold raise]. intros [= <- <-].
    split; [done|]. unfold grounded, research_state_of.
    split_and!; try done; [by eexists|right; by eexists].
  - intros [= <- <-]. split; [done|]. unfold grounded, research_state_of.
    split_and!; try done; [by eexists|by left].
Qed.

Lemma initial_search_grounded svc state w s1 w1 :
  initial_search svc state w = (Return s1, w1) → grounded state s1.
Proof.
  unfold initial_search, mbind, M_bind, bind.
  destruct (notify state "processing" _ _ w) as [[[]|e0] w0]; [|done].
  destruct (survey svc state _ w0) as [[found|e1] w2]; [|done].
  by intros [_ ?]%conclude_search_grounded.
Qed.

(** A listening connection receives a notification sent on the state
    that carries its job id. *)
Lemma notify_listening job ws state status message res w :
  listening job ws (mkStage state w) →
  ∃ w', notify state status message res w = (Return tt, w')
        ∧ listening job ws (mkStage state w')
        ∧ received ws (wire w') =
            received ws (wire w) ++ [mkUpdate status (Some message) None (Some res)].
Proof.
  intros Hl.
  destruct (notify_st_listening job ws status message res _ Hl) as (s' & Heq & Hst & Hl' & Hr).
  rewrite notify_st_eq in Heq. simpl in Heq.
  destruct (notify state status message res w) as [r w'] eqn:Hn. simpl in Heq.
  injection Heq as -> <-. by exists w'.
Qed.

Lemma with_context_contains state msg1 :
  contains crawl_error_prefix msg1 = true →
  contains crawl_error_prefix (with_context state msg1) = true.
Proof.
  intros H. unfold with_context.
  destruct (truthy (py_get state "hq_location")), (truthy (py_get state "industry"));
    repeat apply contains_app_l; done.
Qed.

(** A crawl that raises does not stop grounding: the error is sent to
    the subscribers and stored in the state that grounding returns. *)
Lemma initial_search_crawl_fails svc state w e :
  notify_ok state = true →
  truthy (py_get state "company_url") = true →
  tavily_crawl svc (py_get state "company_url") = Raise e →
  ∃ w1 msg,
    initial_search svc state w =
      (Return (<["error" := PyStr e]> (research_state_of state msg ∅)), w1)
    ∧ broken w1 = broken w.
Proof.
  intros Hok Hurl Hcrawl. unfold initial_search, mbind, M_bind, bind.
  pose proof (λ status message res s, notify_st_returns status message res (mkStage state s) Hok)
    as Hn.
  assert (∀ status message res w0,
            ∃ w', notify state status message res w0 = (Return tt, w')
                  ∧ broken w' = broken w0) as Hnotify.
  { intros status message res w0. destruct (Hn status message res w0) as (w' & Heq & Hb).
    rewrite notify_st_eq in Heq. simpl in *.
    destruct (notify state status message res w0) as [r w''].
    simpl in Heq. injection Heq as -> ->. by exists w'. }
  match goal with |- context [notify state ?a ?b ?c w] =>
    destruct (Hnotify a b c w) as (w0 & -> & Hb0) end.
  unfold survey. rewrite Hurl. unfold explore, mbind, M_bind, bind, try_except.
  match goal with |- context [notify state ?a ?b ?c w0] =>
    destruct (Hnotify a b c w0) as (w2 & -> & Hb2) end.
  rewrite Hcrawl.
  match goal with |- context [notify state ?a ?b ?c w2] =>
    destruct (Hnotify a b c w2) as (w3 & -> & Hb3) end.
  unfold ret, conclude_search. rewrite with_context_contains;
    [|do 5 apply contains_app_r; apply contains_prefix, prefix_app].
  exists w3. eexists. split; [done|congruence].
Qed.

(** The same, as a listening connection sees it: the last update of
    grounding is the crawl error. *)
Lemma initial_search_crawl_fails_listening job ws svc state w e :
  listening job ws (mkStage state w) →
  truthy (py_get state "company_url") = true →
  tavily_crawl svc (py_get state "company_url") = Raise e →
  ∃ w1 msg earlier,
    initial_search svc state w =
      (Return (<["error" := PyStr e]> (research_state_of state msg ∅)), w1)
    ∧ listening job ws (mkStage state w1)
    ∧ received ws (wire w1) = received ws (wire w) ++ earlier ++ [website_error_update e].
Proof.
  intros Hl Hurl Hcrawl. unfold initial_search, mbind, M_bind, bind.
  match goal with |- context [notify state ?a ?b ?c w] =>
    destruct (notify_listening job ws state a b c w Hl) as (w0 & -> & Hl0 & Hr0) end.
  unfold survey. rewrite Hurl. unfold explore, mbind, M_bind, bind, try_except.
  match goal with |- context [notify state ?a ?b ?c w0] =>
    destruct (notify_listening job ws state a b c w0 Hl0) as (w2 & -> & Hl2 & Hr2) end.
  rewrite Hcrawl.
  match goal with |- context [notify state ?a ?b ?c w2] =>
    destruct (notify_listening job ws state a b c w2 Hl2) as (w3 & -> & Hl3 & Hr3) end.
  unfold ret, conclude_search. rewrite with_context_contains;
    [|do 5 apply contains_app_r; apply contains_prefix, prefix_app].
  exists w3. eexists. eexists [_; _]. split; [done|]. split; [done|].
  rewrite Hr3 Hr2 Hr0 -!app_assoc. done.
Qed.

End grounding.

(** ** The graph and the whole run *)

Section pipeline.
Import WebSocketManager.
Implicit Types (w : World) (ws : WebSocket) (job : string) (a : App).
Implicit Types (svc : Services) (state : gmap string pyval) (research : M Stage unit).
Implicit Types (mongodb : option MongoDBService) (data : ResearchRequest).

Lemma merge_states_four (s1 s2 s3 s4 : gmap string pyval) :
  merge_states [s1; s2; s3; s4] = s4 ∪ (s3 ∪ (s2 ∪ s1)).
Proof. unfold merge_states. simpl. by rewrite (right_id_L ∅ (∪)). Qed.

Lemma lookup_merge_four (s1 s2 s3 s4 : gmap string pyval) k :
  merge_states [s1; s2; s3; s4] !! k =
    match s4 !! k with
    | Some v => Some v
    | None =>
        match s3 !! k with
        | Some v => Some v
        | None => match s2 !! k with Some v => Some v | None => s1 !! k end
        end
    end.
Proof.
  rewrite merge_states_four !lookup_union.
  destruct (s4 !! k), (s3 !! k), (s2 !! k), (s1 !! k); done.
Qed.

(** The graph, stage by stage. *)
Lemma Graph_run_eq svc research (schedule : list nat) data job w s1 w1 s2 s3 s4 :
  GroundingNode.run svc (input_state data job) w = (Return s1, w1) →
  research (mkStage s1 w1) = (Return tt, s2) →
  Briefing.run svc schedule s2 = (Return tt, s3) →
  Editor.run svc s3 = (Return tt, s4) →
  Graph_run svc research schedule data job w =
    (Return [s1; st s2; st s3; st s4], hub s4).
Proof.
  intros H1 H2 H3 H4. unfold Graph_run, mbind, M_bind, bind, lift, gets.
  by rewrite H1 H2 H3 H4.
Qed.

Lemma input_state_notify_ok data job : notify_ok (input_state data job) = true.
Proof.
  assert (py_get (input_state data job) "websocket_manager" = PyManager) as H1 by done.
  assert (py_get (input_state data job) "job_id" = PyStr job) as H2 by done.
  unfold notify_ok. rewrite H1 H2. cbn [truthy]. by destruct (String.eqb job "").
Qed.

Lemma grounded_notify_ok state s1 : grounded state s1 → notify_ok s1 = notify_ok state.
Proof.
  intros (Hm & Hj & _). unfold notify_ok.
  assert (py_get s1 "websocket_manager" = py_get state "websocket_manager") as ->
    by (unfold py_get at 1; by rewrite Hm).
  assert (py_get s1 "job_id" = py_get state "job_id") as ->
    by (unfold py_get at 1; by rewrite Hj).
  done.
Qed.

Lemma without_briefings_lookup state k :
  k ∉ "briefings" :: briefing_state_keys →
  without_briefings state !! k = state !! k.
Proof.
  intros Hk. unfold without_briefings.
  rewrite !lookup_insert_ne //; intros <-; apply Hk; unfold briefing_state_keys;
    set_solver.
Qed.

Lemma without_briefings_notify_ok state :
  notify_ok (without_briefings state) = notify_ok state.
Proof. unfold without_briefings. by rewrite !notify_ok_insert. Qed.

Lemma without_briefings_texts state : briefings_are_texts (without_briefings state).
Proof.
  unfold briefings_are_texts, Editor.briefing_keys, without_briefings.
  repeat constructor; exists ""; unfold py_get; simpl;
    by rewrite ?lookup_insert_eq; repeat (rewrite lookup_insert_ne //; rewrite ?lookup_insert_eq).
Qed.

Lemma without_briefings_present state : present_briefings (without_briefings state) = [].
Proof.
  assert (∀ k, k ∈ briefing_state_keys → py_get (without_briefings state) k = PyStr "") as H.
  { intros k Hk. unfold py_get, without_briefings, briefing_state_keys in *.
    repeat (apply elem_of_cons in Hk as [->|Hk]);
      [..|by apply elem_of_nil in Hk];
      by repeat (rewrite lookup_insert_ne //; rewrite ?lookup_insert_eq). }
  unfold present_briefings, Editor.briefing_keys. cbn [omap list_omap fst snd].
  rewrite !H //; unfold briefing_state_keys; set_solver.
Qed.



(** The first state that the graph yields is the one grounding
    returned. *)
Lemma Graph_run_first svc research (schedule : list nat) data job w states w' :
  Graph_run svc research schedule data job w = (Return states, w') →
  ∃ s1 w1 rest,
    GroundingNode.run svc (input_state data job) w = (Return s1, w1)
    ∧ states = s1 :: rest.
Proof.
  unfold Graph_run, mbind, M_bind, bind, lift, gets.
  destruct (GroundingNode.run svc (input_state data job) w) as [[s1|e] w1]; [|done].
  destruct (research _) as [[[]|e] s2]; [|done].
  destruct (Briefing.run svc schedule s2) as [[[]|e] s3]; [|done].
  destruct (Editor.run svc s3) as [[[]|e] s4]; [|done].
  intros [= <- <-]. by eexists _, _, _.
Qed.

Lemma input_state_listening job ws data w :
  job ≠ "" → ws ∈ subscribers (active_connections w) job → ws ∉ broken w →
  listening job ws (mkStage (input_state data job) w).
Proof. intros. by split_and!. Qed.




End pipeline.

(** ** The editor's fallbacks *)

Section fallbacks.
Import Editor.
Implicit Types (s : Stage) (svc : Services) (state context : gmap string pyval).

Lemma sweep_loop_broken (response : list StreamItem) (accumulated_text buffer : string) s :
  sweep_text response accumulated_text = None →
  ∃ e, (sweep_loop response accumulated_text buffer s).1 = Raise e.
Proof.
  revert accumulated_text buffer s.
  induction response as [|item response IH]; intros acc buffer s; [done|].
  destruct item as [chunk_text| |e]; cbn [sweep_loop sweep_text]; [|done|by exists e].
  destruct chunk_text as [text|]; cycle 1.
  { simpl. rewrite append_nil_r. apply IH. }
  destruct (String.eqb text "") eqn:Ht.
  { apply String.eqb_eq in Ht. subst text. simpl. rewrite append_nil_r. apply IH. }
  simpl delta_text. intros Hnone.
  destruct (flushable (buffer +:+ text)); [|by apply IH].
  unfold mbind, M_bind, bind.
  destruct (send_chunk (buffer +:+ text) s) as [[[]|e] s1]; [by apply IH|by exists e].
Qed.

(** When the cleanup call fails, [content_sweep] returns the stripped
    content it was given. *)
Lemma content_sweep_fallback svc context (content : string) s :
  sweep_failed svc context content →
  (content_sweep svc context content s).1 = Return (strip content).
Proof.
  unfold sweep_failed, content_sweep, try_except, mbind, M_bind, bind, call.
  destruct (openai_sweep svc context content) as [response|e]; [|done].
  intros Hnone. destruct (sweep_loop_broken response "" "" s Hnone) as [e He].
  by destruct (sweep_loop response "" "" s) as [[text|e'] s'].
Qed.

Lemma sweep_outcome_failed svc context (content : string) :
  sweep_failed svc context content → sweep_outcome svc context content = strip content.
Proof.
  unfold sweep_failed, sweep_outcome.
  destruct (openai_sweep svc context content) as [response|e]; [|done]. by intros ->.
Qed.

(** When the compile call raises, [compile_content] returns the
    stripped concatenation of the briefings. *)
Lemma compile_content_fallback svc context (briefings : list (string * pyval)) s refs e :
  Forall (λ b, ∃ c, b.2 = PyStr c) briefings →
  reference_text svc (st s) = Return refs →
  openai_compile svc context (combined (contents_of briefings)) = Raise e →
  compile_content svc context briefings s =
    (Return (strip (combined (contents_of briefings))), s).
Proof.
  intros Hb Hrefs Hraise. rewrite (compile_content_eq _ _ _ _ refs) //.
  unfold compile_outcome. by rewrite Hraise.
Qed.

Lemma briefing_key_listed k :
  k ∈ briefing_state_keys → ∃ cat, (cat, k) ∈ briefing_keys.
Proof.
  unfold briefing_state_keys, briefing_keys. intros Hk.
  repeat (apply elem_of_cons in Hk as [->|Hk]);
    [exists "company"|exists "industry"|exists "financial"|exists "news"
    |by apply elem_of_nil in Hk];
    set_solver.
Qed.

(** A briefing that is present is among the texts that are compiled. *)
Lemma present_content state k c :
  k ∈ briefing_state_keys → py_get state k = PyStr c → c ≠ "" →
  c ∈ contents_of (present_briefings state).
Proof.
  intros Hk Hc Hne. destruct (briefing_key_listed k Hk) as [cat Hcat].
  unfold contents_of, present_briefings.
  apply list_elem_of_omap. exists (cat, PyStr c). split; [|done].
  apply list_elem_of_omap. exists (cat, k). split; [done|]. simpl.
  rewrite Hc. simpl. by apply String.eqb_neq in Hne as ->.
Qed.

Lemma good_texts state :
  (∀ k, k ∈ briefing_state_keys → good_at state k) → briefings_are_texts state.
Proof.
  intros Hgood. unfold briefings_are_texts, briefing_keys.
  repeat constructor; simpl;
    match goal with |- ∃ c, py_get state ?k = _ =>
      destruct (Hgood k) as (c & Hc & _);
        [unfold briefing_state_keys; set_solver|exists c; unfold py_get; by rewrite Hc]
    end.
Qed.

Lemma not_blank_nonempty (c : string) : blank c = false → c ≠ "".
Proof. by intros Hb ->. Qed.

(** C10. The editor degrades instead of discarding content.  When the
    compile call raises, [compile_content] returns the stripped
    concatenation of the briefings; when the cleanup call fails,
    [content_sweep] returns the stripped content it was given.  Hence,
    on a state left by the briefing stage with at least one non-empty
    briefing, a failure of either call (the other one failing too, or
    answering with more than white space) still stores a final report
    that is not empty. *)
Theorem editor_falls_back_on_briefings svc (schedule : list nat) (s0 s1 : Stage) refs :
  Briefing.run svc schedule s0 = (Return tt, s1) →
  (∃ k, k ∈ briefing_state_keys ∧ truthy (py_get (st s1) k) = true) →
  reference_text svc (st s1) = Return refs →
  (∀ context (briefings : list (string * pyval)) s refs' e,
     Forall (λ b, ∃ c, b.2 = PyStr c) briefings →
     reference_text svc (st s) = Return refs' →
     openai_compile svc context (combined (contents_of briefings)) = Raise e →
     compile_content svc context briefings s =
       (Return (strip (combined (contents_of briefings))), s))
  ∧ (∀ context (content : string) s,
       sweep_failed svc context content →
       (content_sweep svc context content s).1 = Return (strip content))
  ∧ (let context := context_of (st s1) in
     let found := contents_of (present_briefings (st s1)) in
     let edited_report := compile_outcome svc context refs found in
     ((∃ e, openai_compile svc context (combined found) = Raise e)
      ∧ (sweep_failed svc context edited_report
         ∨ blank (sweep_outcome svc context edited_report) = false))
     ∨ (sweep_failed svc context edited_report
        ∧ ∃ response, openai_compile svc context (combined found) = Return response
                      ∧ blank response = false) →
     ∃ final_report,
       st (Editor.run svc s1).2 !! "report" = Some (PyStr final_report)
       ∧ final_report ≠ ""
       ∧ final_report = sweep_outcome svc context edited_report
       ∧ ((∃ e, openai_compile svc context (combined found) = Raise e) →
          edited_report = strip (combined found))
       ∧ (sweep_failed svc context edited_report → final_report = strip edited_report)).
Proof.
  intros Hrun (k & Hk & Htruthy) Hrefs. split_and!.
  - intros context briefings s refs' e. apply compile_content_fallback.
  - intros context content s. apply content_sweep_fallback.
  - intros context found E Hcases.
    destruct (create_briefings_shape svc schedule s0 s1 Hrun) as (Hok0 & Hgood & Hother).
    assert (notify_ok (st s1) = true) as Hok.
    { unfold notify_ok, py_get in *.
      rewrite !Hother //; unfold briefing_state_keys; set_solver. }
    pose proof (good_texts (st s1) Hgood) as Htexts.
    destruct (Hgood k Hk) as (c & Hc & Hgc).
    assert (py_get (st s1) k = PyStr c) as Hpc by (unfold py_get; by rewrite Hc).
    rewrite Hpc in Htruthy. simpl in Htruthy. apply negb_true_iff, String.eqb_neq in Htruthy.
    assert (blank c = false) as Hbc by (by destruct Hgc).
    pose proof (present_content (st s1) k c Hk Hpc Htruthy) as Hin. fold found in Hin.
    assert (blank (combined found) = false) as Hcomb.
    { apply blank_concat. by exists c. }
    assert (blank E = false) as HE.
    { unfold E, compile_outcome.
      destruct Hcases as [[[e He] _]|[_ (response & Hr & Hb)]].
      - by rewrite He blank_strip.
      - rewrite Hr. destruct (String.eqb refs "").
        + by rewrite blank_strip.
        + by rewrite blank_append blank_strip Hb. }
    set (F := sweep_outcome svc context E).
    assert (blank F = false) as HF.
    { destruct Hcases as [[_ [Hs|Hb]]|[Hs _]]; try done;
        unfold F; by rewrite (sweep_outcome_failed _ _ _ Hs) blank_strip. }
    pose proof (editor_run_report svc s1 refs Hok Htexts Hrefs) as Hrep.
    cbv zeta in Hrep. fold found in Hrep. fold context in Hrep. fold E in Hrep. fold F in Hrep.
    assert (present_briefings (st s1) ≠ []) as Hne.
    { intros Hnil. unfold found in Hin. rewrite Hnil in Hin. by apply elem_of_nil in Hin. }
    destruct (present_briefings (st s1)) as [|b bs]; [done|].
    assert (String.eqb E "" = false) as HE'
      by (by apply String.eqb_neq, not_blank_nonempty).
    assert (String.eqb (strip F) "" = false) as HF'
      by (by apply String.eqb_neq, strip_nonempty).
    rewrite HE' HF' in Hrep. simpl in Hrep.
    exists F. split_and!; try done.
    + by apply not_blank_nonempty.
    + intros [e He]. unfold E, compile_outcome. by rewrite He.
    + intros Hs. unfold F. by apply sweep_outcome_failed.
Qed.

Lemma editor_falls_back_on_briefings_witness :
  Briefing.run failing_editor_services [] curated_stage = (Return tt, briefed_stage)
  ∧ (∃ k, k ∈ briefing_state_keys ∧ truthy (py_get (st briefed_stage) k) = true)
  ∧ reference_text failing_editor_services (st briefed_stage) = Return ""
  ∧ ∃ final_report,
      st (Editor.run failing_editor_services briefed_stage).2 !! "report"
        = Some (PyStr final_report)
      ∧ final_report ≠ "".
Proof.
  assert (Briefing.run failing_editor_services [] curated_stage
          = (Return tt, briefed_stage)) as H1
    by (apply (returns_unit_eta (Briefing.run failing_editor_services [] curated_stage));
        vm_compute; reflexivity).
  assert (∃ k, k ∈ briefing_state_keys
               ∧ truthy (py_get (st briefed_stage) k) = true) as H2.
  { exists "company_briefing". split; [by left|vm_compute; reflexivity]. }
  assert (reference_text failing_editor_services (st briefed_stage) = Return "") as H3
    by (vm_compute; reflexivity).
  split_and!; try assumption.
  destruct (editor_falls_back_on_briefings failing_editor_services [] curated_stage
              briefed_stage "" H1 H2 H3) as (_ & _ & H).
  destruct H as (final_report & Hrep & Hne & _).
  { left. split; [by eexists|]. left. exact I. }
  exists final_report. split; [exact Hrep|exact Hne].
Defined.

End fallbacks.

(** ** The hub: jobs apart, round trips, order *)

Section hub_composition.
Import WebSocketManager.
Implicit Types (w : World) (ws : WebSocket) (job : string) (msg : Message).
Implicit Types (conns : gmap string (gset WebSocket)).

Lemma disconnect_all_lookup_ne (cs : list WebSocket) job job' conns :
  job ≠ job' → foldl (λ m c, disconnect_map c job m) conns cs !! job' = conns !! job'.
Proof.
  intros Hne. revert conns. induction cs as [|c cs IH]; intros conns; simpl; [done|].
  by rewrite IH disconnect_lookup_ne.
Qed.

(** X1. A publish to one job stays within that job: the registrations
    of every other job are left as they are, and each frame it puts on
    the wire is addressed to a connection registered for the job and
    carries the message with the time of the publish. *)
Theorem publish_stays_within_job w job msg :
  let r := broadcast_to_job job msg w in
  (∀ job', job' ≠ job → active_connections r.2 !! job' = active_connections w !! job')
  ∧ broken r.2 = broken w
  ∧ ∃ new, wire r.2 = wire w ++ new
    ∧ ∀ f, f ∈ new →
        fr_to f ∈ subscribers (active_connections w) job
        ∧ fr_text f = mkMessage (msg_type msg) (msg_data msg) (Some (now w)).
Proof.
  intros r. split_and!.
  - intros job' Hne. unfold r. rewrite broadcast_to_job_spec.
    destruct (active_connections w !! job) as [s|]; simpl; [|done].
    by rewrite disconnect_all_lookup_ne.
  - apply broadcast_broken.
  - eexists. split; [apply broadcast_wire|].
    intros f [c [-> Hc]]%list_elem_of_fmap. simpl. split; [|done].
    by apply elem_of_elements in Hc.
Qed.

(** X2. Registering a connection that was not registered for the job
    and unregistering it again restores the hub's map. *)
Theorem connect_disconnect_round_trip conns ws job :
  hub_inv conns → ws ∉ subscribers conns job →
  disconnect_map ws job (connect_map ws job conns) = conns.
Proof.
  intros Hinv Hws. apply map_eq. intros job'.
  destruct (decide (job = job')) as [<-|Hne].
  - rewrite disconnect_lookup connect_lookup. unfold subscribers in *.
    destruct (conns !! job) as [s|] eqn:E; simpl in *.
    + assert ((s ∪ {[ws]}) ∖ {[ws]} = s) as -> by set_solver.
      case_decide as He; [|done]. by apply Hinv in E.
    + rewrite decide_True //. set_solver.
  - by rewrite disconnect_lookup_ne // connect_lookup_ne.
Qed.

Lemma connect_disconnect_round_trip_witness :
  disconnect_map 3 "job-a" (connect_map 3 "job-a" (active_connections two_listeners))
    = active_connections two_listeners.
Proof.
  apply connect_disconnect_round_trip.
  - apply (run_calls_hub_inv [CallConnect 1 "job-a"; CallConnect 2 "job-a"] (fresh_world {[2]})),
      hub_inv_init.
  - vm_compute. set_solver.
Defined.

Lemma connect_idemp conns ws job :
  connect_map ws job (connect_map ws job conns) = connect_map ws job conns.
Proof.
  apply map_eq. intros job'. destruct (decide (job = job')) as [<-|Hne].
  - rewrite !connect_lookup. f_equal. rewrite subscribers_connect decide_True //. set_solver.
  - by rewrite !connect_lookup_ne.
Qed.




End hub_composition.

(** ** The runner, the durable store and the endpoints *)

Section runner_and_store.
Import WebSocketManager.
Implicit Types (a : App) (w : World) (ws : WebSocket) (job : string).
Implicit Types (mongodb : option MongoDBService) (graph : Graph) (data : ResearchRequest).
Implicit Types (state : gmap string pyval).

Lemma research_failed_eq mongodb job e a :
  research_failed mongodb job e a =
    (match mongo_raises mongodb (UpdateJob job "failed" (Some e)) with
     | Some e' => Raise e'
     | None => Return tt
     end,
     mkApp (job_status a)
       (broadcast_to_job job (mkMessage "status_update" (run_failed_update e) None)
          (manager a)).2
       (match mongodb with
        | Some _ => stored a ++ [UpdateJob job "failed" (Some e)]
        | None => stored a
        end)
       (recorded a)).
Proof.
  unfold research_failed, mbind, M_bind, bind. by rewrite publish_eq mongo_eq.
Qed.

(** X5. The runner contains every failure of the graph and of the
    durable store, as long as the store accepts the record of the
    failure: the run then returns normally; in particular it always
    does without a durable store. *)
Theorem runner_contains_failures mongodb graph job data a :
  (∀ e, mongo_raises mongodb (UpdateJob job "failed" (Some e)) = None) →
  (process_research mongodb graph job data a).1 = Return tt.
Proof.
  intros Hm. unfold process_research, try_except.
  destruct (attempt_research mongodb graph job data a) as [[[]|e] a1]; [done|].
  by rewrite research_failed_eq Hm.
Qed.

Lemma runner_contains_failures_witness :
  (∀ e, mongo_raises (Some full_store) (UpdateJob "job-a" "failed" (Some e)) = None)
  ∧ (process_research (Some full_store) crashing_graph "job-a" sample_request one_listener).1
    = Return tt.
Proof.
  assert (∀ e, mongo_raises (Some full_store) (UpdateJob "job-a" "failed" (Some e)) = None)
    as H by done.
  split; [exact H|].
  exact (runner_contains_failures (Some full_store) crashing_graph "job-a" sample_request
           one_listener H).
Defined.

Lemma attempt_research_graph_raises mongodb graph job data a e w1 :
  mongo_raises mongodb (CreateJob job data) = None →
  graph data job (world_at_start job a) = (Raise e, w1) →
  attempt_research mongodb graph job data a =
    (Raise e,
     mkApp (job_status a) w1
       (match mongodb with Some _ => stored a ++ [CreateJob job data] | None => stored a end)
       (recorded a)).
Proof.
  intros Hm Hg. unfold attempt_research, mbind, M_bind, bind.
  rewrite mongo_eq Hm publish_eq in_manager_eq. simpl.
  unfold world_at_start in Hg. by rewrite Hg.
Qed.

Lemma found_report_lookup state report_content :
  found_report state = Some report_content →
  report_lookup state = Return report_content
  ∧ truthy report_content = true ∧ sized report_content = true.
Proof.
  unfold found_report. destruct (report_lookup state) as [rc|]; [|done].
  destruct (truthy rc) eqn:Ht; [|done]. destruct (sized rc) eqn:Hs; [|done].
  by intros [= <-].
Qed.

(** The completed branch of [process_research], call by call. *)
Lemma conclude_research_completed mongodb job data state report_content a :
  found_report state = Some report_content →
  let a1 := (job_status_update job "completed" report_content (PyStr (company data)) a).2 in
  let update := UpdateJob job "completed" None in
  let store := StoreReport job report_content in
  conclude_research mongodb job data state a =
    match mongo_raises mongodb update with
    | Some e => (Raise e, (mongo mongodb update a1).2)
    | None =>
        match mongo_raises mongodb store with
        | Some e => (Raise e, (mongo mongodb store (mongo mongodb update a1).2).2)
        | None =>
            in_manager (send_status_update job "completed"
                          (Some "Recherche terminée avec succès") None
                          (Some (PyDict {[ "report" := report_content;
                                           "company" := PyStr (company data) ]})))
              (mongo mongodb store (mongo mongodb update a1).2).2
        end
    end.
Proof.
  intros (Hl & Ht & Hs)%found_report_lookup a1 update store.
  rewrite conclude_research_eq Hl Ht. unfold mbind, M_bind, bind.
  rewrite py_len_sized Hs job_status_update_eq.
  unfold a1. rewrite job_status_update_eq. simpl.
  rewrite (mongo_eq mongodb update).
  destruct (mongo_raises mongodb update) as [e|]; [done|].
  rewrite (mongo_eq mongodb store).
  by destruct (mongo_raises mongodb store) as [e|].
Qed.

(** X6. What a run tells a durable store that accepts every call: the
    new job, then either the completion and the report, or the failure
    when the graph raised; a run that ends without report tells it
    nothing more, so that the stored job is never marked as failed. *)
Theorem durable_store_protocol (service : MongoDBService) graph job data a :
  (∀ c, service c = None) →
  let a' := (process_research (Some service) graph job data a).2 in
  let outcome := (graph data job (world_at_start job a)).1 in
  (∀ e, outcome = Raise e →
     stored a' = stored a ++ [CreateJob job data; UpdateJob job "failed" (Some e)])
  ∧ (∀ states report_content,
       outcome = Return states →
       found_report (merge_states states) = Some report_content →
       stored a' = stored a ++ [CreateJob job data; UpdateJob job "completed" None;
                                StoreReport job report_content])
  ∧ (∀ states report_content,
       outcome = Return states →
       report_lookup (merge_states states) = Return report_content →
       truthy report_content = false →
       stored a' = stored a ++ [CreateJob job data]).
Proof.
  intros Hs a' outcome. subst a' outcome.
  assert (∀ c, mongo_raises (Some service) c = None) as Hm by (intros c; apply Hs).
  destruct (graph data job (world_at_start job a)) as [[states|e] w1] eqn:Hg; simpl.
  - split_and!; [done| |].
    + intros ? rc [= <-] Hf. unfold process_research, try_except.
      rewrite (attempt_research_eq _ _ _ _ _ _ _ (Hm _) Hg).
      rewrite (conclude_research_completed _ _ _ _ rc) // !Hm publish_eq.
      rewrite !mongo_eq job_status_update_eq. simpl.
      destruct (job_status a !! job); simpl; by rewrite -!app_assoc.
    + intros ? rc [= <-] Hl Ht. unfold process_research, try_except.
      rewrite (attempt_research_eq _ _ _ _ _ _ _ (Hm _) Hg).
      by rewrite (conclude_research_no_report _ _ _ _ rc).
  - split_and!; [|done|done].
    intros ? [= <-]. unfold process_research, try_except.
    rewrite (attempt_research_graph_raises _ _ _ _ _ _ _ (Hm _) Hg).
    rewrite research_failed_eq. simpl. by rewrite -app_assoc.
Qed.

Lemma durable_store_protocol_witness :
  (∀ c, sound_store c = None)
  ∧ stored (process_research (Some sound_store) reporting_graph "job-a" sample_request
              one_listener).2
    = [CreateJob "job-a" sample_request; UpdateJob "job-a" "completed" None;
       StoreReport "job-a" (PyStr "# Rapport")].
Proof.
  assert (∀ c, sound_store c = None) as H by done.
  split; [exact H|].
  destruct (durable_store_protocol sound_store reporting_graph "job-a" sample_request
              one_listener H) as (_ & Hc & _).
  apply (Hc [({[ "report" := PyStr "# Rapport" ]} : gmap string pyval)]); reflexivity.
Defined.

Lemma process_research_cases_same mongodb graph job data a e :
  mongo_raises mongodb (CreateJob job data) = Some e →
  same_registry a (process_research mongodb graph job data a).2.
Proof.
  intros Hm. pose proof (process_research_cases mongodb graph job data a) as Hc.
  simpl in Hc. by rewrite Hm in Hc.
Qed.

(** X7. When the durable store refuses the new job, the graph is never
    run: whatever the graph, the run only publishes the failed update
    carrying the store's error, and leaves the registry as it is. *)
Theorem rejected_job_never_starts mongodb graph job data a e :
  mongo_raises mongodb (CreateJob job data) = Some e →
  let r := process_research mongodb graph job data a in
  same_registry a r.2
  ∧ (∀ graph', process_research mongodb graph' job data a = r)
  ∧ ∀ ws, ws ∈ subscribers (active_connections (manager a)) job → ws ∉ broken (manager a) →
      received ws (wire (manager r.2)) = received ws (wire (manager a)) ++ [run_failed_update e].
Proof.
  intros Hm r.
  assert (∀ g, process_research mongodb g job data a =
               research_failed mongodb job e
                 (mkApp (job_status a) (manager a)
                    (match mongodb with
                     | Some _ => stored a ++ [CreateJob job data]
                     | None => stored a
                     end) (recorded a))) as Heq.
  { intros g. unfold process_research, try_except, attempt_research, mbind, M_bind, bind.
    by rewrite mongo_eq Hm. }
  split_and!.
  - by eapply process_research_cases_same.
  - intros graph'. unfold r. by rewrite !Heq.
  - intros ws Hs Hb. unfold r. rewrite Heq research_failed_eq. simpl.
    rewrite received_broadcast. simpl. f_equal.
    destruct (decide (ws ∈ subscribers (active_connections (manager a)) job
                      ∧ ws ∉ broken (manager a))) as [_|Hn]; [done|]. by destruct Hn.
Qed.

Lemma rejected_job_never_starts_witness :
  mongo_raises (Some full_store) (CreateJob "job-a" sample_request) = Some "store is full"
  ∧ received 1 (wire (manager (process_research (Some full_store) reporting_graph "job-a"
                                 sample_request one_listener).2))
    = received 1 (wire (manager one_listener)) ++ [run_failed_update "store is full"].
Proof.
  assert (mongo_raises (Some full_store) (CreateJob "job-a" sample_request)
          = Some "store is full") as H by reflexivity.
  split; [exact H|].
  destruct (rejected_job_never_starts (Some full_store) reporting_graph "job-a" sample_request
              one_listener "store is full" H) as (_ & _ & Hr).
  apply Hr; vm_compute; set_solver.
Defined.

(** X8. When the durable store fails to record the completion or the
    report, the registry already shows the job as completed with its
    report, while the connections of the job are only told that the
    run failed, with the store's error. *)
Theorem completion_lost_on_store_failure mongodb graph job data a e states w1 report_content :
  mongo_raises mongodb (CreateJob job data) = None →
  graph data job (world_at_start job a) = (Return states, w1) →
  found_report (merge_states states) = Some report_content →
  mongo_raises mongodb (UpdateJob job "completed" None) = Some e
  ∨ (mongo_raises mongodb (UpdateJob job "completed" None) = None
     ∧ mongo_raises mongodb (StoreReport job report_content) = Some e) →
  let a' := (process_research mongodb graph job data a).2 in
  (job_state <$> job_status a' !! job) = Some "completed"
  ∧ (job_report <$> job_status a' !! job) = Some report_content
  ∧ ∀ ws, ws ∈ subscribers (active_connections w1) job → ws ∉ broken w1 →
      received ws (wire (manager a')) = received ws (wire w1) ++ [run_failed_update e].
Proof.
  intros Hm Hg Hf Hstore a'.
  pose proof (process_research_cases mongodb graph job data a) as Hc. simpl in Hc.
  rewrite Hm Hg in Hc. simpl in Hc. rewrite Hf in Hc. destruct Hc as [_ [t Hj]].
  fold a' in Hj. split_and!; [by rewrite Hj lookup_insert_eq|by rewrite Hj lookup_insert_eq|].
  intros ws Hs Hb. unfold a', process_research, try_except.
  rewrite (attempt_research_eq _ _ _ _ _ _ _ Hm Hg).
  rewrite (conclude_research_completed _ _ _ _ report_content) //.
  match goal with |- context [job_status_update job "completed" ?r ?c ?x] =>
    set (a1 := (job_status_update job "completed" r c x).2) end.
  assert (wire (manager a1) = wire w1 ∧ active_connections (manager a1) = active_connections w1
          ∧ broken (manager a1) = broken w1) as (Hw & Ha & Hbk).
  { unfold a1. rewrite job_status_update_eq. simpl. by destruct (job_status a !! job). }
  assert (∀ a2, manager a2 = manager a1 →
            received ws (wire (manager (research_failed mongodb job e a2).2))
            = received ws (wire w1) ++ [run_failed_update e]) as Hfail.
  { intros a2 Hm2. rewrite research_failed_eq. simpl. rewrite received_broadcast Hm2 Hw Ha Hbk.
    simpl. f_equal.
    destruct (decide (ws ∈ subscribers (active_connections w1) job ∧ ws ∉ broken w1))
      as [_|Hn]; [done|]. by destruct Hn. }
  destruct Hstore as [Hu|[Hu Hsr]]; rewrite Hu.
  - apply Hfail. apply mongo_manager.
  - rewrite Hsr. apply Hfail. by rewrite !mongo_manager.
Qed.

Lemma completion_lost_on_store_failure_witness :
  mongo_raises (Some stale_store) (CreateJob "job-a" sample_request) = None
  ∧ mongo_raises (Some stale_store) (UpdateJob "job-a" "completed" None) = Some "write failed"
  ∧ let a' := (process_research (Some stale_store) reporting_graph "job-a" sample_request
                 one_listener).2 in
    (job_state <$> job_status a' !! "job-a") = Some "completed"
    ∧ (job_report <$> job_status a' !! "job-a") = Some (PyStr "# Rapport")
    ∧ received 1 (wire (manager a')) =
        received 1 (wire (world_at_start "job-a" one_listener))
          ++ [run_failed_update "write failed"].
Proof.
  assert (mongo_raises (Some stale_store) (CreateJob "job-a" sample_request) = None) as H1
    by reflexivity.
  assert (mongo_raises (Some stale_store) (UpdateJob "job-a" "completed" None)
          = Some "write failed") as H2 by reflexivity.
  split; [exact H1|]. split; [exact H2|].
  destruct (completion_lost_on_store_failure (Some stale_store) reporting_graph "job-a"
              sample_request one_listener "write failed"
              [({[ "report" := PyStr "# Rapport" ]} : gmap string pyval)]
              (world_at_start "job-a" one_listener) (PyStr "# Rapport") H1 eq_refl eq_refl
              (or_introl H2)) as (Ha & Hb & Hc).
  split; [exact Ha|]. split; [exact Hb|].
  apply Hc; vm_compute; set_solver.
Defined.

(** The receive loop, by the first thing the client does that ends it. *)
Lemma receive_loop_spec ws job (inbox : list Received) a :
  receive_loop ws job inbox a =
    match head (filter (λ item, closes item = true) inbox) with
    | Some (RecvError e) => (Raise e, a)
    | Some _ => in_manager (disconnect ws job) a
    | None => (Return tt, a)
    end.
Proof.
  induction inbox as [|[text| |e] inbox IH]; [done| | |]; cbn [receive_loop];
    rewrite filter_cons; simpl; done.
Qed.

Lemma head_filter_existsb {A} (f : A → bool) (l : list A) :
  head (filter (λ x, f x = true) l) = None ↔ existsb f l = false.
Proof.
  induction l as [|x l IH]; [done|]. rewrite filter_cons. simpl.
  destruct (decide (f x = true)) as [E|E].
  - by rewrite E.
  - apply not_true_is_false in E. by rewrite E.
Qed.

(** The state in which the endpoint enters its receive loop. *)
Lemma websocket_endpoint_eq ws job (inbox : list Received) a :
  ws ∉ broken (manager a) →
  let w1 := (connect ws job (manager a)).2 in
  let w2 := match job_status a !! job with
            | Some r => (broadcast_to_job job
                           (mkMessage "status_update" (replay_update r) None) w1).2
            | None => w1
            end in
  let a2 := mkApp (job_status a) w2 (stored a) (recorded a) in
  websocket_endpoint ws job inbox a =
    match receive_loop ws job inbox a2 with
    | (Return _, a3) => (Return tt, a3)
    | (Raise _, a3) => in_manager (disconnect ws job) a3
    end.
Proof.
  intros Hb w1 w2 a2. unfold websocket_endpoint, try_except, mbind, M_bind, bind, gets.
  rewrite in_manager_eq. unfold accept. simpl.
  destruct (decide (ws ∈ broken (manager a))) as [?|_]; [done|]. simpl.
  subst a2 w2 w1. destruct (job_status a !! job) as [r|]; [rewrite publish_eq|]; simpl;
    by destruct (receive_loop ws job inbox _) as [[[]|e] a3].
Qed.

(** Attaching to a job that has a registry entry publishes its
    status to the job. *)
Lemma websocket_endpoint_replay_all ws ws' job (inbox : list Received) a r :
  job_status a !! job = Some r →
  ws ∉ broken (manager a) → ws' ∉ broken (manager a) →
  ws' = ws ∨ ws' ∈ subscribers (active_connections (manager a)) job →
  received ws' (wire (manager (websocket_endpoint ws job inbox a).2)) =
    received ws' (wire (manager a)) ++ [replay_update r].
Proof.
  intros Hj Hb Hb' Hin. rewrite websocket_endpoint_eq //. simpl. rewrite Hj.
  match goal with |- context [receive_loop ws job inbox ?x] => set (a2 := x) end.
  destruct (receive_loop_quiet ws job inbox a2) as [Hw _].
  assert (received ws' (wire (manager a2)) =
            received ws' (wire (manager a)) ++ [replay_update r]) as Ha2.
  { unfold a2. simpl. rewrite received_broadcast. simpl. f_equal.
    destruct (decide (ws' ∈ subscribers (connect_map ws job (active_connections (manager a))) job
                      ∧ ws' ∉ broken (manager a))) as [_|Hn]; [done|].
    destruct Hn. split; [|done].
    rewrite subscribers_connect. destruct (decide (job = job)); [|done]. set_solver. }
  destruct (receive_loop ws job inbox a2) as [[[]|e] a3]; [simpl in *; by rewrite Hw|].
  rewrite in_manager_eq. simpl in *. by rewrite Hw.
Qed.

(** X9. The status replayed when a connection attaches is published to
    the job: the new connection receives it, and so does every live
    connection already registered for the job. *)
Theorem replay_reaches_every_subscriber ws ws' job (inbox : list Received) a r :
  job_status a !! job = Some r →
  ws ∉ broken (manager a) → ws' ∉ broken (manager a) →
  ws' ∈ subscribers (active_connections (manager a)) job →
  received ws (wire (manager (websocket_endpoint ws job inbox a).2)) =
    received ws (wire (manager a)) ++ [replay_update r]
  ∧ received ws' (wire (manager (websocket_endpoint ws job inbox a).2)) =
      received ws' (wire (manager a)) ++ [replay_update r].
Proof.
  intros Hj Hb Hb' Hin. split.
  - apply websocket_endpoint_replay_all; [done|done|done|by left].
  - apply websocket_endpoint_replay_all; [done|done|done|by right].
Qed.

Lemma replay_reaches_every_subscriber_witness :
  let a := (process_research None reporting_graph "job-a" sample_request one_listener).2 in
  ∃ r, job_status a !! "job-a" = Some r
       ∧ received 1 (wire (manager (websocket_endpoint 2 "job-a" [] a).2)) =
           received 1 (wire (manager a)) ++ [replay_update r].
Proof.
  intros a.
  assert (∃ r, job_status a !! "job-a" = Some r) as [r Hr] by (vm_compute; by eexists).
  exists r. split; [exact Hr|].
  apply (replay_reaches_every_subscriber 2 1 "job-a" [] a r Hr).
  - vm_compute. set_solver.
  - vm_compute. set_solver.
  - vm_compute. set_solver.
Defined.

(** X10. A connection that attaches after a run completed is sent the
    status completed with neither result nor error: the replayed
    status does not carry the report. *)
Theorem replay_after_completion mongodb graph job data a states report_content ws
    (inbox : list Received) :
  job_status a !! job = None →
  mongo_raises mongodb (CreateJob job data) = None →
  (graph data job (world_at_start job a)).1 = Return states →
  found_report (merge_states states) = Some report_content →
  let a1 := (process_research mongodb graph job data a).2 in
  ws ∉ broken (manager a1) →
  received ws (wire (manager (websocket_endpoint ws job inbox a1).2)) =
    received ws (wire (manager a1))
      ++ [mkUpdate "completed" (Some "Connected to status stream") None None].
Proof.
  intros Hfresh Hm Hg Hf a1 Hb.
  pose proof (process_research_cases mongodb graph job data a) as Hc. simpl in Hc.
  rewrite Hm Hg Hf Hfresh in Hc. destruct Hc as [_ [t Hj]]. fold a1 in Hj.
  rewrite (websocket_endpoint_replay_all ws ws job inbox a1
             (completed_entry None data report_content t)) //; [|by left].
  by rewrite Hj lookup_insert_eq.
Qed.

Lemma replay_after_completion_witness :
  let a1 := (process_research None reporting_graph "job-a" sample_request one_listener).2 in
  job_status one_listener !! "job-a" = None
  ∧ (2 ∉ broken (manager a1))
  ∧ received 2 (wire (manager (websocket_endpoint 2 "job-a" [] a1).2)) =
      received 2 (wire (manager a1))
        ++ [mkUpdate "completed" (Some "Connected to status stream") None None].
Proof.
  intros a1.
  assert (job_status one_listener !! "job-a" = None) as H1 by reflexivity.
  assert (2 ∉ broken (manager a1)) as H2 by (vm_compute; set_solver).
  split; [exact H1|]. split; [exact H2|].
  exact (replay_after_completion None reporting_graph "job-a" sample_request one_listener
           [({[ "report" := PyStr "# Rapport" ]} : gmap string pyval)] (PyStr "# Rapport")
           2 [] H1 eq_refl eq_refl eq_refl H2).
Defined.

(** X11. The status endpoint never raises and never writes to the
    registry.  Once the client disconnects, or anything fails, the
    connection is no longer registered for the job; until then a live
    connection stays registered. *)
Theorem endpoint_cleans_up ws job (inbox : list Received) a :
  let r := websocket_endpoint ws job inbox a in
  r.1 = Return tt
  ∧ same_registry a r.2
  ∧ (ws ∈ broken (manager a) ∨ existsb closes inbox = true →
     ws ∉ subscribers (active_connections (manager r.2)) job)
  ∧ (ws ∉ broken (manager a) → existsb closes inbox = false →
     ws ∈ subscribers (active_connections (manager r.2)) job).
Proof.
  intros r. unfold r. clear r.
  destruct (decide (ws ∈ broken (manager a))) as [Hb|Hb].
  { assert (websocket_endpoint ws job inbox a = in_manager (disconnect ws job) a) as ->.
    { unfold websocket_endpoint, try_except, mbind, M_bind, bind.
      rewrite in_manager_eq. unfold accept. simpl. by rewrite decide_True. }
    rewrite in_manager_eq. simpl. split_and!; [done|done| |done].
    intros _. rewrite subscribers_disconnect decide_True //. set_solver. }
  rewrite websocket_endpoint_eq //. cbv zeta.
  match goal with |- context [receive_loop ws job inbox ?x] => set (a2 := x) end.
  assert (ws ∈ subscribers (active_connections (manager a2)) job) as Hin.
  { unfold a2. simpl. destruct (job_status a !! job) as [r|].
    - apply broadcast_keeps_listener; [|done]. simpl.
      rewrite subscribers_connect decide_True //. set_solver.
    - simpl. rewrite subscribers_connect decide_True //. set_solver. }
  assert (same_registry a a2) as Hsame by done.
  clearbody a2. rewrite receive_loop_spec.
  destruct (head (filter (λ item, closes item = true) inbox)) as [item|] eqn:Hh.
  - assert (existsb closes inbox = true) as Hex.
    { destruct (existsb closes inbox) eqn:E; [done|].
      apply head_filter_existsb in E. by rewrite E in Hh. }
    assert (ws ∉ subscribers (active_connections
              (manager (in_manager (disconnect ws job) a2).2)) job) as Hout.
    { rewrite in_manager_eq. simpl. rewrite subscribers_disconnect decide_True //. set_solver. }
    assert (same_registry a (in_manager (disconnect ws job) a2).2) as Hs2.
    { eapply same_registry_trans; [done|]. apply in_manager_same_registry. }
    destruct item as [text| |e]; rewrite ?in_manager_eq; simpl;
      rewrite in_manager_eq in Hout; rewrite in_manager_eq in Hs2; simpl in *;
      (split_and!; [done|done|done|by rewrite Hex]).
  - apply head_filter_existsb in Hh. split_and!; [done|done| |done].
    intros [?|Hex]; [done|]. by rewrite Hh in Hex.
Qed.

(** X12. Without a durable store, the report endpoint gives back the
    report of a job that a run has just completed. *)
Theorem report_round_trip graph job data a states report_content :
  (graph data job (world_at_start job a)).1 = Return states →
  found_report (merge_states states) = Some report_content →
  let a' := (process_research None graph job data a).2 in
  get_research_report None job a' = (Return (PyDict {[ "report" := report_content ]}), a').
Proof.
  intros Hg Hf a'.
  pose proof (process_research_cases None graph job data a) as Hc. simpl in Hc.
  rewrite Hg Hf in Hc. destruct Hc as [_ [t Hj]]. fold a' in Hj.
  apply found_report_lookup in Hf as (_ & Ht & _).
  unfold get_research_report, mbind, M_bind, bind, gets.
  rewrite Hj lookup_insert_eq. simpl. by rewrite Ht.
Qed.

Lemma report_round_trip_witness :
  let a' := (process_research None reporting_graph "job-a" sample_request one_listener).2 in
  get_research_report None "job-a" a'
    = (Return (PyDict {[ "report" := PyStr "# Rapport" ]}), a').
Proof.
  exact (report_round_trip reporting_graph "job-a" sample_request one_listener
           [({[ "report" := PyStr "# Rapport" ]} : gmap string pyval)] (PyStr "# Rapport")
           eq_refl eq_refl).
Defined.

(** X13. Without a durable store, the report of a job whose run ended
    without a report that could be recorded cannot be read: the report
    endpoint answers 404, and asking does not create a registry entry
    for the job. *)
Theorem report_missing_after_failed_run graph job data a :
  job_status a !! job = None →
  (∀ states, (graph data job (world_at_start job a)).1 = Return states →
             found_report (merge_states states) = None) →
  let a' := (process_research None graph job data a).2 in
  get_research_report None job a' = (Raise (HTTPException 404 "Report not found"), a')
  ∧ job_status a' !! job = None.
Proof.
  intros Hfresh Hgraph a'.
  assert (job_status a' !! job = None) as Hnone.
  { pose proof (process_research_cases None graph job data a) as Hc. simpl in Hc.
    fold a' in Hc.
    assert (same_registry a a') as [Hj _]; [|by rewrite Hj].
    destruct ((graph data job (world_at_start job a)).1) as [states|e]; [|done].
    by rewrite (Hgraph states eq_refl) in Hc. }
  split; [|done].
  unfold get_research_report, mbind, M_bind, bind, gets. by rewrite Hnone.
Qed.

Lemma report_missing_after_failed_run_witness :
  job_status one_listener !! "job-a" = None
  ∧ let a' := (process_research None crashing_graph "job-a" sample_request one_listener).2 in
    get_research_report None "job-a" a' = (Raise (HTTPException 404 "Report not found"), a')
    ∧ job_status a' !! "job-a" = None.
Proof.
  assert (job_status one_listener !! "job-a" = None) as H1 by done.
  split; [exact H1|].
  apply (report_missing_after_failed_run crashing_graph "job-a" sample_request one_listener H1).
  done.
Defined.

End runner_and_store.

(** ** The paths of grounding *)

Section grounding_paths.
Import GroundingNode.
Implicit Types (w : World) (svc : Services) (state : gmap string pyval).
Implicit Types (items : list (gmap string pyval)) (ws : WebSocket) (job : string).

Lemma scrape_sound url items (acc : gmap string pyval) k v :
  scrape url items acc !! k = Some v →
  acc !! k = Some v
  ∨ ∃ item, item ∈ items ∧ truthy (py_get item "raw_content") = true
            ∧ k = page_key url item ∧ v = scraped_page item.
Proof.
  revert acc. induction items as [|item items IH]; intros acc; simpl; [by left|].
  destruct (truthy (py_get item "raw_content")) eqn:Ht.
  - intros [Hacc|(item' & Hin & H)]%IH.
    + destruct (decide (k = page_key url item)) as [->|Hne].
      * unfold page_key in Hacc. rewrite lookup_insert_eq in Hacc. injection Hacc as <-.
        right. exists item. split_and!; [by left|done|done|done].
      * unfold page_key in Hne. rewrite lookup_insert_ne // in Hacc. by left.
    + right. exists item'. split; [by right|done].
  - intros [Hacc|(item' & Hin & H)]%IH; [by left|].
    right. exists item'. split; [by right|done].
Qed.

Lemma scrape_keeps url items (acc : gmap string pyval) k :
  is_Some (acc !! k) → is_Some (scrape url items acc !! k).
Proof.
  revert acc. induction items as [|item items IH]; intros acc Hk; simpl; [done|].
  destruct (truthy (py_get item "raw_content")); [|by apply IH].
  apply IH. destruct (decide (py_str (py_get_or item "url" url) = k)) as [<-|Hne].
  - by rewrite lookup_insert_eq.
  - by rewrite lookup_insert_ne.
Qed.

Lemma scrape_complete url items (acc : gmap string pyval) item :
  item ∈ items → truthy (py_get item "raw_content") = true →
  is_Some (scrape url items acc !! page_key url item).
Proof.
  revert acc. induction items as [|item' items IH]; intros acc Hin Ht;
    [by apply elem_of_nil in Hin|].
  apply elem_of_cons in Hin as [->|Hin]; simpl.
  - rewrite Ht. apply scrape_keeps. unfold page_key. by rewrite lookup_insert_eq.
  - destruct (truthy (py_get item' "raw_content")); by apply IH.
Qed.

Lemma scrape_size url items (acc : gmap string pyval) :
  size (scrape url items acc)
  ≤ size acc + length (filter (λ item, truthy (py_get item "raw_content") = true) items).
Proof.
  revert acc. induction items as [|item items IH]; intros acc; simpl; [lia|].
  rewrite filter_cons. destruct (truthy (py_get item "raw_content")) eqn:Ht; simpl.
  - destruct (decide (true = true)); [|done]. etrans; [apply IH|]. simpl.
    destruct (acc !! py_str (py_get_or item "url" url)) as [v|] eqn:E.
    + rewrite map_size_insert_Some //. lia.
    + rewrite map_size_insert_None //. lia.
  - destruct (decide (false = true)); [done|]. apply IH.
Qed.

(** X14. The pages kept from a crawl are the ones that have a content:
    every page with a content is kept under its address (the crawled
    address when it has none), every kept entry is such a page, tagged
    with its source, and there are no more entries than pages with a
    content. *)
Theorem scrape_keeps_pages_with_content url items :
  (∀ item, item ∈ items → truthy (py_get item "raw_content") = true →
     is_Some (scrape url items ∅ !! page_key url item))
  ∧ (∀ k v, scrape url items ∅ !! k = Some v →
       ∃ item, item ∈ items ∧ truthy (py_get item "raw_content") = true
               ∧ k = page_key url item
               ∧ v = PyDict {[ "raw_content" := py_get item "raw_content";
                               "source" := PyStr "site_entreprise" ]})
  ∧ size (scrape url items ∅)
    ≤ length (filter (λ item, truthy (py_get item "raw_content") = true) items).
Proof.
  split_and!.
  - intros item. apply scrape_complete.
  - intros k v [Hk|H]%scrape_sound; [by rewrite lookup_empty in Hk|done].
  - pose proof (scrape_size url items ∅) as H. by rewrite map_size_empty in H.
Qed.

Lemma scrape_keeps_pages_with_content_witness :
  let items := [ ({[ "url" := PyStr "https://acme.test/about";
                     "raw_content" := PyStr "Acme makes anvils." ]} : gmap string pyval);
                 ({[ "url" := PyStr "https://acme.test/empty" ]} : gmap string pyval) ] in
  size (scrape (PyStr "https://acme.test") items ∅) ≤ 1
  ∧ is_Some (scrape (PyStr "https://acme.test") items ∅
             !! page_key (PyStr "https://acme.test")
                  ({[ "url" := PyStr "https://acme.test/about";
                      "raw_content" := PyStr "Acme makes anvils." ]} : gmap string pyval)).
Proof.
  intros items.
  destruct (scrape_keeps_pages_with_content (PyStr "https://acme.test") items)
    as (Hin & _ & Hsize).
  split; [exact Hsize|].
  apply (Hin ({[ "url" := PyStr "https://acme.test/about";
                 "raw_content" := PyStr "Acme makes anvils." ]} : gmap string pyval));
    [by left|reflexivity].
Defined.

(** A notification on a state that can notify returns. *)
Lemma notify_ok_returns state status message res w :
  notify_ok state = true →
  ∃ w', notify state status message res w = (Return tt, w').
Proof.
  intros Hok. pose proof (notify_returns state status message res w Hok) as H.
  destruct (notify state status message res w) as [r w']. simpl in H. subst r. by exists w'.
Qed.

(** X15. Without a company site in the request, grounding never calls
    the crawler: it behaves the same whatever the services, a live
    connection of the job is told that no site was given, and the state
    it returns has an empty site scrape and no error. *)
Theorem grounding_without_url svc state w :
  truthy (py_get state "company_url") = false →
  (∀ svc', initial_search svc' state w = initial_search svc state w)
  ∧ (∀ s w', initial_search svc state w = (Return s, w') →
       s !! "site_scrape" = Some (PyDict ∅) ∧ s !! "error" = None
       ∧ ∀ job ws, listening job ws (mkStage state w) →
           ∃ first, received ws (wire w') = received ws (wire w) ++ [first; no_url_update]).
Proof.
  intros Hurl. split.
  - intros svc'. unfold initial_search, survey. by rewrite Hurl.
  - intros s w'. unfold initial_search, survey. rewrite Hurl.
    unfold mbind, M_bind, bind.
    destruct (notify state "processing" _ _ w) as [[[]|e0] w0] eqn:Hn0; [|done].
    destruct (notify state "processing" _ _ w0) as [[[]|e1] w1] eqn:Hn1; [|done].
    unfold ret, conclude_search.
    destruct (contains crawl_error_prefix _); [done|]. intros [= <- <-].
    split_and!; [done|done|].
    intros job ws Hl.
    match type of Hn0 with notify state ?a ?b ?c w = _ =>
      destruct (notify_listening job ws state a b c w Hl) as (w0' & Heq0 & Hl0 & Hr0) end.
    rewrite Hn0 in Heq0. injection Heq0 as <-.
    match type of Hn1 with notify state ?a ?b ?c w0 = _ =>
      destruct (notify_listening job ws state a b c w0 Hl0) as (w1' & Heq1 & Hl1 & Hr1) end.
    rewrite Hn1 in Heq1. injection Heq1 as <-.
    eexists. rewrite Hr1 Hr0 -app_assoc. done.
Qed.

Lemma grounding_without_url_witness :
  truthy (py_get (input_state quiet_request "job-a") "company_url") = false
  ∧ scenario_C_s1 !! "site_scrape" = Some (PyDict ∅)
  ∧ scenario_C_s1 !! "error" = None.
Proof.
  assert (truthy (py_get (input_state quiet_request "job-a") "company_url") = false) as H
    by reflexivity.
  split; [exact H|].
  destruct (grounding_without_url sample_services (input_state quiet_request "job-a")
              (world_at_start "job-a" one_listener) H) as [_ Hs].
  destruct (Hs scenario_C_s1 scenario_C_grounding.2) as (H1 & H2 & _).
  - apply (returns_eta scenario_C_grounding ∅). vm_compute. reflexivity.
  - split; [exact H1|exact H2].
Defined.

(** X16. When the crawl returns, grounding keeps the pages that have a
    content and records no error; its last update to a live connection
    of the job tells how many pages were kept, or that none was. *)
Theorem crawl_success_state svc state w items s w' job ws :
  listening job ws (mkStage state w) →
  truthy (py_get state "company_url") = true →
  tavily_crawl svc (py_get state "company_url") = Return items →
  initial_search svc state w = (Return s, w') →
  let site_scrape := scrape (py_get state "company_url") items ∅ in
  s !! "site_scrape" = Some (PyDict site_scrape)
  ∧ s !! "error" = None
  ∧ ∃ earlier,
      received ws (wire w') = received ws (wire w) ++ earlier ++ [crawl_done_update site_scrape].
Proof.
  intros Hl Hurl Hcrawl. unfold initial_search, mbind, M_bind, bind.
  match goal with |- context [notify state ?a ?b ?c w] =>
    destruct (notify_listening job ws state a b c w Hl) as (w0 & -> & Hl0 & Hr0) end.
  unfold survey. rewrite Hurl. unfold explore, mbind, M_bind, bind, try_except.
  match goal with |- context [notify state ?a ?b ?c w0] =>
    destruct (notify_listening job ws state a b c w0 Hl0) as (w2 & -> & Hl2 & Hr2) end.
  rewrite Hcrawl. unfold crawl_done_update.
  set (site_scrape := scrape (py_get state "company_url") items ∅).
  destruct (truthy (PyDict site_scrape)) eqn:Ht.
  - match goal with |- context [notify state ?a ?b ?c w2] =>
      destruct (notify_listening job ws state a b c w2 Hl2) as (w3 & -> & Hl3 & Hr3) end.
    unfold ret, conclude_search.
    destruct (contains crawl_error_prefix _); [done|]. intros [= <- <-].
    split_and!; [done|done|]. eexists [_; _]. rewrite Hr3 Hr2 Hr0 -!app_assoc. done.
  - match goal with |- context [notify state ?a ?b ?c w2] =>
      destruct (notify_listening job ws state a b c w2 Hl2) as (w3 & -> & Hl3 & Hr3) end.
    unfold ret, conclude_search.
    destruct (contains crawl_error_prefix _); [done|]. intros [= <- <-].
    split_and!; [done|done|]. eexists [_; _]. rewrite Hr3 Hr2 Hr0 -!app_assoc. done.
Qed.

Lemma crawl_success_state_witness :
  listening "job-a" 1 (mkStage (input_state sample_request "job-a")
                         (world_at_start "job-a" one_listener))
  ∧ truthy (py_get (input_state sample_request "job-a") "company_url") = true
  ∧ (∃ items, tavily_crawl crawling_services
                (py_get (input_state sample_request "job-a") "company_url") = Return items)
  ∧ value_of ∅ crawl_run.1 !! "error" = None
  ∧ ∃ site_scrape, value_of ∅ crawl_run.1 !! "site_scrape" = Some (PyDict site_scrape).
Proof.
  assert (listening "job-a" 1 (mkStage (input_state sample_request "job-a")
                                 (world_at_start "job-a" one_listener))) as H1.
  { split_and!; [reflexivity|reflexivity|discriminate|vm_compute; set_solver
                |vm_compute; set_solver]. }
  assert (truthy (py_get (input_state sample_request "job-a") "company_url") = true) as H2
    by reflexivity.
  split; [exact H1|]. split; [exact H2|]. split; [by eexists|].
  destruct (crawl_success_state crawling_services (input_state sample_request "job-a")
              (world_at_start "job-a" one_listener) _ (value_of ∅ crawl_run.1) crawl_run.2
              "job-a" 1 H1 H2 eq_refl) as (Ha & Hb & _).
  - apply (returns_eta crawl_run ∅). vm_compute. reflexivity.
  - split; [exact Hb|]. eexists. exact Ha.
Defined.

(** The message of grounding quotes whatever the company name quotes. *)
Lemma company_in_message svc state w found w' (needle : string) :
  contains needle
    (py_str (py_get_or state "company" (PyStr "Entreprise inconnue"))) = true →
  survey svc state
    ("🎯 Démarrage de la recherche pour "
       +:+ py_str (py_get_or state "company" (PyStr "Entreprise inconnue")) +:+ "..." +:+ nl)
    w = (Return found, w') →
  contains needle found.1.2 = true.
Proof.
  intros Hc. unfold survey.
  assert (contains needle
            ("🎯 Démarrage de la recherche pour "
               +:+ py_str (py_get_or state "company" (PyStr "Entreprise inconnue"))
               +:+ "..." +:+ nl) = true) as H0.
  { apply contains_app_r. by apply contains_app_l. }
  destruct (truthy (py_get state "company_url")); unfold mbind, M_bind, bind.
  - destruct (explore svc state _ w) as [[[[site_scrape text] error_str]|e] w1]; [|done].
    intros [= <- <-]. cbn [fst snd]. by apply contains_app_l.
  - destruct (notify state "processing" _ _ w) as [[[]|e] w1]; [|done].
    intros [= <- <-]. cbn [fst snd]. by apply contains_app_l.
Qed.

(** The crawl did not raise: [error_str] is unbound. *)
Lemma survey_no_error svc state msg0 w found w' :
  notify_ok state = true →
  (truthy (py_get state "company_url") = true →
   ∃ items, tavily_crawl svc (py_get state "company_url") = Return items) →
  survey svc state msg0 w = (Return found, w') → found.2 = None.
Proof.
  intros Hok Hcrawl. unfold survey.
  destruct (truthy (py_get state "company_url")); unfold mbind, M_bind, bind.
  - destruct (Hcrawl eq_refl) as [items Hi]. unfold explore, mbind, M_bind, bind, try_except.
    match goal with |- context [notify state ?a ?b ?c w] =>
      destruct (notify_ok_returns state a b c w Hok) as [w0 ->] end.
    rewrite Hi.
    destruct (truthy (PyDict (scrape _ items ∅)));
      match goal with |- context [notify state ?a ?b ?c w0] =>
        destruct (notify_ok_returns state a b c w0 Hok) as [w1 ->] end;
      by intros [= <- <-].
  - destruct (notify state "processing" _ _ w) as [[[]|e] w1]; [|done].
    by intros [= <- <-].
Qed.

(** X17. A company name that quotes the text by which grounding reports
    a crawl error makes grounding raise whenever the crawl itself did
    not fail: the state is never returned. *)
Theorem quoted_error_breaks_grounding svc state w :
  notify_ok state = true →
  contains crawl_error_prefix
    (py_str (py_get_or state "company" (PyStr "Entreprise inconnue"))) = true →
  (truthy (py_get state "company_url") = true →
   ∃ items, tavily_crawl svc (py_get state "company_url") = Return items) →
  ∃ e w', initial_search svc state w = (Raise e, w').
Proof.
  intros Hok Hc Hcrawl. unfold initial_search, mbind, M_bind, bind.
  match goal with |- context [notify state ?a ?b ?c w] =>
    destruct (notify_ok_returns state a b c w Hok) as [w0 ->] end.
  destruct (survey svc state _ w0) as [[found|e] w1] eqn:Hs; [|by eexists _, _].
  pose proof (company_in_message _ _ _ _ _ _ Hc Hs) as Hin.
  pose proof (survey_no_error _ _ _ _ _ _ Hok Hcrawl Hs) as Hnone.
  destruct found as [[site_scrape msg1] error_str]. simpl in *. subst error_str.
  unfold conclude_search. rewrite with_context_contains //. by eexists _, _.
Qed.

Lemma quoted_error_breaks_grounding_witness :
  notify_ok (input_state quoting_request "job-a") = true
  ∧ contains crawl_error_prefix
      (py_str (py_get_or (input_state quoting_request "job-a") "company"
                 (PyStr "Entreprise inconnue"))) = true
  ∧ ∃ e w', initial_search sample_services (input_state quoting_request "job-a")
              (world_at_start "job-a" one_listener) = (Raise e, w').
Proof.
  assert (notify_ok (input_state quoting_request "job-a") = true) as H1 by reflexivity.
  assert (contains crawl_error_prefix
            (py_str (py_get_or (input_state quoting_request "job-a") "company"
                       (PyStr "Entreprise inconnue"))) = true) as H2
    by (vm_compute; reflexivity).
  split; [exact H1|]. split; [exact H2|].
  apply (quoted_error_breaks_grounding sample_services (input_state quoting_request "job-a")
           (world_at_start "job-a" one_listener) H1 H2).
  intros H. vm_compute in H. discriminate H.
Defined.

End grounding_paths.

(** ** What the editor contains and publishes *)

Section editor_frame.
Import Editor.
Implicit Types (s : Stage) (svc : Services) (state context : gmap string pyval).

Lemma keeps_state_ret {A} (a : A) : keeps_state (ret a : M Stage A).
Proof. done. Qed.

Lemma keeps_state_raise {A} e : keeps_state (raise e : M Stage A).
Proof. done. Qed.

Lemma keeps_state_call {A} (r : result A) : keeps_state (call r : M Stage A).
Proof. done. Qed.

Lemma keeps_state_bind {A B} (c : M Stage A) (k : A → M Stage B) :
  keeps_state c → (∀ a, keeps_state (k a)) → keeps_state (c ≫= k).
Proof.
  intros Hc Hk s. unfold mbind, M_bind, bind. specialize (Hc s).
  destruct (c s) as [[a|e] s1]; simpl in *; [|done]. by rewrite Hk.
Qed.

Lemma keeps_state_try {A} (c : M Stage A) (h : exn → M Stage A) :
  keeps_state c → (∀ e, keeps_state (h e)) → keeps_state (try_except c h).
Proof.
  intros Hc Hh s. unfold try_except. specialize (Hc s).
  destruct (c s) as [[a|e] s1]; simpl in *; [done|]. by rewrite Hh.
Qed.

Lemma keeps_state_notify status message res : keeps_state (notify_st status message res).
Proof. intros s. by rewrite notify_st_eq. Qed.

Lemma keeps_state_len (v : pyval) : keeps_state (py_len v).
Proof. intros s. by destruct v. Qed.

Lemma keeps_state_texts (briefings : list (string * pyval)) : keeps_state (texts briefings).
Proof.
  induction briefings as [|[cat v] briefings IH]; [done|].
  destruct v; try done. cbn [texts]. apply keeps_state_bind; [done|]. intros l. done.
Qed.

Lemma keeps_state_compile svc context (briefings : list (string * pyval)) :
  keeps_state (compile_content svc context briefings).
Proof.
  unfold compile_content. apply keeps_state_bind; [apply keeps_state_texts|]. intros contents.
  intros s. unfold mbind, M_bind, bind, gets.
  match goal with |- context [if ?b then _ else _] => destruct b end.
  - pose proof (keeps_state_len (py_get_or (st s) "references" (PyList [])) s) as Hl.
    destruct (py_len _ s) as [[n|e] s1]; simpl in *; [|done].
    unfold call. destruct (format_references_section svc _ _ _) as [refs|e]; [|done].
    unfold try_except. destruct (openai_compile svc context _); simpl; done.
  - unfold ret, try_except, call. destruct (openai_compile svc context _); simpl; done.
Qed.

Lemma keeps_state_sweep_loop (response : list StreamItem) (accumulated_text buffer : string) :
  keeps_state (sweep_loop response accumulated_text buffer).
Proof.
  revert accumulated_text buffer.
  induction response as [|item response IH]; intros acc buffer; [done|].
  destruct item as [chunk_text| |e]; cbn [sweep_loop]; [| |done].
  - destruct chunk_text as [text|]; [|apply IH].
    destruct (String.eqb text ""); [apply IH|].
    destruct (flushable (buffer +:+ text)); [|apply IH].
    apply keeps_state_bind; [unfold send_chunk; apply keeps_state_notify|]. intros _. apply IH.
  - apply keeps_state_bind; [|done].
    destruct (String.eqb buffer ""); [done|unfold send_chunk; apply keeps_state_notify].
Qed.

Lemma keeps_state_sweep svc context (content : string) :
  keeps_state (content_sweep svc context content).
Proof.
  unfold content_sweep. apply keeps_state_try; [|done].
  apply keeps_state_bind; [apply keeps_state_call|]. intros response.
  apply keeps_state_bind; [apply keeps_state_sweep_loop|]. done.
Qed.

Lemma edits_only_keeps {A} (c : M Stage A) : keeps_state c → edits_only c.
Proof. intros Hc s k _. by rewrite Hc. Qed.

Lemma edits_only_bind {A B} (c : M Stage A) (k : A → M Stage B) :
  edits_only c → (∀ a, edits_only (k a)) → edits_only (c ≫= k).
Proof.
  intros Hc Hk s key Hkey. unfold mbind, M_bind, bind. specialize (Hc s key Hkey).
  destruct (c s) as [[a|e] s1]; simpl in *; [|done]. by rewrite Hk.
Qed.

Lemma edits_only_try {A} (c : M Stage A) (h : exn → M Stage A) :
  edits_only c → (∀ e, edits_only (h e)) → edits_only (try_except c h).
Proof.
  intros Hc Hh s key Hkey. unfold try_except. specialize (Hc s key Hkey).
  destruct (c s) as [[a|e] s1]; simpl in *; [done|]. by rewrite Hh.
Qed.

Lemma edits_only_setitem k v : k ∈ report_keys → edits_only (setitem k v).
Proof.
  intros Hk s key Hkey. rewrite setitem_eq. simpl.
  rewrite lookup_insert_ne //. by intros ->.
Qed.

Lemma edits_only_editor_report (report : pyval) : edits_only (set_editor_report report).
Proof.
  intros s key Hkey. unfold set_editor_report, mbind, M_bind, bind, gets.
  rewrite setitem_eq. simpl. rewrite lookup_insert_ne //. intros <-. apply Hkey.
  unfold report_keys. set_solver.
Qed.

(** [edit_report] always returns, and writes under the report keys
    only. *)
Lemma edit_report_frame svc context (briefings : list (string * pyval)) :
  edits_only (edit_report svc context briefings)
  ∧ ∀ s, ∃ r, (edit_report svc context briefings s).1 = Return r.
Proof.
  split.
  - unfold edit_report. apply edits_only_try; [|by intros e; apply edits_only_keeps].
    apply edits_only_bind; [apply edits_only_keeps, keeps_state_notify|]. intros _.
    apply edits_only_bind; [apply edits_only_keeps, keeps_state_compile|].
    intros edited_report. destruct (String.eqb edited_report ""); [by apply edits_only_keeps|].
    apply edits_only_bind; [apply edits_only_keeps, keeps_state_notify|]. intros _.
    apply edits_only_bind; [apply edits_only_keeps, keeps_state_notify|]. intros _.
    apply edits_only_bind; [apply edits_only_keeps, keeps_state_sweep|].
    intros final_report.
    destruct (String.eqb (strip final_report) ""); [by apply edits_only_keeps|].
    apply edits_only_bind; [apply edits_only_setitem; unfold report_keys; set_solver|].
    intros _.
    apply edits_only_bind; [apply edits_only_setitem; unfold report_keys; set_solver|].
    intros _.
    apply edits_only_bind; [apply edits_only_editor_report|]. intros _.
    apply edits_only_bind; [apply edits_only_keeps, keeps_state_notify|]. intros _.
    by apply edits_only_keeps.
  - intros s. unfold edit_report, try_except.
    match goal with |- context [let (_, _) := ?c s in _] => destruct (c s) as [[r|e] s1] end;
      by eexists.
Qed.

Lemma collect_sized (keys : list (string * string)) state s :
  Forall (λ ck : string * string,
            truthy (py_get state ck.2) = true → sized (py_get state ck.2) = true) keys →
  ∃ found lines, collect keys state s = (Return (found, lines), s).
Proof.
  induction 1 as [|[cat key] keys Hk _ (found & lines & IH)]; [by exists [], []|].
  cbn [collect]. simpl in Hk.
  destruct (truthy (py_get state key)) eqn:Ht; unfold mbind, M_bind, bind.
  - rewrite py_len_sized Hk // IH. by eexists _, _.
  - rewrite IH. by eexists _, _.
Qed.

(** X18. No failure of the compile call, of the cleanup call or of the
    formatting of the references escapes the editor: on a state whose
    notifications can be sent, whose briefings have a length and whose
    messages are a list, the editor returns, and it changes the state
    under its report keys and its messages only. *)
Theorem editor_contains_service_failures svc s :
  notify_ok (st s) = true → briefings_sized (st s) → messages_ok (st s) →
  ∃ s', Editor.run svc s = (Return tt, s')
        ∧ ∀ k, k ∉ "messages" :: report_keys → st s' !! k = st s !! k.
Proof.
  intros Hok Hsized Hmsg.
  assert (∃ s1 text, compile_briefings svc s = append_message text s1
                     ∧ ∀ k, k ∉ report_keys → st s1 !! k = st s !! k)
    as (s1 & text & Heq & Hframe).
  { unfold compile_briefings, mbind, M_bind, bind, gets.
    match goal with |- context [notify_st ?a ?b ?c s] =>
      destruct (notify_st_ok a b c s Hok) as (s1 & -> & Hst1 & Hb1) end.
    match goal with |- context [notify_st ?a ?b ?c s1] =>
      destruct (notify_st_ok a b c s1) as (s2 & -> & Hst2 & Hb2); [by rewrite Hst1|] end.
    destruct (collect_sized briefing_keys (st s) s2 Hsized) as (found & lines & ->).
    destruct found as [|b found].
    - unfold ret. exists s2. eexists. split; [done|]. intros k _. congruence.
    - unfold try_except, mbind, M_bind, bind.
      destruct (edit_report_frame svc (context_of (st s)) (b :: found)) as [Hedit Hret].
      specialize (Hedit s2). destruct (Hret s2) as [r Hr].
      destruct (edit_report svc (context_of (st s)) (b :: found) s2) as [r' s3].
      simpl in Hr. subst r'. unfold ret. exists s3. eexists. split; [done|].
      intros k Hk. simpl in Hedit. rewrite Hedit //. congruence. }
  unfold Editor.run, mbind, M_bind, bind, gets. rewrite Heq.
  destruct (append_message_returns text s1) as [msgs ->].
  { unfold messages_ok in *. rewrite Hframe //. unfold report_keys. set_solver. }
  cbn [st hub].
  destruct (<["messages" := PyList msgs]> (st s1) !! "report") as [report|].
  - unfold set_editor_report, mbind, M_bind, bind, gets. rewrite setitem_eq. cbn [st hub].
    eexists. split; [done|]. intros k Hk. simpl.
    apply not_elem_of_cons in Hk as [Hk1 Hk2].
    rewrite lookup_insert_ne; [|intros <-; apply Hk2; unfold report_keys; set_solver].
    rewrite lookup_insert_ne //. by apply Hframe.
  - unfold ret. eexists. split; [done|]. intros k Hk. simpl.
    apply not_elem_of_cons in Hk as [Hk1 Hk2]. rewrite lookup_insert_ne //. by apply Hframe.
Qed.

Lemma editor_contains_service_failures_witness :
  notify_ok (st referenced_stage) = true
  ∧ briefings_sized (st referenced_stage)
  ∧ messages_ok (st referenced_stage)
  ∧ ∃ s', Editor.run unformatted_services referenced_stage = (Return tt, s').
Proof.
  assert (notify_ok (st referenced_stage) = true) as H1 by (vm_compute; reflexivity).
  assert (briefings_sized (st referenced_stage)) as H2.
  { repeat constructor; intros _; vm_compute; reflexivity. }
  assert (messages_ok (st referenced_stage)) as H3 by (vm_compute; exact I).
  split; [exact H1|]. split; [exact H2|]. split; [exact H3|].
  destruct (editor_contains_service_failures unformatted_services referenced_stage H1 H2 H3)
    as (s' & Hs & _).
  exists s'. exact Hs.
Defined.

(** X19. On a state without report, the editor stores one exactly when
    it finds a briefing, the compiled text is not empty and the cleaned
    text is not blank.  In particular a cleanup call that answers with
    white space only discards the compiled report. *)
Theorem editor_stores_report_iff svc s refs :
  notify_ok (st s) = true → briefings_are_texts (st s) →
  reference_text svc (st s) = Return refs →
  st s !! "report" = None →
  let found := present_briefings (st s) in
  let edited_report := compile_outcome svc (context_of (st s)) refs (contents_of found) in
  let final_report := sweep_outcome svc (context_of (st s)) edited_report in
  (st (Editor.run svc s).2 !! "report" = None
   ↔ found = [] ∨ edited_report = "" ∨ blank final_report = true)
  ∧ (∀ response text,
       openai_sweep svc (context_of (st s)) edited_report = Return response →
       sweep_text response "" = Some text → blank text = true →
       st (Editor.run svc s).2 !! "report" = None).
Proof.
  intros Hok Htexts Hrefs Hnone found E F.
  pose proof (editor_run_report svc s refs Hok Htexts Hrefs) as Hrep. cbv zeta in Hrep.
  fold found in Hrep. fold E in Hrep. fold F in Hrep.
  assert (st (Editor.run svc s).2 !! "report" = None
          ↔ found = [] ∨ E = "" ∨ blank F = true) as Hiff.
  { rewrite Hrep. destruct found as [|b found']; [by split; [left|]|].
    destruct (String.eqb E "") eqn:HE; cbn [orb].
    { apply String.eqb_eq in HE. split; [by right; left|done]. }
    apply String.eqb_neq in HE.
    destruct (String.eqb (strip F) "") eqn:HF.
    - apply String.eqb_eq, strip_empty in HF. split; [by right; right|done].
    - apply String.eqb_neq in HF. split; [done|].
      intros [?|[?|Hb]]; [done|done|]. by apply strip_empty in Hb. }
  split; [done|].
  intros response text Hs Ht Hb. apply Hiff. right. right.
  unfold F, sweep_outcome. by rewrite Hs Ht blank_strip.
Qed.

Lemma editor_stores_report_iff_witness :
  notify_ok (st briefed_stage) = true
  ∧ briefings_are_texts (st briefed_stage)
  ∧ reference_text blank_sweep_services (st briefed_stage) = Return ""
  ∧ st briefed_stage !! "report" = None
  ∧ st (Editor.run blank_sweep_services briefed_stage).2 !! "report" = None.
Proof.
  assert (notify_ok (st briefed_stage) = true) as H1 by (vm_compute; reflexivity).
  assert (briefings_are_texts (st briefed_stage)) as H2.
  { repeat constructor; eexists; vm_compute; reflexivity. }
  assert (reference_text blank_sweep_services (st briefed_stage) = Return "") as H3
    by (vm_compute; reflexivity).
  assert (st briefed_stage !! "report" = None) as H4 by (vm_compute; reflexivity).
  split; [exact H1|]. split; [exact H2|]. split; [exact H3|]. split; [exact H4|].
  destruct (editor_stores_report_iff blank_sweep_services briefed_stage "" H1 H2 H3 H4)
    as [_ H].
  apply (H [Delta (Some " "); Delta (Some nl); Stop] (" " +:+ nl)); reflexivity.
Defined.

Lemma sweep_loop_discipline job ws (deltas : list (option string)) (stop : bool)
    (accumulated_text buffer : string) s :
  listening job ws s → flushable buffer = false →
  ∃ s' flushed rest,
    sweep_loop (map Delta deltas ++ stream_end stop) accumulated_text buffer s =
      (Return (accumulated_text +:+ stream_text deltas), s')
    ∧ received ws (wire (hub s')) =
        received ws (wire (hub s)) ++ map chunk_update (published flushed rest stop)
    ∧ Forall (λ c, flushable c = true) flushed
    ∧ flushable rest = false
    ∧ foldr String.append "" flushed +:+ rest = buffer +:+ stream_text deltas.
Proof.
  revert accumulated_text buffer s.
  induction deltas as [|d deltas IH]; intros acc buffer s Hl Hbuf.
  - cbn [map app]. unfold stream_text. cbn [map foldr]. rewrite !append_nil_r.
    unfold published. destruct stop; cbn [stream_end sweep_loop andb].
    + unfold mbind, M_bind, bind. destruct (String.eqb buffer "") eqn:Hb.
      * exists s, [], buffer. rewrite Hb. cbn [negb app map]. rewrite app_nil_r.
        split_and!; done.
      * destruct (send_chunk_listening job ws buffer s Hl) as (s' & -> & Hst & Hl' & Hr).
        exists s', [], buffer. rewrite Hb. split_and!; done.
    + exists s, [], buffer. cbn [app map]. rewrite app_nil_r. split_and!; done.
  - change (map Delta (d :: deltas) ++ stream_end stop)
      with (Delta d :: (map Delta deltas ++ stream_end stop)).
    change (stream_text (d :: deltas)) with (delta_text d +:+ stream_text deltas).
    cbn [sweep_loop]. destruct d as [text|]; cycle 1.
    { simpl. by apply IH. }
    destruct (String.eqb text "") eqn:Ht.
    { apply String.eqb_eq in Ht. subst text. simpl. by apply IH. }
    simpl. destruct (flushable (buffer +:+ text)) eqn:Hf.
    + unfold mbind, M_bind, bind.
      destruct (send_chunk_listening job ws (buffer +:+ text) s Hl)
        as (s1 & -> & Hst1 & Hl1 & Hr1).
      destruct (IH (acc +:+ text) "" s1 Hl1) as (s' & flushed & rest & -> & Hr & Hfl & Hrest & Hc);
        [done|].
      exists s', ((buffer +:+ text) :: flushed), rest. split_and!.
      * by rewrite append_assoc.
      * rewrite Hr Hr1 -app_assoc. done.
      * by constructor.
      * done.
      * cbn [foldr]. rewrite append_assoc Hc. simpl. by rewrite append_assoc.
    + destruct (IH (acc +:+ text) (buffer +:+ text) s Hl Hf)
        as (s' & flushed & rest & -> & Hr & Hfl & Hrest & Hc).
      exists s', flushed, rest. split_and!; try done.
      * by rewrite append_assoc.
      * by rewrite Hc append_assoc.
Qed.

(** X20. While the cleaned report is streamed, every chunk published
    before the end of the stream is longer than ten characters and
    holds a sentence end or a newline.  What is left in the buffer is
    published at the stop signal only: a stream that ends without one
    returns its whole text, but its remainder is never published. *)
Theorem chunks_follow_flush_rule job ws (deltas : list (option string)) (stop : bool) s :
  listening job ws s →
  ∃ s' flushed rest,
    sweep_loop (map Delta deltas ++ stream_end stop) "" "" s = (Return (stream_text deltas), s')
    ∧ received ws (wire (hub s')) =
        received ws (wire (hub s))
          ++ map chunk_update (flushed ++ (if stop && negb (String.eqb rest "")
                                           then [rest] else []))
    ∧ Forall (λ c, 10 < String.length c
                   ∧ (has_char "." c = true ∨ has_char "!" c = true
                      ∨ has_char "?" c = true ∨ has_char "010" c = true)) flushed
    ∧ flushable rest = false
    ∧ foldr String.append "" flushed +:+ rest = stream_text deltas.
Proof.
  intros Hl.
  destruct (sweep_loop_discipline job ws deltas stop "" "" s Hl eq_refl)
    as (s' & flushed & rest & Heq & Hr & Hfl & Hrest & Hc).
  exists s', flushed, rest. split_and!; try done.
  eapply Forall_impl; [exact Hfl|]. intros c Hcf. apply flushable_spec in Hcf. tauto.
Qed.

Lemma chunks_follow_flush_rule_witness :
  listening "job-a" 1 sample_stage
  ∧ ∃ s' flushed rest,
      sweep_loop (map Delta [Some "Sec"; Some ("tion 1." +:+ nl); Some "End"] ++ stream_end false)
        "" "" sample_stage
        = (Return (stream_text [Some "Sec"; Some ("tion 1." +:+ nl); Some "End"]), s')
      ∧ received 1 (wire (hub s')) =
          received 1 (wire (hub sample_stage))
            ++ map chunk_update (flushed ++ (if false && negb (String.eqb rest "")
                                             then [rest] else []))
      ∧ flushable rest = false.
Proof.
  split; [exact sample_stage_listening|].
  destruct (chunks_follow_flush_rule "job-a" 1
              [Some "Sec"; Some ("tion 1." +:+ nl); Some "End"] false sample_stage
              sample_stage_listening) as (s' & flushed & rest & H1 & H2 & _ & H3 & _).
  exists s', flushed, rest. split; [exact H1|]. split; [exact H2|exact H3].
Defined.

End editor_frame.

(** ** The analyzers *)

Section analyzers.
Implicit Types (s : Stage) (d : Desk) (base : BaseResearcher).
Implicit Types (state data : gmap string pyval) (queries : list string).

Lemma grown_refl queries data : grown queries data data.
Proof. split; [done|]. intros url v ?. by left. Qed.

Lemma tagged_mono queries queries' v : queries ⊆ queries' → tagged queries v → tagged queries' v.
Proof. intros Hsub (doc & q & -> & Hq & Hd). exists doc, q. split_and!; [done|by apply Hsub|done]. Qed.

Lemma grown_trans queries data1 data2 data3 :
  grown queries data1 data2 → grown queries data2 data3 → grown queries data1 data3.
Proof.
  intros [H1 H2] [H3 H4]. split; [by intros url ?%H1%H3|].
  intros url v [Hv|Hv]%H4; [by apply H2|by right].
Qed.

Lemma grown_mono queries queries' data data' :
  queries ⊆ queries' → grown queries data data' → grown queries' data data'.
Proof.
  intros Hsub [H1 H2]. split; [done|].
  intros url v [?|?]%H2; [by left|right; by eapply tagged_mono].
Qed.

Lemma tag_document_grown query (entry : string * pyval) d :
  grown [query] (desk_data d) (desk_data (tag_document query entry d).2)
  ∧ desk_msg (tag_document query entry d).2 = desk_msg d
  ∧ desk_hub (tag_document query entry d).2 = desk_hub d.
Proof.
  unfold tag_document. destruct entry as [url v]. simpl.
  destruct v as [| | | | |doc|]; try (split_and!; [apply grown_refl|done|done]).
  simpl. split_and!; [|done|done]. split.
  - intros url' Hs. destruct (decide (url = url')) as [->|Hne].
    + by rewrite lookup_insert_eq.
    + by rewrite lookup_insert_ne.
  - intros url' v. destruct (decide (url = url')) as [->|Hne].
    + rewrite lookup_insert_eq. intros [= <-]. right.
      exists (<["query" := PyStr query]> doc), query.
      split_and!; [done|by left|by rewrite lookup_insert_eq].
    + rewrite lookup_insert_ne //. by left.
Qed.

Lemma tag_documents_grown query (documents : list (string * pyval)) d :
  grown [query] (desk_data d) (desk_data (for_each documents (tag_document query) d).2)
  ∧ desk_msg (for_each documents (tag_document query) d).2 = desk_msg d
  ∧ desk_hub (for_each documents (tag_document query) d).2 = desk_hub d.
Proof.
  revert d. induction documents as [|entry documents IH]; intros d.
  - split_and!; [apply grown_refl|done|done].
  - cbn [for_each]. unfold mbind, M_bind, bind.
    destruct (tag_document_grown query entry d) as (Hg & Hm & Hh).
    destruct (tag_document query entry d) as [[[]|e] d1]; simpl in *; [|done].
    destruct (IH d1) as (Hg' & Hm' & Hh').
    split_and!; [by eapply grown_trans|congruence|congruence].
Qed.

Lemma on_hub_eq {A} (c : M World A) d :
  on_hub c d = ((c (desk_hub d)).1, mkDesk (desk_data d) (desk_msg d) (c (desk_hub d)).2).
Proof. unfold on_hub, lift. by destruct (c (desk_hub d)). Qed.

Lemma search_queries_grown base analyst_type state queries d :
  grown queries (desk_data d)
    (desk_data (search_queries base analyst_type state queries d).2)
  ∧ desk_msg (search_queries base analyst_type state queries d).2 = desk_msg d.
Proof.
  unfold search_queries. revert d. induction queries as [|query queries IH]; intros d.
  - split; [apply grown_refl|done].
  - cbn [for_each]. unfold mbind, M_bind, bind. rewrite on_hub_eq.
    destruct (search_documents base analyst_type state [query] (desk_hub d))
      as [[documents|e] w1]; simpl; [|split; [apply grown_refl|done]].
    match goal with |- context [for_each documents (tag_document query) ?x] =>
      destruct (tag_documents_grown query documents x) as (Hg & Hm & Hh);
      destruct (for_each documents (tag_document query) x) as [[[]|e] d1] end;
      simpl in *.
    + destruct (IH d1) as [Hg' Hm']. split; [|etrans; [exact Hm'|exact Hm]].
      eapply grown_trans; [eapply grown_mono; [|exact Hg]; set_solver|].
      eapply grown_mono; [|exact Hg']. set_solver.
    + split; [|done]. eapply grown_mono; [|exact Hg]. set_solver.
Qed.

(** The [try] statement never raises; it only adds to the data, and
    adds at least one line to the message. *)
Lemma try_searches_spec base analyst_type analyst state queries d :
  ∃ d' more,
    try_searches base analyst_type analyst state queries d = (Return tt, d')
    ∧ grown queries (desk_data d) (desk_data d')
    ∧ desk_msg d' = desk_msg d ++ more.
Proof.
  unfold try_searches, try_except, mbind, M_bind, bind.
  destruct (search_queries_grown base analyst_type state queries d) as [Hg Hm].
  destruct (search_queries base analyst_type state queries d) as [[[]|e] d1]; simpl in *.
  - unfold gets, add_line, modify. rewrite on_hub_eq. cbn [desk_hub desk_data desk_msg].
    match goal with |- context [notify state ?a ?b ?c ?w] =>
      destruct (notify state a b c w) as [[[]|e] w1] end; simpl.
    + eexists _, [_]. split_and!; [done|done|]. simpl. by rewrite Hm.
    + eexists _, [_; _]. split_and!; [done|done|]. simpl. by rewrite Hm -app_assoc.
  - unfold add_line, modify. eexists _, [_]. split_and!; [done|done|]. simpl. by rewrite Hm.
Qed.

Lemma add_message_returns (text : string) s :
  messages_ok (st s) →
  ∃ msgs, add_message text s =
            (Return tt, mkStage (<["messages" := PyList msgs]> (st s)) (hub s)).
Proof.
  unfold messages_ok, add_message, py_get_or, mbind, M_bind, bind, gets.
  destruct (st s !! "messages") as [[]|]; try done; intros _; simpl;
    rewrite setitem_eq; by eexists.
Qed.

Lemma site_pages_eq {W} state (msg : list string) pages (w : W) :
  site_pages_of state = Some pages →
  ∃ msg', site_pages state msg w = (Return (pages, msg'), w).
Proof.
  unfold site_pages_of, site_pages.
  destruct (py_get state "site_scrape") as [|b|z|text|xs|d|] eqn:E; simpl.
  - intros [= <-]. by eexists.
  - destruct b; [done|]. intros [= <-]. by eexists.
  - destruct (Z.eqb z 0); [|done]. intros [= <-]. by eexists.
  - destruct (String.eqb text ""); [|done]. intros [= <-]. by eexists.
  - destruct xs; [|done]. intros [= <-]. by eexists.
  - intros [= <-]. destruct (map_to_list d) as [|x l] eqn:Hd.
    + apply map_to_list_empty_iff in Hd. subst d. by eexists.
    + unfold mbind, M_bind, bind. simpl. by eexists.
  - done.
Qed.

Lemma at_desk_eq data (msg : list string) (c : M Desk unit) s d' :
  c (mkDesk data msg (hub s)) = (Return tt, d') →
  at_desk data msg c s = (Return (desk_data d', desk_msg d'), mkStage (st s) (desk_hub d')).
Proof. intros H. unfold at_desk. by rewrite H. Qed.

(** X21. A search that raises does not fail the news analyzer.  Once
    the queries are generated, whatever the searches do, the analyzer
    returns; the data it returns is the data it stores in the state; it
    holds every page of the company site, and each of its entries is
    such a page or a document tagged with one of the queries. *)
Theorem news_scanner_contains_search_failures base s queries w1 pages :
  generate_queries base NewsScanner.analyst_type (st s) (hub s) = (Return queries, w1) →
  messages_ok (st s) →
  site_pages_of (st s) = Some pages →
  ∃ data msg s',
    NewsScanner.analyze base s =
      (Return {[ "message" := PyList (map PyStr msg); "news_data" := PyDict data ]}, s')
    ∧ st s' !! "news_data" = Some (PyDict data)
    ∧ grown queries pages data
    ∧ ∀ k, k ≠ "messages" → k ≠ "news_data" → st s' !! k = st s !! k.
Proof.
  intros Hq Hmsg Hpages. unfold NewsScanner.analyze, mbind, M_bind, bind, gets.
  rewrite in_hub_eq Hq. cbn [fst snd].
  match goal with |- context [add_message ?text ?x] =>
    destruct (add_message_returns text x) as [msgs ->]; [done|] end.
  cbn [st hub].
  match goal with |- context [site_pages ?state ?msg ?x] =>
    destruct (site_pages_eq state msg pages x) as [msg' ->] end.
  { unfold site_pages_of, py_get in *. by rewrite lookup_insert_ne. }
  match goal with |- context [at_desk pages msg' (try_searches ?b ?t ?a ?state ?qs) ?x] =>
    destruct (try_searches_spec b t a state qs (mkDesk pages msg' (hub x)))
      as (d' & more & Htry & Hg & Hm);
    rewrite (at_desk_eq pages msg' _ x d' Htry) end.
  cbn [st hub desk_data] in *.
  match goal with |- context [add_message ?text ?x] =>
    destruct (add_message_returns text x) as [msgs' ->] end.
  { unfold messages_ok. cbn [st]. by rewrite lookup_insert_eq. }
  rewrite setitem_eq. cbn [st hub]. unfold ret.
  eexists _, _, _. split; [done|]. cbn [st].
  split; [by rewrite lookup_insert_eq|]. split; [done|].
  intros k Hk1 Hk2. by rewrite !lookup_insert_ne.
Qed.

(** X22. The same holds of the industry analyzer, on a state whose
    notifications can be sent: a search that raises does not fail it,
    and its data holds the pages of the company site and documents
    tagged with its queries. *)
Theorem industry_analyzer_contains_search_failures base s queries w1 pages :
  generate_queries base IndustryAnalyzer.analyst_type (st s) (hub s) = (Return queries, w1) →
  messages_ok (st s) → notify_ok (st s) = true →
  site_pages_of (st s) = Some pages →
  ∃ data msg s',
    IndustryAnalyzer.analyze base s =
      (Return {[ "message" := PyList (map PyStr msg); "industry_data" := PyDict data ]}, s')
    ∧ st s' !! "industry_data" = Some (PyDict data)
    ∧ grown queries pages data
    ∧ ∀ k, k ≠ "messages" → k ≠ "industry_data" → st s' !! k = st s !! k.
Proof.
  intros Hq Hmsg Hok Hpages. unfold IndustryAnalyzer.analyze, mbind, M_bind, bind, gets.
  rewrite in_hub_eq Hq. cbn [fst snd].
  match goal with |- context [add_message ?text ?x] =>
    destruct (add_message_returns text x) as [msgs ->]; [done|] end.
  match goal with |- context [notify_st ?a ?b ?c ?x] =>
    destruct (notify_st_ok a b c x) as (s2 & -> & Hst2 & _) end.
  { cbn [st]. by rewrite notify_ok_insert. }
  cbn [st] in Hst2. rewrite Hst2.
  match goal with |- context [site_pages ?state ?msg ?x] =>
    destruct (site_pages_eq state msg pages x) as [msg' ->] end.
  { unfold site_pages_of, py_get in *. by rewrite lookup_insert_ne. }
  match goal with |- context [at_desk pages msg' (try_searches ?b ?t ?a ?state ?qs) ?x] =>
    destruct (try_searches_spec b t a state qs (mkDesk pages msg' (hub x)))
      as (d' & more & Htry & Hg & Hm);
    rewrite (at_desk_eq pages msg' _ x d' Htry) end.
  cbn [st hub desk_data] in *.
  match goal with |- context [add_message ?text ?x] =>
    destruct (add_message_returns text x) as [msgs' ->] end.
  { unfold messages_ok. cbn [st]. by rewrite Hst2 lookup_insert_eq. }
  rewrite setitem_eq. cbn [st hub]. unfold ret.
  eexists _, _, _. split; [done|]. cbn [st].
  split; [by rewrite lookup_insert_eq|]. split; [done|].
  intros k Hk1 Hk2. by rewrite !lookup_insert_ne // Hst2 lookup_insert_ne.
Qed.

Lemma news_scanner_contains_search_failures_witness :
  generate_queries failing_researcher NewsScanner.analyst_type (st scraped_stage)
    (hub scraped_stage) = (Return sample_queries, hub scraped_stage)
  ∧ messages_ok (st scraped_stage)
  ∧ site_pages_of (st scraped_stage) = Some {[ "https://acme.test/about" := sample_doc ]}
  ∧ ∃ data, st (NewsScanner.analyze failing_researcher scraped_stage).2 !! "news_data"
              = Some (PyDict data)
            ∧ is_Some (data !! "https://acme.test/about").
Proof.
  assert (generate_queries failing_researcher NewsScanner.analyst_type (st scraped_stage)
            (hub scraped_stage) = (Return sample_queries, hub scraped_stage)) as H1
    by reflexivity.
  assert (messages_ok (st scraped_stage)) as H2 by (vm_compute; exact I).
  assert (site_pages_of (st scraped_stage)
          = Some {[ "https://acme.test/about" := sample_doc ]}) as H3 by reflexivity.
  split; [exact H1|]. split; [exact H2|]. split; [exact H3|].
  destruct (news_scanner_contains_search_failures failing_researcher scraped_stage
              sample_queries (hub scraped_stage) _ H1 H2 H3)
    as (data & msg & s' & Heq & Hst & [Hkeep _] & _).
  exists data. rewrite Heq. split; [exact Hst|].
  apply Hkeep. rewrite lookup_singleton_eq. by eexists.
Defined.

Lemma industry_analyzer_contains_search_failures_witness :
  generate_queries failing_researcher IndustryAnalyzer.analyst_type (st scraped_stage)
    (hub scraped_stage) = (Return sample_queries, hub scraped_stage)
  ∧ messages_ok (st scraped_stage)
  ∧ notify_ok (st scraped_stage) = true
  ∧ site_pages_of (st scraped_stage) = Some {[ "https://acme.test/about" := sample_doc ]}
  ∧ ∃ data, st (IndustryAnalyzer.analyze failing_researcher scraped_stage).2 !! "industry_data"
              = Some (PyDict data)
            ∧ is_Some (data !! "https://acme.test/about").
Proof.
  assert (generate_queries failing_researcher IndustryAnalyzer.analyst_type (st scraped_stage)
            (hub scraped_stage) = (Return sample_queries, hub scraped_stage)) as H1
    by reflexivity.
  assert (messages_ok (st scraped_stage)) as H2 by (vm_compute; exact I).
  assert (notify_ok (st scraped_stage) = true) as H3 by (vm_compute; reflexivity).
  assert (site_pages_of (st scraped_stage)
          = Some {[ "https://acme.test/about" := sample_doc ]}) as H4 by reflexivity.
  split; [exact H1|]. split; [exact H2|]. split; [exact H3|]. split; [exact H4|].
  destruct (industry_analyzer_contains_search_failures failing_researcher scraped_stage
              sample_queries (hub scraped_stage) _ H1 H2 H3 H4)
    as (data & msg & s' & Heq & Hst & [Hkeep _] & _).
  exists data. rewrite Heq. split; [exact Hst|].
  apply Hkeep. rewrite lookup_singleton_eq. by eexists.
Defined.

Lemma for_each_app {W A} (l1 l2 : list A) (body : A → M W unit) w :
  for_each (l1 ++ l2) body w =
    match for_each l1 body w with
    | (Return _, w1) => for_each l2 body w1
    | (Raise e, w1) => (Raise e, w1)
    end.
Proof.
  revert w. induction l1 as [|x l1 IH]; intros w; [done|].
  cbn [app for_each]. unfold mbind, M_bind, bind.
  destruct (body x w) as [[[]|e] w1]; [apply IH|done].
Qed.

(** X23. When a search raises, the analyzer stops searching: the
    queries after the failing one are never searched, the documents
    found before it are kept, the error is added to the message, and
    no update about the documents found is published. *)
Theorem failed_search_keeps_earlier_documents base analyst_type analyst state
    (earlier later : list string) (query : string) d d1 e w2 :
  search_queries base analyst_type state earlier d = (Return tt, d1) →
  search_documents base analyst_type state [query] (desk_hub d1) = (Raise e, w2) →
  try_searches base analyst_type analyst state (earlier ++ query :: later) d =
    (Return tt,
     mkDesk (desk_data d1) (desk_msg d ++ [nl +:+ "⚠️ Error during research: " +:+ e]) w2).
Proof.
  intros Hearlier Hraise.
  pose proof (search_queries_grown base analyst_type state earlier d) as [_ Hm].
  rewrite Hearlier in Hm. simpl in Hm.
  unfold try_searches, try_except, mbind, M_bind, bind.
  unfold search_queries in *. rewrite for_each_app Hearlier. cbn [for_each].
  unfold mbind, M_bind, bind. rewrite on_hub_eq Hraise. simpl.
  unfold add_line, modify. simpl. by rewrite Hm.
Qed.

Lemma failed_search_keeps_earlier_documents_witness :
  let d := mkDesk ∅ [] (hub sample_stage) in
  ∃ d1, search_queries failing_researcher "news_analyzer" (st sample_stage) ["acme news"] d
          = (Return tt, d1)
        ∧ search_documents failing_researcher "news_analyzer" (st sample_stage) ["acme press"]
            (desk_hub d1) = (Raise "search timeout", hub sample_stage)
        ∧ try_searches failing_researcher "news_analyzer" "News Scanner" (st sample_stage)
            (["acme news"] ++ "acme press" :: ["acme awards"]) d =
            (Return tt,
             mkDesk (desk_data d1)
               (desk_msg d ++ [nl +:+ "⚠️ Error during research: " +:+ "search timeout"])
               (hub sample_stage)).
Proof.
  intros d.
  exists (search_queries failing_researcher "news_analyzer" (st sample_stage)
            ["acme news"] d).2.
  assert (search_queries failing_researcher "news_analyzer" (st sample_stage) ["acme news"] d
          = (Return tt, (search_queries failing_researcher "news_analyzer" (st sample_stage)
                           ["acme news"] d).2)) as H1 by reflexivity.
  assert (search_documents failing_researcher "news_analyzer" (st sample_stage) ["acme press"]
            (desk_hub (search_queries failing_researcher "news_analyzer" (st sample_stage)
                         ["acme news"] d).2)
          = (Raise "search timeout", hub sample_stage)) as H2 by reflexivity.
  split; [exact H1|]. split; [exact H2|].
  exact (failed_search_keeps_earlier_documents failing_researcher "news_analyzer"
           "News Scanner" (st sample_stage) ["acme news"] ["acme awards"] "acme press" d _
           "search timeout" (hub sample_stage) H1 H2).
Defined.

End analyzers.

(** ** The dict of briefings *)

Section briefings_dict.
Import Briefing.
Implicit Types (p : Pool) (t : Task) (pc : Pc) (i : nat) (s : Stage).
Implicit Types (svc : Services) (context : gmap string pyval).

Section dict_inv.
Context (svc : Services) (context : gmap string pyval) (tasks : list Task).
Hypothesis keys_distinct : NoDup (map briefing_key tasks).
Hypothesis categories_distinct : NoDup (map category tasks).

Lemma distinct_slots p i j t pc t' pc' :
  map fst (procs p) = tasks →
  procs p !! i = Some (t, pc) → procs p !! j = Some (t', pc') → i ≠ j →
  briefing_key t ≠ briefing_key t' ∧ category t ≠ category t'.
Proof.
  intros Htasks Hi Hj Hne. split; intros Heq; apply Hne.
  - eapply (NoDup_lookup _ i j (briefing_key t) keys_distinct).
    + rewrite -Htasks !list_lookup_fmap Hi. done.
    + rewrite -Htasks !list_lookup_fmap Hj. simpl. by rewrite Heq.
  - eapply (NoDup_lookup _ i j (category t) categories_distinct).
    + rewrite -Htasks !list_lookup_fmap Hi. done.
    + rewrite -Htasks !list_lookup_fmap Hj. simpl. by rewrite Heq.
Qed.

Lemma dict_move p i t pc pc' sem stage' :
  briefings_inv tasks p → procs p !! i = Some (t, pc) →
  st stage' = st (stage p) → pc ≠ Finished → pc' ≠ Finished →
  briefings_inv tasks (mkPool sem (briefings p) (<[i := (t, pc')]> (procs p)) (failure p) stage').
Proof.
  intros [H1 H2 H3] Hi Hst Hpc Hpc'. split; simpl.
  - by rewrite (map_fst_insert _ _ _ pc).
  - intros j t'. rewrite (lookup_procs_insert _ _ _ _ _ Hi) Hst.
    case_decide; [by intros [= _ ?]|apply H2].
  - intros cat Hc. destruct (H3 cat Hc) as (j & t' & Hj & Hcat). exists j, t'.
    split; [|done]. rewrite (lookup_procs_insert _ _ _ _ _ Hi).
    case_decide; [|done]. subst j. congruence.
Qed.

Lemma dict_store p i t pc content stage' :
  briefings_inv tasks p → procs p !! i = Some (t, pc) →
  st stage' = st (stage p) → pc ≠ Finished →
  briefings_inv tasks (store i t content stage' p).
Proof.
  intros [H1 H2 H3] Hi Hst Hpc.
  assert (briefings p !! category t = None) as Hnone.
  { destruct (briefings p !! category t) as [v|] eqn:E; [|done].
    destruct (H3 (category t)) as (j & t' & Hj & Hcat); [by rewrite E|].
    destruct (decide (i = j)) as [->|Hne]; [congruence|].
    by destruct (distinct_slots p i j t pc t' Finished H1 Hi Hj Hne) as [_ ?]. }
  split; simpl.
  - by rewrite (map_fst_insert _ _ _ pc).
  - intros j t'. rewrite (lookup_procs_insert _ _ _ _ _ Hi) Hst.
    case_decide as Hd.
    + intros [= <-]. exists content. rewrite lookup_insert_eq. split; [done|].
      unfold briefings_entry. destruct (String.eqb content ""); [done|].
      by rewrite lookup_insert_eq.
    + intros Hj. destruct (H2 j t' Hj) as (c & Hc & Hb).
      destruct (distinct_slots p i j t pc t' Finished H1 Hi Hj Hd) as [Hk Hcat].
      exists c. rewrite lookup_insert_ne //. split; [done|].
      destruct (String.eqb content ""); [done|]. by rewrite lookup_insert_ne.
  - intros cat Hc. destruct (decide (cat = category t)) as [->|Hne].
    + exists i, t. split; [|done]. rewrite (lookup_procs_insert _ _ _ _ _ Hi).
      by rewrite decide_True.
    + assert (is_Some (briefings p !! cat)) as Hold.
      { destruct (String.eqb content ""); [done|]. by rewrite lookup_insert_ne in Hc. }
      destruct (H3 cat Hold) as (j & t' & Hj & Hcat). exists j, t'. split; [|done].
      rewrite (lookup_procs_insert _ _ _ _ _ Hi). case_decide; [|done]. subst j. congruence.
Qed.

Lemma dict_abort p i t pc e stage' :
  briefings_inv tasks p → procs p !! i = Some (t, pc) →
  st stage' = st (stage p) → pc ≠ Finished →
  briefings_inv tasks (abort i t e stage' p).
Proof.
  intros [H1 H2 H3] Hi Hst Hpc. split; simpl.
  - by rewrite (map_fst_insert _ _ _ pc).
  - intros j t'. rewrite (lookup_procs_insert _ _ _ _ _ Hi) Hst.
    case_decide; [done|apply H2].
  - intros cat Hc. destruct (H3 cat Hc) as (j & t' & Hj & Hcat). exists j, t'.
    split; [|done]. rewrite (lookup_procs_insert _ _ _ _ _ Hi).
    case_decide; [|done]. subst j. congruence.
Qed.

(** Every move keeps [briefings_inv]. *)
Lemma step_briefings_inv i p :
  briefings_inv tasks p → briefings_inv tasks (step svc context i p).
Proof.
  intros Hinv. unfold step. destruct (procs p !! i) as [[t pc]|] eqn:Hi; [|done].
  destruct pc as [| | |content| |e]; try done.
  - destruct (semaphore p) as [|n]; [done|]. by eapply dict_move.
  - pose proof (start_call_st context t (stage p)) as Hst.
    destruct ((total_docs ← py_len (curated_data t);
               in_hub (notify context "briefing_start"
                         ("Génération du briefing " +:+ category t)
                         (start_result t total_docs))) (stage p)) as [[[]|e] stage'];
      simpl in Hst.
    + by eapply dict_move.
    + by eapply dict_abort.
  - destruct (briefing_documents svc (category t) (curated_data t)) as [docs|e];
      [|by eapply dict_abort].
    destruct (gemini_generate svc (category t) context docs) as [text|e];
      [|by eapply dict_store].
    destruct (String.eqb (strip text) ""); [by eapply dict_store|].
    by eapply dict_move.
  - pose proof (in_hub_eq (notify context "briefing_complete"
                             ("Briefing " +:+ category t +:+ " complété")
                             (complete_result t)) (stage p)) as Heq.
    destruct (in_hub (notify context "briefing_complete"
                        ("Briefing " +:+ category t +:+ " complété")
                        (complete_result t)) (stage p)) as [[[]|e] stage'];
      injection Heq as _ ->; by eapply dict_store.
Qed.

Lemma init_briefings_inv s : briefings_inv tasks (init_pool tasks s).
Proof.
  split.
  - simpl. rewrite map_map. simpl. apply map_id.
  - intros i t Hi. by apply init_pool_lookup in Hi as [_ ?].
  - intros cat Hc. simpl in Hc. rewrite lookup_empty in Hc. by destruct Hc.
Qed.

End dict_inv.

Lemma plan_keeps_empty (cats : list (string * (string * string))) s r s1 k :
  plan cats s = (r, s1) → st s !! k = Some (PyStr "") → st s1 !! k = Some (PyStr "").
Proof.
  revert s r s1. induction cats as [|[field [cat key]] cats IH]; intros s r s1.
  - by intros [= <- <-].
  - cbn [plan]. unfold mbind, M_bind, bind, gets.
    destruct (truthy (py_get_or (st s) ("curated_" +:+ field) (PyDict ∅))).
    + rewrite py_len_sized.
      destruct (sized (py_get_or (st s) ("curated_" +:+ field) (PyDict ∅)));
        [|by intros [= <- <-]].
      destruct (plan cats s) as [[tasks0|e] s0] eqn:Hp; intros [= <- <-]; by eapply IH.
    + rewrite setitem_eq. intros Hp Hk. eapply IH; [done|]. simpl.
      destruct (decide (key = k)) as [->|Hne]; [by rewrite lookup_insert_eq|].
      by rewrite lookup_insert_ne.
Qed.

(** The tasks that are planned are those of the categories that have
    curated data, in order; the others get the empty briefing. *)
Lemma plan_slots (cats : list (string * (string * string))) s tasks s1 :
  plan cats s = (Return tasks, s1) →
  sublist (map task_slot tasks) (map snd cats)
  ∧ ∀ c, c ∈ cats → c.2 ∈ map task_slot tasks ∨ st s1 !! c.2.2 = Some (PyStr "").
Proof.
  revert s tasks s1. induction cats as [|[field [cat key]] cats IH]; intros s tasks s1.
  - intros [= <- <-]. split; [constructor|]. by intros c ?%elem_of_nil.
  - cbn [plan]. unfold mbind, M_bind, bind, gets.
    destruct (truthy (py_get_or (st s) ("curated_" +:+ field) (PyDict ∅))).
    + rewrite py_len_sized.
      destruct (sized (py_get_or (st s) ("curated_" +:+ field) (PyDict ∅))); [|done].
      destruct (plan cats s) as [[tasks0|e] s0] eqn:Hp; intros [= <- <-].
      destruct (IH _ _ _ Hp) as [Hsub Hall]. split.
      * simpl. by constructor.
      * intros c [->|Hc]%elem_of_cons; [left; simpl; by left|].
        destruct (Hall c Hc) as [?|?]; [left; simpl; by right|by right].
    + rewrite setitem_eq. intros Hp. destruct (IH _ _ _ Hp) as [Hsub Hall]. split.
      * simpl. by constructor.
      * intros c [->|Hc]%elem_of_cons; [|by apply Hall].
        right. simpl. eapply plan_keeps_empty; [done|]. simpl. by rewrite lookup_insert_eq.
Qed.

Lemma category_slots (cat key cat' key' : string) :
  (cat, key) ∈ map snd categories → (cat', key') ∈ map snd categories →
  (cat = cat' ↔ key = key')
  ∧ key ≠ "briefings"
  ∧ cat ∈ ["financial"; "news"; "industry"; "company"].
Proof.
  unfold categories. simpl. rewrite !elem_of_cons !elem_of_nil.
  intros H H'. split_and!.
  - destruct H as [H|[H|[H|[H|[]]]]]; destruct H' as [H'|[H'|[H'|[H'|[]]]]];
      simplify_eq; done.
  - destruct H as [H|[H|[H|[H|[]]]]]; by simplify_eq.
  - destruct H as [H|[H|[H|[H|[]]]]]; simplify_eq; set_solver.
Qed.

(** X24. When the briefing stage returns, the dict it stores under
    [briefings] agrees with the four briefings of the state: under each
    category it holds the briefing when that is not empty, and nothing
    when it is empty; it has no other entry. *)
Theorem briefings_dict_matches_state svc (schedule : list nat) s s' :
  create_briefings svc schedule s = (Return tt, s') →
  ∃ b, st s' !! "briefings" = Some (PyDict b)
       ∧ (∀ field cat key, (field, (cat, key)) ∈ categories →
            ∃ c, st s' !! key = Some (PyStr c)
                 ∧ b !! cat = if String.eqb c "" then None else Some (PyStr c))
       ∧ ∀ cat, is_Some (b !! cat) → cat ∈ ["financial"; "news"; "industry"; "company"].
Proof.
  unfold create_briefings, mbind, M_bind, bind, gets.
  destruct (notify_st "processing" "Starting research briefings" (step_result "Briefing") s)
    as [[[]|e0] s0]; [|done].
  destruct (plan categories s0) as [[tasks|e1] s1] eqn:Hp; [|done].
  destruct (plan_slots _ _ _ _ Hp) as [Hsub Hall].
  assert (∀ field cat key, (field, (cat, key)) ∈ categories →
            (cat, key) ∈ map snd categories) as Hslot.
  { intros field cat key Hin. apply list_elem_of_fmap. by exists (field, (cat, key)). }
  destruct tasks as [|t0 tasks0].
  - unfold ret. rewrite setitem_eq. intros [= <-]. simpl. exists ∅.
    split; [by rewrite lookup_insert_eq|]. split.
    + intros field cat key Hin.
      destruct (Hall _ Hin) as [Hc|Hc]; [by apply elem_of_nil in Hc|]. simpl in Hc.
      destruct (category_slots cat key cat key) as (_ & Hk & _); [by eapply Hslot..|].
      exists "". by rewrite lookup_insert_ne.
    + intros cat Hc. rewrite lookup_empty in Hc. by destruct Hc.
  - set (tasks := t0 :: tasks0) in *. unfold gather.
    destruct (gather_done svc (context_of (st s)) tasks s1 schedule)
      as (_ & Hterm & _ & Hinv).
    assert (NoDup (map briefing_key tasks)) as Hnd1.
    { apply (sublist_NoDup _ (map snd (map snd categories))); [compute_done|].
      assert (map briefing_key tasks = map snd (map task_slot tasks)) as ->
        by by rewrite map_map.
      exact (fmap_sublist snd _ _ Hsub). }
    assert (NoDup (map category tasks)) as Hnd2.
    { apply (sublist_NoDup _ (map fst (map snd categories))); [compute_done|].
      assert (map category tasks = map fst (map task_slot tasks)) as ->
        by by rewrite map_map.
      exact (fmap_sublist fst _ _ Hsub). }
    assert (briefings_inv tasks
              (drain svc (context_of (st s)) (4 * length tasks)
                 (run_schedule svc (context_of (st s)) schedule (init_pool tasks s1))))
      as Hdict.
    { apply drain_invariant; [by apply step_briefings_inv|].
      apply run_schedule_invariant; [by apply step_briefings_inv|].
      apply init_briefings_inv. }
    match goal with |- context [failure ?x] => set (q := x) in * end.
    destruct (failure q) eqn:Hf; [done|]. rewrite setitem_eq. intros [= <-]. simpl.
    assert (∀ t, t ∈ tasks → task_slot t ∈ map snd categories) as Hlisted.
    { intros t Ht. eapply elem_of_sublist; [|exact Hsub].
      apply list_elem_of_fmap. by exists t. }
    assert (∀ t, t ∈ tasks →
              ∃ c, st (stage q) !! briefing_key t = Some (PyStr c)
                   ∧ briefings q !! category t = briefings_entry c) as Hdone.
    { intros t Ht. destruct (all_terminated_finished _ _ _ t Hinv Hterm Hf Ht) as [i Hi].
      by apply (bi_finished _ _ Hdict) in Hi. }
    exists (briefings q). split; [by rewrite lookup_insert_eq|]. split.
    + intros field cat key Hin. pose proof (Hslot _ _ _ Hin) as Hck.
      destruct (category_slots cat key cat key Hck Hck) as (_ & Hk & _).
      rewrite lookup_insert_ne //.
      destruct (decide (key ∈ map briefing_key tasks)) as [Hkey|Hkey].
      * apply list_elem_of_fmap in Hkey as (t & -> & Ht).
        destruct (category_slots (category t) (briefing_key t) cat (briefing_key t))
          as (Hiff & _); [by apply Hlisted|done|].
        destruct (Hdone t Ht) as (c & Hc & Hb). exists c. split; [done|].
        rewrite -(proj2 Hiff eq_refl). exact Hb.
      * exists "". rewrite (inv_other _ _ _ Hinv) //.
        destruct (Hall _ Hin) as [Hc|Hc]; cbn [fst snd] in Hc.
        { exfalso. apply Hkey. apply list_elem_of_fmap in Hc as (t & Heq & Ht).
          apply list_elem_of_fmap. exists t. split; [|done]. by injection Heq. }
        split; [done|]. simpl.
        destruct (briefings q !! cat) as [v|] eqn:E; [|done]. exfalso.
        destruct (bi_only _ _ Hdict cat) as (i & t & Hi & Hcat); [by rewrite E|].
        assert (t ∈ tasks) as Ht.
        { rewrite -(bi_tasks _ _ Hdict). apply list_elem_of_fmap. exists (t, Finished).
          split; [done|]. by eapply list_elem_of_lookup_2. }
        destruct (category_slots (category t) (briefing_key t) cat key)
          as (Hiff & _); [by apply Hlisted|done|].
        apply Hkey. apply list_elem_of_fmap. exists t. split; [|done].
        symmetry. by apply Hiff.
    + intros cat Hc. destruct (bi_only _ _ Hdict cat Hc) as (i & t & Hi & <-).
      assert (t ∈ tasks) as Ht.
      { rewrite -(bi_tasks _ _ Hdict). apply list_elem_of_fmap. exists (t, Finished).
        split; [done|]. by eapply list_elem_of_lookup_2. }
      by destruct (category_slots (category t) (briefing_key t) (category t) (briefing_key t))
        as (_ & _ & ?); [by apply Hlisted..|].
Qed.

Lemma briefings_dict_matches_state_witness :
  create_briefings flaky_services [0; 1; 2; 0; 1; 0; 3] curated_stage
    = (Return tt, (create_briefings flaky_services [0; 1; 2; 0; 1; 0; 3] curated_stage).2)
  ∧ ∃ b, st (create_briefings flaky_services [0; 1; 2; 0; 1; 0; 3] curated_stage).2
           !! "briefings" = Some (PyDict b)
         ∧ ∀ cat, is_Some (b !! cat) → cat ∈ ["financial"; "news"; "industry"; "company"].
Proof.
  assert (create_briefings flaky_services [0; 1; 2; 0; 1; 0; 3] curated_stage
          = (Return tt, (create_briefings flaky_services [0; 1; 2; 0; 1; 0; 3]
                           curated_stage).2)) as H.
  { apply (returns_unit_eta (create_briefings flaky_services [0; 1; 2; 0; 1; 0; 3]
                               curated_stage)). vm_compute. reflexivity. }
  split; [exact H|].
  destruct (briefings_dict_matches_state flaky_services [0; 1; 2; 0; 1; 0; 3] curated_stage _ H)
    as (b & Hb & _ & Honly).
  exists b. split; [exact Hb|exact Honly].
Defined.

End briefings_dict.

(** ** The documents of a prompt *)

Section prompt_documents.
Import BriefingPrompt.
Implicit Types (doc : gmap string pyval) (items : list (gmap string pyval)).
Implicit Types (texts : list string).

Lemma length_append (s t : string) :
  String.length (s +:+ t) = String.length s + String.length t.
Proof. induction s as [|c s IH]; [done|]. rewrite append_cons. simpl. by rewrite IH. Qed.

Lemma length_take_chars (n : nat) (s : string) :
  String.length (take_chars n s) = n `min` String.length s.
Proof.
  revert s. induction n as [|n IH]; intros [|c s]; simpl; try done. by rewrite IH.
Qed.

Lemma total_length_app texts texts' :
  total_length (texts ++ texts') = total_length texts + total_length texts'.
Proof.
  unfold total_length. induction texts as [|t texts IH]; [done|]. simpl. rewrite IH. lia.
Qed.

(** Building an entry has no effect. *)
Lemma doc_entry_pure {W} doc (w : W) : (doc_entry doc w).2 = w.
Proof.
  unfold doc_entry, mbind, M_bind, bind. rewrite py_len_sized.
  destruct (sized _); [|done]. simpl.
  destruct (max_doc_length <? _); [|done].
  by destruct (py_or _ _).
Qed.

Lemma select_documents_spec {W} items texts (w : W) selected w' :
  select_documents items texts (total_length texts) w = (Return selected, w') →
  w' = w
  ∧ ∃ more,
      selected = texts ++ more
      ∧ Forall2 (λ doc entry, doc_entry doc w = (Return entry, w))
          (take (length more) items) more
      ∧ (more ≠ [] → total_length selected < 120000)
      ∧ ∀ doc, items !! length more = Some doc →
          ∃ entry, doc_entry doc w = (Return entry, w)
                   ∧ 120000 ≤ total_length selected + String.length entry.
Proof.
  revert texts. induction items as [|doc items IH]; intros texts.
  - intros [= <- <-]. split; [done|]. exists []. rewrite app_nil_r.
    split_and!; [done|constructor|by intros []|]. by intros doc ?.
  - cbn [select_documents]. unfold mbind, M_bind, bind.
    pose proof (doc_entry_pure doc w) as Hpure.
    destruct (doc_entry doc w) as [[entry|e] w1] eqn:He; simpl in Hpure; subst w1; [|done].
    destruct (total_length texts + String.length entry <? 120000) eqn:Hfit.
    + intros Hsel.
      assert (total_length texts + String.length entry = total_length (texts ++ [entry]))
        as Heq.
      { rewrite total_length_app. unfold total_length. simpl. lia. }
      rewrite Heq in Hsel. destruct (IH _ Hsel) as (-> & more & -> & Hall & Hlt & Hnext).
      rewrite -app_assoc in Hlt, Hnext. cbn [app] in Hlt, Hnext.
      split; [done|]. exists (entry :: more). rewrite -app_assoc. cbn [app length take lookup].
      split_and!; [done|by constructor| |exact Hnext].
      intros _. destruct more as [|x more]; [|by apply Hlt].
      rewrite -Heq. by apply Nat.ltb_lt.
    + intros [= <- <-]. split; [done|]. exists []. rewrite app_nil_r.
      split_and!; [done|constructor|by intros []|].
      simpl. intros doc' [= <-]. exists entry. split; [done|]. by apply Nat.ltb_ge.
Qed.

(** X25. The documents put in a briefing prompt stay within its
    budget: the entries selected are those of the best-ranked documents,
    in order, up to the first one that does not fit; together they are
    shorter than 120000 characters; and the documents after the first
    one that does not fit are dropped, even those that would fit. *)
Theorem prompt_documents_within_budget {W} items (w : W) selected w' :
  select_documents items [] 0 w = (Return selected, w') →
  w' = w
  ∧ total_length selected < 120000
  ∧ Forall2 (λ doc entry, doc_entry doc w = (Return entry, w))
      (take (length selected) items) selected
  ∧ ∀ doc, items !! length selected = Some doc →
      ∃ entry, doc_entry doc w = (Return entry, w)
               ∧ 120000 ≤ total_length selected + String.length entry.
Proof.
  intros Hsel. destruct (select_documents_spec items [] w selected w' Hsel)
    as (-> & more & Heq & Hall & Hlt & Hnext).
  simpl in Heq. subst more. split_and!; [done| |done|done].
  destruct selected as [|x l]; [|by apply Hlt].
  apply Nat.ltb_lt. vm_compute. reflexivity.
Qed.

Lemma prompt_documents_within_budget_witness :
  select_documents [ ({[ "title" := PyStr "About"; "content" := PyStr "Acme makes anvils." ]}
                       : gmap string pyval) ] [] 0 tt
    = (Return ["Title: About" +:+ nl +:+ nl +:+ "Content: Acme makes anvils."], tt)
  ∧ total_length ["Title: About" +:+ nl +:+ nl +:+ "Content: Acme makes anvils."] < 120000.
Proof.
  assert (select_documents
            [ ({[ "title" := PyStr "About"; "content" := PyStr "Acme makes anvils." ]}
                 : gmap string pyval) ] [] 0 tt
          = (Return ["Title: About" +:+ nl +:+ nl +:+ "Content: Acme makes anvils."], tt)) as H
    by (vm_compute; reflexivity).
  split; [exact H|].
  destruct (prompt_documents_within_budget _ tt _ tt H) as (_ & Hlt & _).
  exact Hlt.
Defined.

(** X26. The entry of a document whose title and content are texts
    holds the whole content when that has at most [max_doc_length]
    (8000) characters, and otherwise its first 8000 characters followed
    by the truncation mark; building it has no effect. *)
Theorem long_documents_are_truncated {W} doc (w : W) (title content : string) :
  py_get_or doc "title" (PyStr "") = PyStr title →
  py_or (py_get doc "raw_content") (py_get_or doc "content" (PyStr "")) = PyStr content →
  ∃ kept,
    doc_entry doc w =
      (Return ("Title: " +:+ title +:+ nl +:+ nl +:+ "Content: " +:+ kept), w)
    ∧ String.length kept ≤ max_doc_length + 23
    ∧ (String.length content ≤ max_doc_length → kept = content)
    ∧ (max_doc_length < String.length content →
       kept = take_chars max_doc_length content +:+ "... [content truncated]"
       ∧ String.length kept = max_doc_length + 23).
Proof.
  intros Ht Hc. unfold doc_entry, mbind, M_bind, bind.
  rewrite Hc Ht. cbn [py_len py_str]. unfold ret.
  destruct (max_doc_length <? String.length content) eqn:Hlen.
  - apply Nat.ltb_lt in Hlen.
    exists (take_chars max_doc_length content +:+ "... [content truncated]").
    split; [done|].
    assert (String.length (take_chars max_doc_length content +:+ "... [content truncated]")
            = max_doc_length + 23) as Hk.
    { rewrite length_append length_take_chars. simpl String.length. lia. }
    split_and!; [lia|lia|done].
  - apply Nat.ltb_ge in Hlen. exists content. split; [done|].
    split_and!; [lia|done|lia].
Qed.

Lemma long_documents_are_truncated_witness :
  let doc : gmap string pyval :=
    {[ "title" := PyStr "About"; "content" := PyStr "Acme makes anvils." ]} in
  py_get_or doc "title" (PyStr "") = PyStr "About"
  ∧ py_or (py_get doc "raw_content") (py_get_or doc "content" (PyStr ""))
    = PyStr "Acme makes anvils."
  ∧ ∃ kept,
      doc_entry doc tt =
        (Return ("Title: " +:+ "About" +:+ nl +:+ nl +:+ "Content: " +:+ kept), tt)
      ∧ String.length kept ≤ max_doc_length + 23.
Proof.
  intros doc.
  assert (py_get_or doc "title" (PyStr "") = PyStr "About") as H1
    by (vm_compute; reflexivity).
  assert (py_or (py_get doc "raw_content") (py_get_or doc "content" (PyStr ""))
          = PyStr "Acme makes anvils.") as H2 by (vm_compute; reflexivity).
  split; [exact H1|]. split; [exact H2|].
  destruct (long_documents_are_truncated doc tt "About" "Acme makes anvils." H1 H2)
    as (kept & Ha & Hb & _).
  exists kept. split; [exact Ha|exact Hb].
Defined.

End prompt_documents.
